(** * Finance tracker: aggregation rules, forms and row-level security

    A shallow embedding of the client-side aggregation code
    (Dashboard.tsx, Stats.tsx, BudgetManager.tsx), of the three form
    submit handlers (TransactionForm, CategoryManager, BudgetManager) and
    of the table and policy declarations of the schema migration.

    Modelling conventions.
    - An [amount] is a [numeric(10,2)] column: it is represented exactly,
      by its number of hundredths, as a [Z].  Sums and differences are
      therefore exact; the binary rounding of JavaScript numbers is not
      represented.  Quotients (percentages) are rationals, and a quotient
      whose divisor is zero (JavaScript yields NaN or an infinity) is
      [None].
    - A [Date] object is its time value: milliseconds since the epoch, a
      [Z].  The host time zone is a fixed offset [tza] (milliseconds east
      of UTC, ECMAScript's LocalTZA) with no daylight-saving change.
    - One rendering reads the clock once: every [new Date()] of a
      rendering is the same instant [now].  The clock reads a time of
      the present era: where a year obtained from it is passed to
      [new Date(year, month, date)], the rule of that constructor for
      the years 0 to 99 is not in play.  Where the year comes from
      stored data (the month of a budget) the rule is modelled. *)

From Stdlib Require Import ZArith List Bool String Lia QArith Qminmax.
From Stdlib Require Import Sorted Permutation.
Import ListNotations.
Open Scope Z_scope.

(* ================================================================= *)
(** ** The JavaScript [Date] operations the components use *)

Module JSDate.

Definition msPerDay : Z := 86400000.

(** ECMAScript [Day(t)] and [TimeWithinDay(t)]. *)
Definition Day (t : Z) : Z := t / msPerDay.
Definition TimeWithinDay (t : Z) : Z := t mod msPerDay.

(** Day number (days since 1970-01-01) of the proleptic Gregorian date
    [y]-[m]-[d], month [m] counted from 1. *)
Definition days_from_civil (y m d : Z) : Z :=
  let y' := if m <=? 2 then y - 1 else y in
  let era := y' / 400 in
  let yoe := y' - era * 400 in
  let mp := if 2 <? m then m - 3 else m + 9 in
  let doy := (153 * mp + 2) / 5 + d - 1 in
  let doe := yoe * 365 + yoe / 4 - yoe / 100 + doy in
  era * 146097 + doe - 719468.

(** Year, month (from 1) and day of month of a day number. *)
Definition civil_from_days (z : Z) : Z * Z * Z :=
  let z' := z + 719468 in
  let era := z' / 146097 in
  let doe := z' - era * 146097 in
  let yoe := (doe - doe / 1460 + doe / 36524 - doe / 146096) / 365 in
  let doy := doe - (365 * yoe + yoe / 4 - yoe / 100) in
  let mp := (5 * doy + 2) / 153 in
  let d := doy - (153 * mp + 2) / 5 + 1 in
  let m := if mp <? 10 then mp + 3 else mp - 9 in
  let y := yoe + era * 400 + (if m <=? 2 then 1 else 0) in
  (y, m, d).

(** ECMAScript [YearFromTime], [MonthFromTime] (from 0), [DateFromTime]. *)
Definition YearFromTime (t : Z) : Z :=
  let '(y, _, _) := civil_from_days (Day t) in y.
Definition MonthFromTime (t : Z) : Z :=
  let '(_, m, _) := civil_from_days (Day t) in m - 1.
Definition DateFromTime (t : Z) : Z :=
  let '(_, _, d) := civil_from_days (Day t) in d.

(** ECMAScript [MakeDay(year, month, date)], month from 0 and allowed
    to overflow, and [MakeDate(day, time)]. *)
Definition MakeDay (year month date : Z) : Z :=
  let ym := year + month / 12 in
  let mn := month mod 12 in
  days_from_civil ym (mn + 1) 1 + date - 1.
Definition MakeDate (day time : Z) : Z := day * msPerDay + time.

(** ECMAScript [MakeFullYear(year)]: a year from 0 to 99 stands for
    1900 + year. *)
Definition MakeFullYear (year : Z) : Z :=
  if (0 <=? year) && (year <=? 99) then 1900 + year else year.

(** A calendar date as the store serialises a [date] column:
    ["YYYY-MM-DD"]. *)
Record ISODate : Type := mkDate { yr : Z; mo : Z; dy : Z }.

(** [new Date("YYYY-MM-DD")]: a date-only form is read as UTC midnight. *)
Definition parse (s : ISODate) : Z :=
  MakeDate (MakeDay (yr s) (mo s - 1) (dy s)) 0.

Section Zone.
(** Offset of local time from UTC, in milliseconds. *)
Variable tza : Z.

Definition LocalTime (t : Z) : Z := t + tza.
Definition UTC (t : Z) : Z := t - tza.

(** [d.getFullYear()], [d.getMonth()], [d.getDate()]: local fields. *)
Definition getFullYear (t : Z) : Z := YearFromTime (LocalTime t).
Definition getMonth (t : Z) : Z := MonthFromTime (LocalTime t).
Definition getDate (t : Z) : Z := DateFromTime (LocalTime t).

(** Local midnight of the day [MakeDay(year, month, date)]. *)
Definition localMidnight (year month date : Z) : Z :=
  UTC (MakeDate (MakeDay year month date) 0).

(** [new Date(year, month, date)]: local midnight of that day, the year
    read through [MakeFullYear]. *)
Definition fromFields (year month date : Z) : Z :=
  localMidnight (MakeFullYear year) month date.

(** [d.setDate(dt)]: the time value [d] holds afterwards. *)
Definition setDate (t dt : Z) : Z :=
  let l := LocalTime t in
  UTC (MakeDate (MakeDay (YearFromTime l) (MonthFromTime l) dt)
                (TimeWithinDay l)).

(** [d.toDateString()], e.g. ["Wed Jan 10 2024"]: the local year,
    month and day of month (the weekday is a function of them). *)
Definition toDateString (t : Z) : Z * Z * Z :=
  (getFullYear t, getMonth t, getDate t).
End Zone.

(** [d.toISOString().slice(0, 7)]: the UTC year and month, ["YYYY-MM"]. *)
Definition toISOMonth (t : Z) : Z * Z :=
  (YearFromTime t, MonthFromTime t + 1).

(** [ym + '-01']. *)
Definition firstOfMonth (ym : Z * Z) : ISODate :=
  mkDate (fst ym) (snd ym) 1.

Definition date_eqb (a b : Z * Z * Z) : bool :=
  let '(y1, m1, d1) := a in
  let '(y2, m2, d2) := b in
  (y1 =? y2) && (m1 =? m2) && (d1 =? d2).

End JSDate.

Import JSDate.

(* ================================================================= *)
(** ** Data model (lib/supabase.ts) *)

Inductive Kind : Type := Expense | Income.

Definition kind_eqb (a b : Kind) : bool :=
  match a, b with
  | Expense, Expense | Income, Income => true
  | _, _ => false
  end.

Record Category : Type := mkCategory {
  c_id : string;
  c_user_id : string;
  c_name : string;
  c_type : Kind;
  c_color : string;
  c_icon : string
}.

Record Transaction : Type := mkTransaction {
  t_id : string;
  t_user_id : string;
  t_category_id : string;
  t_amount : Z;
  t_description : string;
  t_date : ISODate;
  t_type : Kind
}.

Record Budget : Type := mkBudget {
  b_id : string;
  b_user_id : string;
  b_category_id : string;
  b_amount : Z;
  b_month : ISODate
}.

(** [l.reduce((sum, t) => sum + Number(t.amount), 0)] *)
Definition sumAmounts (l : list Transaction) : Z :=
  fold_left (fun sum t => sum + t_amount t) l 0.

(* ================================================================= *)
(** ** Dashboard.tsx *)

Module Dashboard.

Definition totalIncome (transactions : list Transaction) : Z :=
  sumAmounts (filter (fun t => kind_eqb (t_type t) Income) transactions).

Definition totalExpenses (transactions : list Transaction) : Z :=
  sumAmounts (filter (fun t => kind_eqb (t_type t) Expense) transactions).

Definition balance (transactions : list Transaction) : Z :=
  totalIncome transactions - totalExpenses transactions.

End Dashboard.

(* ================================================================= *)
(** ** Shared helpers of the components *)

(** [arr.sort(cmp)]: the sort is stable and orders by the comparator,
    [cmp a b <= 0] keeping [a] before [b]. *)
Fixpoint js_insert {A : Type} (cmp : A -> A -> Z) (x : A) (l : list A)
  : list A :=
  match l with
  | [] => [x]
  | y :: l' => if cmp x y <=? 0 then x :: y :: l'
               else y :: js_insert cmp x l'
  end.

Definition js_sort {A : Type} (cmp : A -> A -> Z) (l : list A) : list A :=
  fold_right (js_insert cmp) [] l.

(** [a / b] on numbers: [None] stands for the non-finite results (NaN,
    infinities) of a zero divisor. *)
Definition js_div (a b : Z) : option Q :=
  if b =? 0 then None else Some (inject_Z a / inject_Z b)%Q.

(** [x * 100] on the result of a division. *)
Definition times100 (x : option Q) : option Q :=
  option_map (fun q => (q * 100)%Q) x.

(* ================================================================= *)
(** ** Stats.tsx *)

Module Stats.

(** An item of [expensesByCategory]: [{ category, total }]. *)
Record Item : Type := mkItem { category : Category; total : Z }.

(** An element of [dailyData]: [{ date, expenses, income }]; [date] is
    the short weekday name, here the weekday number (0 = Sunday). *)
Record DayData : Type := mkDay { date : Z; expenses : Z; income : Z }.

(** What the "Top Expenses This Month" card shows: the placeholder
    text, or one bar per item with its amount and percentage. *)
Inductive TopExpensesCard : Type :=
| NoExpensesThisMonth
| Bars (rows : list (Category * Z * option Q)).

Section Render.
Variable tza : Z.
Variable now : Z.
Variable transactions : list Transaction.
Variable categories : list Category.

Definition currentMonth : Z * Z := toISOMonth now.
Definition monthStart : Z := parse (firstOfMonth currentMonth).
(** [new Date(monthStart.getFullYear(), monthStart.getMonth() + 1, 0)].
    The year is that of the clock reading, a year of the present era,
    which [MakeFullYear] leaves as it is. *)
Definition monthEnd : Z :=
  localMidnight tza (getFullYear tza monthStart)
                 (getMonth tza monthStart + 1) 0.

Definition monthTransactions : list Transaction :=
  filter (fun t =>
            let tDate := parse (t_date t) in
            (monthStart <=? tDate) && (tDate <=? monthEnd))
         transactions.

(** The [total] of one category over the month's transactions. *)
Definition categoryTotal (category : Category) : Z :=
  sumAmounts
    (filter (fun t => String.eqb (t_category_id t) (c_id category)
                      && kind_eqb (t_type t) Expense)
            monthTransactions).

(** The list after [.filter(c => c.type === 'expense').map(...)]. *)
Definition categoryTotals : list Item :=
  map (fun category => mkItem category (categoryTotal category))
      (filter (fun c => kind_eqb (c_type c) Expense) categories).

Definition expensesByCategory : list Item :=
  firstn 5
    (js_sort (fun a b => total b - total a)
       (filter (fun item => 0 <? total item) categoryTotals)).

Definition totalMonthExpenses : Z :=
  sumAmounts
    (filter (fun t => kind_eqb (t_type t) Expense) monthTransactions).

Definition thirtyDaysAgo : Z := setDate tza now (getDate tza now - 30).

Definition last30Days : list Transaction :=
  filter (fun t => thirtyDaysAgo <=? parse (t_date t)) transactions.

(** The [date] object of iteration [i] of [Array.from]. *)
Definition dayDate (i : Z) : Z :=
  setDate tza now (getDate tza now - (6 - i)).

(** One element of the series, computed from the list [source]
    ([last30Days] in the component). *)
Definition dayEntry (source : list Transaction) (i : Z) : DayData :=
  let date := dayDate i in
  let dayTransactions :=
    filter (fun t => date_eqb (toDateString tza (parse (t_date t)))
                              (toDateString tza date))
           source in
  let expenses :=
    sumAmounts
      (filter (fun t => kind_eqb (t_type t) Expense) dayTransactions) in
  let income :=
    sumAmounts
      (filter (fun t => kind_eqb (t_type t) Income) dayTransactions) in
  mkDay ((Day (LocalTime tza date) + 4) mod 7) expenses income.

(** [Array.from({ length: 7 }, (_, i) => ...)] *)
Definition dailyDataFrom (source : list Transaction) : list DayData :=
  map (dayEntry source) [0; 1; 2; 3; 4; 5; 6].

Definition dailyData : list DayData := dailyDataFrom last30Days.

(** [Math.max(...dailyData.map(d => Math.max(d.expenses, d.income)),
    100)]: the floor is the amount 100, which is 10000 hundredths. *)
Definition maxAmount : Z :=
  fold_right Z.max 10000
    (map (fun d => Z.max (expenses d) (income d)) dailyData).

(** [(total / totalMonthExpenses) * 100] *)
Definition percentage (total : Z) : option Q :=
  times100 (js_div total totalMonthExpenses).

(** The divisions the card evaluates while rendering, as
    (dividend, divisor): one per mapped item, none for the
    placeholder. *)
Definition divisions : list (Z * Z) :=
  map (fun item => (total item, totalMonthExpenses)) expensesByCategory.

Definition topExpensesCard : TopExpensesCard :=
  match expensesByCategory with
  | [] => NoExpensesThisMonth
  | items =>
      Bars (map (fun item =>
                   (category item, total item, percentage (total item)))
                items)
  end.
End Render.

End Stats.

(* ================================================================= *)
(** ** BudgetManager.tsx: the budget cards *)

Module BudgetCards.

(** What one budget card shows. *)
Record Card : Type := mkCard {
  spent : Z;
  percentage : option Q;
  isOverBudget : bool;
  (** width of the bar, [Math.min(percentage, 100)] *)
  barWidth : option Q;
  (** the "Over budget by" line, present when [isOverBudget] *)
  overBudgetBy : option Z
}.

Section Render.
Variable tza : Z.
Variable transactions : list Transaction.

Definition monthStart (budgetMonth : ISODate) : Z := parse budgetMonth.
Definition monthEnd (budgetMonth : ISODate) : Z :=
  fromFields tza (getFullYear tza (monthStart budgetMonth))
                 (getMonth tza (monthStart budgetMonth) + 1) 0.

Definition getSpentAmount (categoryId : string) (budgetMonth : ISODate)
  : Z :=
  sumAmounts
    (filter (fun t =>
               String.eqb (t_category_id t) categoryId
               && kind_eqb (t_type t) Expense
               && (monthStart budgetMonth <=? parse (t_date t))
               && (parse (t_date t) <=? monthEnd budgetMonth))
            transactions).

Definition card (budget : Budget) : Card :=
  let spent := getSpentAmount (b_category_id budget) (b_month budget) in
  let percentage := times100 (js_div spent (b_amount budget)) in
  let isOverBudget := b_amount budget <? spent in
  mkCard spent percentage isOverBudget
         (option_map (fun p => Qmin p 100) percentage)
         (if isOverBudget then Some (spent - b_amount budget) else None).
End Render.

End BudgetCards.

(* ================================================================= *)
(** ** The schema migration: tables, constraints, row-level security *)

Module Store.

(** [auth.uid()]: the identity of an authenticated request; [None] for
    a request outside a session (role [anon]). *)
Definition Caller : Type := option string.

(** The five policy expressions a table can carry, each a predicate of
    [auth.uid()] and the row. *)
Record Policies (Row : Type) : Type := mkPolicies {
  select_using : string -> Row -> bool;
  insert_check : string -> Row -> bool;
  update_using : string -> Row -> bool;
  update_check : string -> Row -> bool;
  delete_using : string -> Row -> bool
}.
Arguments mkPolicies {Row}.
Arguments select_using {Row}.
Arguments insert_check {Row}.
Arguments update_using {Row}.
Arguments update_check {Row}.
Arguments delete_using {Row}.

(** Policies on [categories]: [auth.uid() = user_id] throughout. *)
Definition categories_policies : Policies Category :=
  mkPolicies
    (fun uid r => String.eqb uid (c_user_id r))
    (fun uid r => String.eqb uid (c_user_id r))
    (fun uid r => String.eqb uid (c_user_id r))
    (fun uid r => String.eqb uid (c_user_id r))
    (fun uid r => String.eqb uid (c_user_id r)).

(** Policies on [transactions]. *)
Definition transactions_policies : Policies Transaction :=
  mkPolicies
    (fun uid r => String.eqb uid (t_user_id r))
    (fun uid r => String.eqb uid (t_user_id r))
    (fun uid r => String.eqb uid (t_user_id r))
    (fun uid r => String.eqb uid (t_user_id r))
    (fun uid r => String.eqb uid (t_user_id r)).

(** Policies on [budgets]. *)
Definition budgets_policies : Policies Budget :=
  mkPolicies
    (fun uid r => String.eqb uid (b_user_id r))
    (fun uid r => String.eqb uid (b_user_id r))
    (fun uid r => String.eqb uid (b_user_id r))
    (fun uid r => String.eqb uid (b_user_id r))
    (fun uid r => String.eqb uid (b_user_id r)).

Section Table.
Context {Row : Type}.
Variable P : Policies Row.

(** Every policy is [TO authenticated] and row security is enabled:
    a request outside a session passes no policy. *)
Definition allowed (expr : string -> Row -> bool) (caller : Caller)
           (r : Row) : bool :=
  match caller with
  | Some uid => expr uid r
  | None => false
  end.

(** [SELECT]: the rows that pass the [USING] expression. *)
Definition rls_select (caller : Caller) (tbl : list Row) : list Row :=
  filter (allowed (select_using P) caller) tbl.

(** [INSERT]: the new row must pass [WITH CHECK]. *)
Definition rls_insert (caller : Caller) (r : Row) (tbl : list Row)
  : option (list Row) :=
  if allowed (insert_check P) caller r then Some (tbl ++ [r]) else None.

(** The rows an [UPDATE ... WHERE target] reaches: those the caller
    can select and update. *)
Definition update_reaches (caller : Caller) (target : Row -> bool)
           (r : Row) : bool :=
  allowed (select_using P) caller r
  && allowed (update_using P) caller r
  && target r.

(** [UPDATE]: every rewritten row must pass [WITH CHECK], else the
    statement fails as a whole. *)
Definition rls_update (caller : Caller) (target : Row -> bool)
           (set : Row -> Row) (tbl : list Row) : option (list Row) :=
  if forallb (fun r => negb (update_reaches caller target r)
                       || allowed (update_check P) caller (set r)) tbl
  then Some (map (fun r => if update_reaches caller target r
                           then set r else r) tbl)
  else None.

Definition delete_reaches (caller : Caller) (target : Row -> bool)
           (r : Row) : bool :=
  allowed (select_using P) caller r
  && allowed (delete_using P) caller r
  && target r.

(** [DELETE ... WHERE target]. *)
Definition rls_delete (caller : Caller) (target : Row -> bool)
           (tbl : list Row) : list Row :=
  filter (fun r => negb (delete_reaches caller target r)) tbl.
End Table.

Record Database : Type := mkDatabase {
  categories : list Category;
  transactions : list Transaction;
  budgets : list Budget
}.

Inductive StoreError : Type :=
| RowSecurityViolation
| NotNullViolation
| CheckViolation
| UniqueViolation
| ForeignKeyViolation.

(** [error.message] of a rejected request, in short: the store names
    the table or the constraint as well. *)
Definition message (e : StoreError) : string :=
  match e with
  | RowSecurityViolation => "new row violates row-level security policy"
  | NotNullViolation => "null value violates not-null constraint"
  | CheckViolation => "new row violates check constraint"
  | UniqueViolation => "duplicate key value violates unique constraint"
  | ForeignKeyViolation => "insert violates foreign key constraint"
  end.

Definition isodate_eqb (a b : ISODate) : bool :=
  (yr a =? yr b) && (mo a =? mo b) && (dy a =? dy b).

(** [UNIQUE(user_id, category_id, month)] *)
Definition same_budget_key (a b : Budget) : bool :=
  String.eqb (b_user_id a) (b_user_id b)
  && String.eqb (b_category_id a) (b_category_id b)
  && isodate_eqb (b_month a) (b_month b).

(** [category_id uuid REFERENCES categories(id)] *)
Definition category_exists (db : Database) (cid : string) : bool :=
  existsb (fun c => String.eqb (c_id c) cid) (categories db).

(** [INSERT INTO categories]. *)
Definition insert_category (caller : Caller) (row : Category)
           (db : Database) : StoreError + Database :=
  match rls_insert categories_policies caller row (categories db) with
  | None => inl RowSecurityViolation
  | Some tbl => inr (mkDatabase tbl (transactions db) (budgets db))
  end.

(** [INSERT INTO transactions]: policy, [CHECK (amount > 0)], foreign
    key. *)
Definition insert_transaction (caller : Caller) (row : Transaction)
           (db : Database) : StoreError + Database :=
  match rls_insert transactions_policies caller row (transactions db) with
  | None => inl RowSecurityViolation
  | Some tbl =>
      if negb (0 <? t_amount row) then inl CheckViolation
      else if negb (category_exists db (t_category_id row))
           then inl ForeignKeyViolation
      else inr (mkDatabase (categories db) tbl (budgets db))
  end.

(** [INSERT INTO budgets]: policy, [CHECK (amount > 0)], the
    uniqueness constraint, foreign key. *)
Definition insert_budget (caller : Caller) (row : Budget)
           (db : Database) : StoreError + Database :=
  match rls_insert budgets_policies caller row (budgets db) with
  | None => inl RowSecurityViolation
  | Some tbl =>
      if negb (0 <? b_amount row) then inl CheckViolation
      else if existsb (same_budget_key row) (budgets db)
           then inl UniqueViolation
      else if negb (category_exists db (b_category_id row))
           then inl ForeignKeyViolation
      else inr (mkDatabase (categories db) (transactions db) tbl)
  end.

(** *** Rows as a request proposes them

    An [INSERT] names the columns of its payload, and a column it
    leaves out takes the default the table declares: [id] is
    [gen_random_uuid()], [user_id] has no default and is null.  A
    number that is not one ([parseFloat] of an empty field) arrives as
    null.  The other values are taken as well formed for their columns
    (the forms mark their fields [required] and offer identifiers and
    dates through a select and a date field): the errors of the store
    for malformed values are not represented. *)
Record NewCategory : Type := mkNewCategory {
  nc_user_id : option string;
  nc_name : string;
  nc_type : Kind;
  nc_color : string;
  nc_icon : string
}.

Record NewTransaction : Type := mkNewTransaction {
  nt_user_id : option string;
  nt_category_id : string;
  nt_amount : option Z;
  nt_description : string;
  nt_date : ISODate;
  nt_type : Kind
}.

Record NewBudget : Type := mkNewBudget {
  nb_user_id : option string;
  nb_category_id : string;
  nb_amount : option Z;
  nb_month : ISODate
}.

(** [auth.uid() = user_id] on a proposed row: compared with a null
    [user_id] it is null, not true; and no policy applies outside a
    session. *)
Definition owner_check (caller : Caller) (user_id : option string) : bool :=
  match caller, user_id with
  | Some uid, Some o => String.eqb uid o
  | _, _ => false
  end.

(** An [INSERT] of a proposed row: the [WITH CHECK] of the policy is
    evaluated first, then the [NOT NULL] constraints, then the rest as
    for a full row. *)
Definition propose_category (caller : Caller) (id : string)
           (p : NewCategory) (db : Database) : StoreError + Database :=
  if negb (owner_check caller (nc_user_id p)) then inl RowSecurityViolation
  else match nc_user_id p with
       | Some o =>
           insert_category caller
             (mkCategory id o (nc_name p) (nc_type p) (nc_color p)
                         (nc_icon p)) db
       | None => inl NotNullViolation
       end.

Definition propose_transaction (caller : Caller) (id : string)
           (p : NewTransaction) (db : Database) : StoreError + Database :=
  if negb (owner_check caller (nt_user_id p)) then inl RowSecurityViolation
  else match nt_user_id p, nt_amount p with
       | Some o, Some a =>
           insert_transaction caller
             (mkTransaction id o (nt_category_id p) a (nt_description p)
                            (nt_date p) (nt_type p)) db
       | _, _ => inl NotNullViolation
       end.

Definition propose_budget (caller : Caller) (id : string)
           (p : NewBudget) (db : Database) : StoreError + Database :=
  if negb (owner_check caller (nb_user_id p)) then inl RowSecurityViolation
  else match nb_user_id p, nb_amount p with
       | Some o, Some a =>
           insert_budget caller
             (mkBudget id o (nb_category_id p) a (nb_month p)) db
       | _, _ => inl NotNullViolation
       end.

(** The uniqueness invariant of [budgets]: no two rows at different
    positions share a key. *)
Fixpoint budgets_unique (l : list Budget) : bool :=
  match l with
  | [] => true
  | b :: l' => negb (existsb (same_budget_key b) l') && budgets_unique l'
  end.

End Store.

(* ================================================================= *)
(** ** The submit handlers of the three forms *)

Module Forms.

(** The callbacks Dashboard passes to the components. *)
Inductive Callback : Type := OnUpdate | OnSuccess | OnClose.

(** What a handler runs against: the store, the session of the
    browser, the identifier [gen_random_uuid()] gives the next row, the
    clock, the state of the component, the callbacks invoked so far and
    the number of insert requests sent. *)
Record World (UI : Type) : Type := mkWorld {
  store : Store.Database;
  session : Store.Caller;
  fresh_id : string;
  clock : Z;
  ui : UI;
  called : list Callback;
  requests : nat
}.
Arguments mkWorld {UI}.
Arguments store {UI}.
Arguments session {UI}.
Arguments fresh_id {UI}.
Arguments clock {UI}.
Arguments ui {UI}.
Arguments called {UI}.
Arguments requests {UI}.

(** Handlers are sequences of state changes: a state monad. *)
Definition M (UI A : Type) : Type := World UI -> A * World UI.

Definition ret {UI A : Type} (a : A) : M UI A := fun w => (a, w).

Definition bind {UI A B : Type} (m : M UI A) (k : A -> M UI B) : M UI B :=
  fun w => let (a, w') := m w in k a w'.

Notation "x <- m ;; k" := (bind m (fun x => k))
  (at level 61, m at next level, right associativity).
Notation "m ;; k" := (bind m (fun _ => k))
  (at level 61, right associativity).

(** A state setter of the component ([setLoading(true)] and the like). *)
Definition set {UI : Type} (f : UI -> UI) : M UI unit :=
  fun w => (tt, mkWorld (store w) (session w) (fresh_id w) (clock w)
                        (f (ui w)) (called w) (requests w)).

Definition call {UI : Type} (c : Callback) : M UI unit :=
  fun w => (tt, mkWorld (store w) (session w) (fresh_id w) (clock w)
                        (ui w) (called w ++ [c]) (requests w)).

Definition readClock {UI : Type} : M UI Z := fun w => (clock w, w).

(** [await supabase.from(tbl).insert(payload)]: one request; the
    result is the [error] of the response, the store changes when the
    row is accepted. *)
Definition request {UI : Type}
           (op : Store.Caller -> string -> Store.Database ->
                 Store.StoreError + Store.Database)
  : M UI (option Store.StoreError) :=
  fun w =>
    match op (session w) (fresh_id w) (store w) with
    | inl e => (Some e, mkWorld (store w) (session w) (fresh_id w)
                                (clock w) (ui w) (called w)
                                (S (requests w)))
    | inr db => (None, mkWorld db (session w) (fresh_id w) (clock w)
                               (ui w) (called w) (S (requests w)))
    end.

(* --------------------------------------------------------------- *)
(** *** CategoryManager *)

Module CategoryManager.

Definition COLORS0 : string := "#ef4444".
Definition ICONS0 : string := "DollarSign".

Record State : Type := mkState {
  showForm : bool;
  name : string;
  type : Kind;
  color : string;
  icon : string;
  loading : bool
}.

Definition setShowForm (v : bool) (s : State) : State :=
  mkState v (name s) (type s) (color s) (icon s) (loading s).
Definition setName (v : string) (s : State) : State :=
  mkState (showForm s) v (type s) (color s) (icon s) (loading s).
Definition setType (v : Kind) (s : State) : State :=
  mkState (showForm s) (name s) v (color s) (icon s) (loading s).
Definition setColor (v : string) (s : State) : State :=
  mkState (showForm s) (name s) (type s) v (icon s) (loading s).
Definition setIcon (v : string) (s : State) : State :=
  mkState (showForm s) (name s) (type s) (color s) v (loading s).
Definition setLoading (v : bool) (s : State) : State :=
  mkState (showForm s) (name s) (type s) (color s) (icon s) v.

(** [supabase.from('categories').insert({ name, type, color, icon })]:
    the payload names no [user_id]. *)
Definition insert (s : State) : M State (option Store.StoreError) :=
  request (fun caller id db =>
    Store.propose_category caller id
      (Store.mkNewCategory None (name s) (type s) (color s) (icon s)) db).

Definition handleSubmit : M State unit :=
  fun w =>
    (set (setLoading true) ;;
     insert (ui w) ;;
     set (setName "") ;;
     set (setType Expense) ;;
     set (setColor COLORS0) ;;
     set (setIcon ICONS0) ;;
     set (setLoading false) ;;
     set (setShowForm false) ;;
     call OnUpdate) w.

(** The form is on screen while [showForm]; its submit button is
    [disabled={loading}]; the component has no element that shows an
    error. *)
Definition formOpen (w : World State) : bool := showForm (ui w).
Definition submitEnabled (w : World State) : bool :=
  negb (loading (ui w)).
Definition shownError (w : World State) : option string := None.

End CategoryManager.

(* --------------------------------------------------------------- *)
(** *** TransactionForm *)

Module TransactionForm.

Record State : Type := mkState {
  type : Kind;
  amount : option Z;
  description : string;
  categoryId : string;
  date : ISODate;
  loading : bool;
  error : string
}.

Definition setLoading (v : bool) (s : State) : State :=
  mkState (type s) (amount s) (description s) (categoryId s) (date s)
          v (error s).
Definition setError (v : string) (s : State) : State :=
  mkState (type s) (amount s) (description s) (categoryId s) (date s)
          (loading s) v.

(** [supabase.from('transactions').insert({ type, amount:
    parseFloat(amount), description, category_id: categoryId, date })]:
    the payload names no [user_id]. *)
Definition insert (s : State) : M State (option Store.StoreError) :=
  request (fun caller id db =>
    Store.propose_transaction caller id
      (Store.mkNewTransaction None (categoryId s) (amount s)
                              (description s) (date s) (type s)) db).

Definition handleSubmit : M State unit :=
  fun w =>
    (set (setError "") ;;
     set (setLoading true) ;;
     submitError <- insert (ui w) ;;
     match submitError with
     | Some e =>
         set (setError (Store.message e)) ;;
         set (setLoading false)
     | None => call OnSuccess
     end) w.

(** Dashboard shows the form until [onClose] or [onSuccess] (which
    both end in [setShowTransactionForm(false)]); the submit button
    is [disabled={loading}]; a non-empty [error] is rendered. *)
Definition formOpen (w : World State) : bool :=
  negb (existsb (fun c => match c with
                          | OnSuccess | OnClose => true
                          | OnUpdate => false
                          end) (called w)).
Definition submitEnabled (w : World State) : bool :=
  negb (loading (ui w)).
Definition shownError (w : World State) : option string :=
  if String.eqb (error (ui w)) "" then None else Some (error (ui w)).

End TransactionForm.

(* --------------------------------------------------------------- *)
(** *** BudgetManager *)

Module BudgetManager.

Record State : Type := mkState {
  showForm : bool;
  categoryId : string;
  amount : option Z;
  (** the value of the month field, ["YYYY-MM"] *)
  month : Z * Z;
  loading : bool
}.

Definition setShowForm (v : bool) (s : State) : State :=
  mkState v (categoryId s) (amount s) (month s) (loading s).
Definition setCategoryId (v : string) (s : State) : State :=
  mkState (showForm s) v (amount s) (month s) (loading s).
Definition setAmount (v : option Z) (s : State) : State :=
  mkState (showForm s) (categoryId s) v (month s) (loading s).
Definition setMonth (v : Z * Z) (s : State) : State :=
  mkState (showForm s) (categoryId s) (amount s) v (loading s).
Definition setLoading (v : bool) (s : State) : State :=
  mkState (showForm s) (categoryId s) (amount s) (month s) v.

(** [supabase.from('budgets').insert({ category_id: categoryId,
    amount: parseFloat(amount), month: month + '-01' })]: the payload
    names no [user_id]. *)
Definition insert (s : State) : M State (option Store.StoreError) :=
  request (fun caller id db =>
    Store.propose_budget caller id
      (Store.mkNewBudget None (categoryId s) (amount s)
                         (firstOfMonth (month s))) db).

Definition handleSubmit : M State unit :=
  fun w =>
    (set (setLoading true) ;;
     insert (ui w) ;;
     set (setCategoryId "") ;;
     set (setAmount None) ;;
     now <- readClock ;;
     set (setMonth (toISOMonth now)) ;;
     set (setLoading false) ;;
     set (setShowForm false) ;;
     call OnUpdate) w.

Definition formOpen (w : World State) : bool := showForm (ui w).
Definition submitEnabled (w : World State) : bool :=
  negb (loading (ui w)).
Definition shownError (w : World State) : option string := None.

End BudgetManager.

End Forms.

(* ================================================================= *)
(** ** Vocabulary of the statements *)

(** "The sum of amount over the transactions": the amounts added up,
    element by element. *)
Definition total_of (l : list Transaction) : Z :=
  fold_right (fun t acc => t_amount t + acc) 0 l.

(** The sum of a list of numbers. *)
Definition Zsum (l : list Z) : Z := fold_right Z.add 0 l.

(** The comparator [(a, b) => key(b) - key(a)] and the order it
    produces: larger keys first, equal keys in either order. *)
Definition descending {A : Type} (key : A -> Z) (a b : A) : Z :=
  key b - key a.
Definition not_below {A : Type} (key : A -> Z) (a b : A) : Prop :=
  key b <= key a.

(** Strictly descending keys. *)
Definition strictly_above {A : Type} (key : A -> Z) (a b : A) : Prop :=
  key b < key a.

(** The day number of a calendar date, and the calendar day on which
    an instant falls in local time. *)
Definition dayNumber (s : ISODate) : Z :=
  MakeDay (yr s) (mo s - 1) (dy s).
Definition localDay (tza t : Z) : Z := Day (LocalTime tza t).

(** "The sum of amounts over the transactions whose date equals that
    exact calendar day, filtered by kind". *)
Definition total_on_day (day : Z) (k : Kind) (l : list Transaction) : Z :=
  total_of
    (filter (fun t => (dayNumber (t_date t) =? day)
                      && kind_eqb (t_type t) k) l).

(** "The sum of amounts of the expense transactions in the budget's
    category whose date lies in the month of the budget": the dates of
    the same year and month as [budget.month]. *)
Definition same_month (a b : ISODate) : bool :=
  (yr a =? yr b) && (mo a =? mo b).
Definition spent_in_month (budget : Budget) (l : list Transaction) : Z :=
  total_of
    (filter (fun t => String.eqb (t_category_id t) (b_category_id budget)
                      && kind_eqb (t_type t) Expense
                      && same_month (t_date t) (b_month budget)) l).

(** "The month-to-date sum of a category": the sum of the amounts of
    the expense transactions of the category dated in the calendar
    month [month], a year and a month. *)
Definition month_to_date (month : Z * Z) (c : Category)
           (l : list Transaction) : Z :=
  total_of
    (filter (fun t => String.eqb (t_category_id t) (c_id c)
                      && kind_eqb (t_type t) Expense
                      && same_month (t_date t) (firstOfMonth month)) l).

(** Whether a row belongs to the caller, and the rows of a table that
    belong to somebody else. *)
Definition owned_by {Row : Type} (owner : Row -> string)
           (caller : Store.Caller) (r : Row) : bool :=
  match caller with
  | Some uid => String.eqb uid (owner r)
  | None => false
  end.
Definition rows_of_others {Row : Type} (owner : Row -> string)
           (caller : Store.Caller) (tbl : list Row) : list Row :=
  filter (fun r => negb (owned_by owner caller r)) tbl.

(** A table is isolated by owner when, for every caller: an insert is
    accepted only for a row the caller owns; a select returns only rows
    the caller owns; an update, when accepted, leaves the rows of others
    as they were and writes only rows the caller owns; a delete leaves
    the rows of others as they were. *)
Definition isolated_by_owner {Row : Type} (owner : Row -> string)
           (P : Store.Policies Row) : Prop :=
  forall (caller : Store.Caller) (tbl : list Row),
    (forall r tbl',
        Store.rls_insert P caller r tbl = Some tbl' ->
        caller = Some (owner r) /\ tbl' = tbl ++ [r])
    /\ (forall r, caller <> Some (owner r) ->
                  Store.rls_insert P caller r tbl = None)
    /\ (forall r, In r (Store.rls_select P caller tbl) <->
                  In r tbl /\ caller = Some (owner r))
    /\ (forall target set tbl',
          Store.rls_update P caller target set tbl = Some tbl' ->
          rows_of_others owner caller tbl' = rows_of_others owner caller tbl
          /\ forall r', In r' tbl' ->
                        In r' tbl \/ caller = Some (owner r'))
    /\ (forall target,
          rows_of_others owner caller (Store.rls_delete P caller target tbl)
          = rows_of_others owner caller tbl).

(** The Gregorian calendar: leap years, the number of days of a month,
    and the dates that exist. *)
Definition InLeapYear (y : Z) : bool :=
  ((y mod 4 =? 0) && negb (y mod 100 =? 0)) || (y mod 400 =? 0).
Definition DaysInMonth (y m : Z) : Z :=
  if m =? 2 then (if InLeapYear y then 29 else 28)
  else if (m =? 4) || (m =? 6) || (m =? 9) || (m =? 11) then 30 else 31.
Definition valid_date (s : ISODate) : Prop :=
  1 <= mo s <= 12 /\ 1 <= dy s <= DaysInMonth (yr s) (mo s).

(* ================================================================= *)
(** ** Dashboard.tsx: loading the lists *)

Module Loading.

(** [supabase.from('transactions').select(...)
    .order('date', { ascending: false }).limit(100)] in the session of
    [caller]: the rows the select policy lets through, latest date
    first, at most 100 of them.  Rows of the same date come in the order
    of the table (the store promises no order among them). *)
Definition loadTransactions (caller : Store.Caller) (db : Store.Database)
  : list Transaction :=
  firstn 100
    (js_sort (descending (fun t => dayNumber (t_date t)))
       (Store.rls_select Store.transactions_policies caller
                         (Store.transactions db))).

(** [supabase.from('budgets').select(...)
    .order('month', { ascending: false })] *)
Definition loadBudgets (caller : Store.Caller) (db : Store.Database)
  : list Budget :=
  js_sort (descending (fun b => dayNumber (b_month b)))
    (Store.rls_select Store.budgets_policies caller (Store.budgets db)).

End Loading.

(* ================================================================= *)
(** ** Stats.tsx: the bars of the seven-day card *)

Module DayBars.

(** The two widths of a day, in percent:
    [(day.expenses / maxAmount) * 100] and
    [(day.income / maxAmount) * 100]. *)
Definition widths (tza now : Z) (transactions : list Transaction)
  : list (option Q * option Q) :=
  map (fun day =>
         (times100 (js_div (Stats.expenses day)
                           (Stats.maxAmount tza now transactions)),
          times100 (js_div (Stats.income day)
                           (Stats.maxAmount tza now transactions))))
      (Stats.dailyData tza now transactions).

End DayBars.

(* ================================================================= *)
(** ** Deleting: the store and the three delete handlers *)

Module Deleting.

(** Whether [DELETE FROM categories WHERE id = ...] issued by [caller]
    removes the category [c]. *)
Definition category_deleted (caller : Store.Caller) (id : string)
           (c : Category) : bool :=
  Store.delete_reaches Store.categories_policies caller
                       (fun c => String.eqb (c_id c) id) c.

(** [supabase.from('categories').delete().eq('id', id)].  The rows of
    [transactions] and [budgets] that reference a removed category go
    with it ([ON DELETE CASCADE]), whoever owns them: the cascade is not
    subject to the policies. *)
Definition delete_category (caller : Store.Caller) (id : string)
           (db : Store.Database) : Store.Database :=
  let gone := filter (category_deleted caller id) (Store.categories db) in
  let dangling :=
    fun cid => existsb (fun c => String.eqb (c_id c) cid) gone in
  Store.mkDatabase
    (Store.rls_delete Store.categories_policies caller
                      (fun c => String.eqb (c_id c) id)
                      (Store.categories db))
    (filter (fun t => negb (dangling (t_category_id t)))
            (Store.transactions db))
    (filter (fun b => negb (dangling (b_category_id b)))
            (Store.budgets db)).

(** [supabase.from('transactions').delete().eq('id', id)] *)
Definition delete_transaction (caller : Store.Caller) (id : string)
           (db : Store.Database) : Store.Database :=
  Store.mkDatabase
    (Store.categories db)
    (Store.rls_delete Store.transactions_policies caller
                      (fun t => String.eqb (t_id t) id)
                      (Store.transactions db))
    (Store.budgets db).

(** [supabase.from('budgets').delete().eq('id', id)] *)
Definition delete_budget (caller : Store.Caller) (id : string)
           (db : Store.Database) : Store.Database :=
  Store.mkDatabase
    (Store.categories db)
    (Store.transactions db)
    (Store.rls_delete Store.budgets_policies caller
                      (fun b => String.eqb (b_id b) id)
                      (Store.budgets db)).

(** The shape the three handlers share:
    [if (confirm(...)) { await ...delete().eq('id', id); onUpdate(); }].
    The answer to [confirm] is an input. *)
Definition handleDelete {UI : Type}
           (del : Store.Caller -> string -> Store.Database -> Store.Database)
           (confirmed : bool) (id : string) : Forms.M UI unit :=
  if confirmed
  then Forms.bind
         (Forms.request (fun caller _ db => inr (del caller id db)))
         (fun _ => Forms.call Forms.OnUpdate)
  else Forms.ret tt.

(** [handleDelete] of CategoryManager, TransactionList, BudgetManager. *)
Definition categoryHandleDelete (confirmed : bool) (id : string)
  : Forms.M Forms.CategoryManager.State unit :=
  handleDelete delete_category confirmed id.
Definition transactionHandleDelete (confirmed : bool) (id : string)
  : Forms.M unit unit :=
  handleDelete delete_transaction confirmed id.
Definition budgetHandleDelete (confirmed : bool) (id : string)
  : Forms.M Forms.BudgetManager.State unit :=
  handleDelete delete_budget confirmed id.

End Deleting.

(* ================================================================= *)
(** ** The statements the application sends, and what the schema keeps *)

Module Statements.

Inductive Statement : Type :=
| InsertCategory (row : Category)
| InsertTransaction (row : Transaction)
| InsertBudget (row : Budget)
| DeleteCategory (id : string)
| DeleteTransaction (id : string)
| DeleteBudget (id : string).

(** [id uuid PRIMARY KEY]: a row whose [id] is taken is refused.  (The
    check is placed after the others; a row refused for several reasons
    may be reported by the store under another of them.) *)
Definition primary_key {Row : Type} (id : Row -> string) (row : Row)
           (tbl : list Row)
           (accepted : Store.StoreError + Store.Database)
  : Store.StoreError + Store.Database :=
  match accepted with
  | inl e => inl e
  | inr db' =>
      if existsb (fun r => String.eqb (id r) (id row)) tbl
      then inl Store.UniqueViolation
      else inr db'
  end.

Definition exec (caller : Store.Caller) (st : Statement)
           (db : Store.Database) : Store.StoreError + Store.Database :=
  match st with
  | InsertCategory row =>
      primary_key c_id row (Store.categories db)
                  (Store.insert_category caller row db)
  | InsertTransaction row =>
      primary_key t_id row (Store.transactions db)
                  (Store.insert_transaction caller row db)
  | InsertBudget row =>
      primary_key b_id row (Store.budgets db)
                  (Store.insert_budget caller row db)
  | DeleteCategory id => inr (Deleting.delete_category caller id db)
  | DeleteTransaction id => inr (Deleting.delete_transaction caller id db)
  | DeleteBudget id => inr (Deleting.delete_budget caller id db)
  end.

(** What the constraints of the schema say of a database: identifiers
    are distinct in each table, amounts are positive, every transaction
    and budget references a category that exists, and no two budgets
    share owner, category and month. *)
Definition consistent (db : Store.Database) : Prop :=
  NoDup (map c_id (Store.categories db))
  /\ NoDup (map t_id (Store.transactions db))
  /\ NoDup (map b_id (Store.budgets db))
  /\ Forall (fun t => 0 < t_amount t
                      /\ Store.category_exists db (t_category_id t) = true)
            (Store.transactions db)
  /\ Forall (fun b => 0 < b_amount b
                      /\ Store.category_exists db (b_category_id b) = true)
            (Store.budgets db)
  /\ Store.budgets_unique (Store.budgets db) = true.

(** The databases that accepted statements lead to from the empty one. *)
Inductive reachable : Store.Database -> Prop :=
| reach_empty : reachable (Store.mkDatabase [] [] [])
| reach_step (db db' : Store.Database) (caller : Store.Caller)
             (st : Statement) :
    reachable db -> exec caller st db = inr db' -> reachable db'.

End Statements.

(* ================================================================= *)
(** ** TransactionForm.tsx: the fields and what the user can do to them *)

Module TransactionFields.

Definition setType (v : Kind) (s : Forms.TransactionForm.State)
  : Forms.TransactionForm.State :=
  Forms.TransactionForm.mkState
    v (Forms.TransactionForm.amount s) (Forms.TransactionForm.description s)
    (Forms.TransactionForm.categoryId s) (Forms.TransactionForm.date s)
    (Forms.TransactionForm.loading s) (Forms.TransactionForm.error s).
Definition setAmount (v : option Z) (s : Forms.TransactionForm.State)
  : Forms.TransactionForm.State :=
  Forms.TransactionForm.mkState
    (Forms.TransactionForm.type s) v (Forms.TransactionForm.description s)
    (Forms.TransactionForm.categoryId s) (Forms.TransactionForm.date s)
    (Forms.TransactionForm.loading s) (Forms.TransactionForm.error s).
Definition setDescription (v : string) (s : Forms.TransactionForm.State)
  : Forms.TransactionForm.State :=
  Forms.TransactionForm.mkState
    (Forms.TransactionForm.type s) (Forms.TransactionForm.amount s) v
    (Forms.TransactionForm.categoryId s) (Forms.TransactionForm.date s)
    (Forms.TransactionForm.loading s) (Forms.TransactionForm.error s).
Definition setCategoryId (v : string) (s : Forms.TransactionForm.State)
  : Forms.TransactionForm.State :=
  Forms.TransactionForm.mkState
    (Forms.TransactionForm.type s) (Forms.TransactionForm.amount s)
    (Forms.TransactionForm.description s) v (Forms.TransactionForm.date s)
    (Forms.TransactionForm.loading s) (Forms.TransactionForm.error s).
Definition setDate (v : ISODate) (s : Forms.TransactionForm.State)
  : Forms.TransactionForm.State :=
  Forms.TransactionForm.mkState
    (Forms.TransactionForm.type s) (Forms.TransactionForm.amount s)
    (Forms.TransactionForm.description s)
    (Forms.TransactionForm.categoryId s) v
    (Forms.TransactionForm.loading s) (Forms.TransactionForm.error s).

(** The state of a freshly opened form; the date field starts at
    [new Date().toISOString().split('T')[0]], the UTC date of now. *)
Definition initial (now : Z) : Forms.TransactionForm.State :=
  let '(y, m, d) := civil_from_days (Day now) in
  Forms.TransactionForm.mkState Expense None "" "" (mkDate y m d) false "".

(** [categories.filter(c => c.type === type)] *)
Definition filteredCategories (categories : list Category)
           (s : Forms.TransactionForm.State) : list Category :=
  filter (fun c => kind_eqb (c_type c) (Forms.TransactionForm.type s))
         categories.

(** The values of the options of the category select: the empty
    "Select a category" and one per filtered category. *)
Definition options (categories : list Category)
           (s : Forms.TransactionForm.State) : list string :=
  EmptyString :: map c_id (filteredCategories categories s).

(** What the user can do to the fields: press one of the two type
    buttons, or change a field. *)
Inductive Event : Type :=
| ClickExpense
| ClickIncome
| ChangeAmount (v : option Z)
| ChangeCategory (v : string)
| ChangeDescription (v : string)
| ChangeDate (v : ISODate).

(** The [onClick] and [onChange] handlers. *)
Definition on (e : Event) (s : Forms.TransactionForm.State)
  : Forms.TransactionForm.State :=
  match e with
  | ClickExpense => setCategoryId "" (setType Expense s)
  | ClickIncome => setCategoryId "" (setType Income s)
  | ChangeAmount v => setAmount v s
  | ChangeCategory v => setCategoryId v s
  | ChangeDescription v => setDescription v s
  | ChangeDate v => setDate v s
  end.

(** A select changes to one of its options only. *)
Definition offered (categories : list Category)
           (s : Forms.TransactionForm.State) (e : Event) : bool :=
  match e with
  | ChangeCategory v => existsb (String.eqb v) (options categories s)
  | _ => true
  end.

(** A sequence of events, each one possible on the page as it is when
    the event happens. *)
Fixpoint possible (categories : list Category) (es : list Event)
         (s : Forms.TransactionForm.State) : bool :=
  match es with
  | [] => true
  | e :: es' => offered categories s e && possible categories es' (on e s)
  end.

Definition play (es : list Event) (s : Forms.TransactionForm.State)
  : Forms.TransactionForm.State :=
  fold_left (fun s e => on e s) es s.

(** The category field is empty or names a category of the list whose
    type is the type selected. *)
Definition consistent_choice (categories : list Category)
           (s : Forms.TransactionForm.State) : Prop :=
  Forms.TransactionForm.categoryId s = EmptyString
  \/ exists c, In c categories
               /\ c_id c = Forms.TransactionForm.categoryId s
               /\ c_type c = Forms.TransactionForm.type s.

End TransactionFields.

(* ================================================================= *)
(** ** Sample data used by the examples *)

Module Sample.

Local Open Scope string_scope.

(** Offsets of local time: New York in winter (UTC-5) and India
    (UTC+5:30). *)
Definition utc : Z := 0.
Definition new_york : Z := -18000000.
Definition kolkata : Z := 19800000.

(** 2024-01-10T20:00:00Z: 15:00 on Wednesday the 10th in New York. *)
Definition now : Z := 1704916800000.

Definition food : Category :=
  mkCategory "A" "u" "Food" Expense "#ef4444" "Utensils".
Definition fuel : Category :=
  mkCategory "B" "u" "Fuel" Expense "#f97316" "Car".
Definition salary : Category :=
  mkCategory "S" "u" "Salary" Income "#22c55e" "Briefcase".

Definition spend (id cat : string) (amount : Z) (d : ISODate)
  : Transaction :=
  mkTransaction id "u" cat amount "purchase" d Expense.
Definition earn (id cat : string) (amount : Z) (d : ISODate)
  : Transaction :=
  mkTransaction id "u" cat amount "payment" d Income.

(** The transactions of the scenario of the specification:
    50.00 and 30.00 spent on food on January 5th, 200.00 earned on
    January 10th. *)
Definition january : list Transaction :=
  [ spend "t1" "A" 5000 (mkDate 2024 1 5);
    earn "t2" "S" 20000 (mkDate 2024 1 10);
    spend "t3" "A" 3000 (mkDate 2024 1 5) ].

(** A salary of 2000.00 and a rent of 2500.00. *)
Definition overdrawn : list Transaction :=
  [ earn "t1" "S" 200000 (mkDate 2024 1 10);
    spend "t2" "A" 250000 (mkDate 2024 1 5) ].

(** Two categories with the same spending in the month. *)
Definition tied : list Transaction :=
  [ spend "t1" "A" 5000 (mkDate 2024 1 5);
    spend "t2" "B" 5000 (mkDate 2024 1 6) ].

(** An expense filed under an income category. *)
Definition misfiled : list Transaction :=
  [ spend "t1" "S" 5000 (mkDate 2024 1 5) ].

(** 50.00 spent today (January 10th). *)
Definition today : list Transaction :=
  [ spend "t1" "A" 5000 (mkDate 2024 1 10) ].

Definition budget_food_100 : Budget :=
  mkBudget "b1" "u" "A" 10000 (mkDate 2024 1 1).
Definition budget_food_50 : Budget :=
  mkBudget "b2" "u" "A" 5000 (mkDate 2024 1 1).

(** The store: one category and a budget of 100.00 on it for
    January 2024, both of user "u". *)
Definition db : Store.Database :=
  Store.mkDatabase [food] [] [budget_food_100].

(** The budget form filled in for the same category and month again,
    in a session of user "u". *)
Definition budget_again : Forms.World Forms.BudgetManager.State :=
  Forms.mkWorld db (Some "u") "b9" now
    (Forms.BudgetManager.mkState true "A" (Some 20000) (2024, 1) false)
    [] 0%nat.

(** The category form filled in, in a session of user "u". *)
Definition category_rent : Forms.World Forms.CategoryManager.State :=
  Forms.mkWorld db (Some "u") "c9" now
    (Forms.CategoryManager.mkState true "Rent" Expense "#3b82f6" "Home"
                                   false)
    [] 0%nat.

(** The transaction form filled in for a lunch on the food
    category, in a session of user "u". *)
Definition transaction_lunch : Forms.World Forms.TransactionForm.State :=
  Forms.mkWorld db (Some "u") "t9" now
    (Forms.TransactionForm.mkState Expense (Some 1250) "lunch" "A"
                                   (mkDate 2024 1 10) false "")
    [] 0%nat.

(** An expense of user "v" filed under the food category of user
    "u", and the store after "v" has inserted it. *)
Definition dinner : Transaction :=
  mkTransaction "t7" "v" "A" 4200 "dinner" (mkDate 2024 1 8) Expense.

Definition db_shared : Store.Database :=
  Store.mkDatabase [food] [dinner] [budget_food_100].

End Sample.

(* ================================================================= *)
(** * Properties *)

(** ** Sums of amounts *)

Lemma fold_left_amounts (l : list Transaction) (a : Z) :
  fold_left (fun sum t => sum + t_amount t) l a = a + sumAmounts l.
Proof.
  unfold sumAmounts. revert a.
  induction l as [|t l IH]; intro a.
  - simpl. lia.
  - change (fold_left (fun sum t => sum + t_amount t) l (a + t_amount t) =
            a + fold_left (fun sum t => sum + t_amount t) l (0 + t_amount t)).
    rewrite (IH (a + t_amount t)), (IH (0 + t_amount t)). lia.
Qed.

Lemma sumAmounts_nil : sumAmounts [] = 0.
Proof. reflexivity. Qed.

Lemma sumAmounts_cons (t : Transaction) (l : list Transaction) :
  sumAmounts (t :: l) = t_amount t + sumAmounts l.
Proof.
  unfold sumAmounts at 1. simpl. apply fold_left_amounts.
Qed.

Lemma sumAmounts_total_of (l : list Transaction) :
  sumAmounts l = total_of l.
Proof.
  induction l as [|t l IH]; [reflexivity|].
  rewrite sumAmounts_cons, IH. reflexivity.
Qed.

Lemma sumAmounts_filter_cons (p : Transaction -> bool) (t : Transaction)
      (l : list Transaction) :
  sumAmounts (filter p (t :: l)) =
  (if p t then t_amount t else 0) + sumAmounts (filter p l).
Proof.
  simpl. destruct (p t); [apply sumAmounts_cons | lia].
Qed.

Lemma sumAmounts_nonneg (l : list Transaction) :
  (forall t, In t l -> 0 <= t_amount t) -> 0 <= sumAmounts l.
Proof.
  induction l as [|t l IH]; intro H.
  - rewrite sumAmounts_nil. lia.
  - rewrite sumAmounts_cons.
    assert (0 <= t_amount t) by (apply H; left; reflexivity).
    assert (0 <= sumAmounts l) by (apply IH; intros u Hu; apply H; right; exact Hu).
    lia.
Qed.

Lemma sumAmounts_filter_nonneg (p : Transaction -> bool)
      (l : list Transaction) :
  (forall t, In t l -> 0 <= t_amount t) -> 0 <= sumAmounts (filter p l).
Proof.
  intro H. apply sumAmounts_nonneg.
  intros t Ht. apply filter_In in Ht. apply H, Ht.
Qed.

(** A narrower filter sums to no more, when no amount is negative. *)
Lemma sumAmounts_filter_le (p q : Transaction -> bool)
      (l : list Transaction) :
  (forall t, In t l -> 0 <= t_amount t) ->
  (forall t, In t l -> p t = true -> q t = true) ->
  sumAmounts (filter p l) <= sumAmounts (filter q l).
Proof.
  induction l as [|t l IH]; intros Hpos Hpq.
  - simpl. lia.
  - rewrite !sumAmounts_filter_cons.
    assert (IH' : sumAmounts (filter p l) <= sumAmounts (filter q l)).
    { apply IH; intros u Hu; [apply Hpos | apply Hpq]; right; exact Hu. }
    assert (Ht : 0 <= t_amount t) by (apply Hpos; left; reflexivity).
    assert (Himp := Hpq t (or_introl eq_refl)).
    destruct (p t), (q t); try lia; discriminate (Himp eq_refl).
Qed.

Lemma filter_filter_implied {A : Type} (p q : A -> bool) (l : list A) :
  (forall x, In x l -> p x = true -> q x = true) ->
  filter p (filter q l) = filter p l.
Proof.
  induction l as [|x l IH]; intro H; [reflexivity|].
  simpl. destruct (q x) eqn:Hq; simpl.
  - rewrite IH; [reflexivity|]. intros y Hy. apply H. right. exact Hy.
  - destruct (p x) eqn:Hp.
    + rewrite (H x (or_introl eq_refl) Hp) in Hq. discriminate.
    + apply IH. intros y Hy. apply H. right. exact Hy.
Qed.

Lemma kind_eqb_eq (a b : Kind) : kind_eqb a b = true <-> a = b.
Proof. destruct a, b; simpl; split; congruence. Qed.

(* ----------------------------------------------------------------- *)
(** ** Dashboard: balance *)

(** C1. Whatever transactions are loaded, the balance is the income
    total minus the expense total; the income total is the sum of the
    amounts of the transactions of kind income, the expense total that
    of the transactions of kind expense; with every amount positive both
    totals are non-negative; and the sign of the balance is not touched:
    it is negative exactly when expenses exceed income. *)
Theorem balance_income_minus_expenses (transactions : list Transaction) :
  (forall t, In t transactions -> 0 < t_amount t) ->
  Dashboard.balance transactions =
    Dashboard.totalIncome transactions - Dashboard.totalExpenses transactions
  /\ Dashboard.totalIncome transactions =
       total_of (filter (fun t => kind_eqb (t_type t) Income) transactions)
  /\ Dashboard.totalExpenses transactions =
       total_of (filter (fun t => kind_eqb (t_type t) Expense) transactions)
  /\ 0 <= Dashboard.totalIncome transactions
  /\ 0 <= Dashboard.totalExpenses transactions
  /\ (Dashboard.balance transactions < 0 <->
      Dashboard.totalIncome transactions
        < Dashboard.totalExpenses transactions).
Proof.
  intro Hpos.
  assert (Hnn : forall t, In t transactions -> 0 <= t_amount t).
  { intros t Ht. specialize (Hpos t Ht). lia. }
  unfold Dashboard.balance, Dashboard.totalIncome, Dashboard.totalExpenses.
  repeat split; try lia.
  - apply sumAmounts_total_of.
  - apply sumAmounts_total_of.
  - apply sumAmounts_filter_nonneg, Hnn.
  - apply sumAmounts_filter_nonneg, Hnn.
Qed.

(** A salary of 2000.00 and a rent of 2500.00: the balance is -500.00. *)
Lemma balance_income_minus_expenses_witness :
  (forall t, In t Sample.overdrawn -> 0 < t_amount t)
  /\ Dashboard.balance Sample.overdrawn = -50000
  /\ (Dashboard.balance Sample.overdrawn < 0 <->
      Dashboard.totalIncome Sample.overdrawn
        < Dashboard.totalExpenses Sample.overdrawn).
Proof.
  assert (Hpos : forall t, In t Sample.overdrawn -> 0 < t_amount t).
  { intros t [<- | [<- | []]]; simpl; lia. }
  split; [exact Hpos|].
  split; [reflexivity|].
  apply (balance_income_minus_expenses Sample.overdrawn Hpos).
Defined.

(* ----------------------------------------------------------------- *)
(** ** Sorting with a comparator *)

Lemma js_insert_perm {A : Type} (cmp : A -> A -> Z) (x : A) (l : list A) :
  Permutation (x :: l) (js_insert cmp x l).
Proof.
  induction l as [|y l IH]; simpl.
  - apply Permutation_refl.
  - destruct (cmp x y <=? 0).
    + apply Permutation_refl.
    + eapply perm_trans; [apply perm_swap|].
      apply perm_skip, IH.
Qed.

Lemma js_sort_perm {A : Type} (cmp : A -> A -> Z) (l : list A) :
  Permutation l (js_sort cmp l).
Proof.
  induction l as [|x l IH]; simpl.
  - apply perm_nil.
  - eapply perm_trans; [apply perm_skip, IH|].
    apply js_insert_perm.
Qed.

Section SortByKey.
Context {A : Type}.
Variable key : A -> Z.

Lemma js_insert_descending (x : A) (l : list A) :
  StronglySorted (not_below key) l ->
  StronglySorted (not_below key) (js_insert (descending key) x l).
Proof.
  induction 1 as [|y l Hs IH Hall]; simpl.
  - repeat constructor.
  - unfold descending at 1.
    destruct (key y - key x <=? 0) eqn:Hc.
    + apply Z.leb_le in Hc.
      constructor; [constructor; assumption|].
      constructor; [unfold not_below; lia|].
      eapply Forall_impl; [|exact Hall].
      unfold not_below. intros z Hz. lia.
    + apply Z.leb_gt in Hc.
      constructor; [exact IH|].
      eapply Permutation_Forall; [apply js_insert_perm|].
      constructor; [unfold not_below; lia | exact Hall].
Qed.

Lemma js_sort_descending (l : list A) :
  StronglySorted (not_below key) (js_sort (descending key) l).
Proof.
  induction l as [|x l IH]; simpl.
  - constructor.
  - apply js_insert_descending, IH.
Qed.
End SortByKey.

Lemma In_firstn {A : Type} (n : nat) (l : list A) (x : A) :
  In x (firstn n l) -> In x l.
Proof.
  revert l. induction n as [|n IH]; intros [|y l]; simpl; try tauto.
  intros [H | H]; [left; exact H | right; apply IH, H].
Qed.

Lemma StronglySorted_firstn {A : Type} (R : A -> A -> Prop) (n : nat)
      (l : list A) :
  StronglySorted R l -> StronglySorted R (firstn n l).
Proof.
  revert l. induction n as [|n IH]; intros l Hs; simpl.
  - constructor.
  - destruct l as [|x l]; [constructor|].
    inversion Hs as [|? ? Hs' Hall]; subst.
    constructor; [apply IH, Hs'|].
    apply Forall_forall. intros y Hy.
    rewrite Forall_forall in Hall. apply Hall.
    apply (In_firstn n l y Hy).
Qed.

Lemma Forall_firstn_of {A : Type} (P : A -> Prop) (n : nat) (l : list A) :
  Forall P l -> Forall P (firstn n l).
Proof.
  rewrite !Forall_forall. intros H x Hx.
  apply H. apply (In_firstn n l x Hx).
Qed.

(* ----------------------------------------------------------------- *)
(** ** Stats: top expenses of the month *)

Section TopExpenses.
Variables (tza now : Z).
Variable transactions : list Transaction.
Variable categories : list Category.

(** What holds of every item the map step produces. *)
Lemma categoryTotals_items :
  Forall (fun item =>
            In (Stats.category item) categories
            /\ c_type (Stats.category item) = Expense
            /\ Stats.total item =
               Stats.categoryTotal tza now transactions
                                   (Stats.category item))
         (Stats.categoryTotals tza now transactions categories).
Proof.
  unfold Stats.categoryTotals.
  apply Forall_forall. intros item Hin.
  apply in_map_iff in Hin. destruct Hin as [c [<- Hc]].
  apply filter_In in Hc. destruct Hc as [Hc Hk].
  simpl. repeat split; [exact Hc | apply kind_eqb_eq, Hk].
Qed.

Lemma expensesByCategory_subset (item : Stats.Item) :
  In item (Stats.expensesByCategory tza now transactions categories) ->
  In item (Stats.categoryTotals tza now transactions categories)
  /\ 0 < Stats.total item.
Proof.
  unfold Stats.expensesByCategory. intro Hin.
  apply In_firstn in Hin.
  eapply Permutation_in in Hin;
    [| apply Permutation_sym, js_sort_perm].
  apply filter_In in Hin. destruct Hin as [Hin Hpos].
  split; [exact Hin | apply Z.ltb_lt, Hpos].
Qed.

(** The list of top expenses by the totals the component computes:
    it holds only expense categories of the category set, each with the
    sum over the component's transactions of the month as total and
    that total strictly above zero; the totals never increase along the
    list; and the list has at most five items. *)
Lemma expensesByCategory_by_computed_totals :
  let top := Stats.expensesByCategory tza now transactions categories in
  (List.length top <= 5)%nat
  /\ Forall (fun item =>
               In (Stats.category item) categories
               /\ c_type (Stats.category item) = Expense
               /\ Stats.total item =
                  Stats.categoryTotal tza now transactions
                                      (Stats.category item)
               /\ 0 < Stats.total item) top
  /\ StronglySorted (not_below Stats.total) top.
Proof.
  intro top. split; [|split].
  - apply firstn_le_length.
  - apply Forall_forall. intros item Hin.
    apply expensesByCategory_subset in Hin. destruct Hin as [Hin Hpos].
    pose proof categoryTotals_items as Hall.
    rewrite Forall_forall in Hall.
    destruct (Hall item Hin) as [H1 [H2 H3]].
    repeat split; assumption.
  - apply StronglySorted_firstn.
    apply (js_sort_descending Stats.total).
Qed.

(** The total of a category is part of the month's expenses. *)
Lemma categoryTotal_le_month (c : Category) :
  (forall t, In t transactions -> 0 < t_amount t) ->
  Stats.categoryTotal tza now transactions c
    <= Stats.totalMonthExpenses tza now transactions.
Proof.
  intro Hpos.
  unfold Stats.categoryTotal, Stats.totalMonthExpenses.
  apply sumAmounts_filter_le.
  - intros t Ht. apply filter_In in Ht.
    specialize (Hpos t (proj1 Ht)). lia.
  - intros t _ H. apply andb_true_iff in H. apply H.
Qed.

Lemma top_item_within_month (item : Stats.Item) :
  (forall t, In t transactions -> 0 < t_amount t) ->
  In item (Stats.expensesByCategory tza now transactions categories) ->
  0 < Stats.total item
  /\ Stats.total item <= Stats.totalMonthExpenses tza now transactions.
Proof.
  intros Hpos Hin.
  apply expensesByCategory_subset in Hin. destruct Hin as [Hin Hgt].
  split; [exact Hgt|].
  pose proof categoryTotals_items as Hall.
  rewrite Forall_forall in Hall.
  destruct (Hall item Hin) as [_ [_ ->]].
  apply categoryTotal_le_month, Hpos.
Qed.

(** C4. With positive amounts, every division the card evaluates has
    a divisor above zero, so every percentage shown is a finite number;
    and when the month's expenses total zero the card shows the
    placeholder and evaluates no division at all. *)
Theorem percentages_divide_by_positive_total :
  (forall t, In t transactions -> 0 < t_amount t) ->
  Forall (fun dv => 0 < snd dv)
         (Stats.divisions tza now transactions categories)
  /\ (forall rows,
        Stats.topExpensesCard tza now transactions categories
          = Stats.Bars rows ->
        Forall (fun row => exists q : Q, snd row = Some q) rows)
  /\ (Stats.totalMonthExpenses tza now transactions = 0 ->
        Stats.topExpensesCard tza now transactions categories
          = Stats.NoExpensesThisMonth
        /\ Stats.divisions tza now transactions categories = []).
Proof.
  intro Hpos.
  assert (Htot : forall item,
             In item (Stats.expensesByCategory tza now transactions
                                               categories) ->
             0 < Stats.totalMonthExpenses tza now transactions).
  { intros item Hin.
    destruct (top_item_within_month item Hpos Hin). lia. }
  split; [|split].
  - unfold Stats.divisions. apply Forall_forall. intros dv Hdv.
    apply in_map_iff in Hdv. destruct Hdv as [item [<- Hin]].
    simpl. apply (Htot item Hin).
  - assert (Hrows :
      Forall (fun row : Category * Z * option Q =>
                exists q : Q, snd row = Some q)
             (map (fun item =>
                     (Stats.category item, Stats.total item,
                      Stats.percentage tza now transactions
                                       (Stats.total item)))
                  (Stats.expensesByCategory tza now transactions
                                            categories))).
    { apply Forall_forall. intros row Hrow.
      apply in_map_iff in Hrow. destruct Hrow as [item [<- Hin]].
      simpl. unfold Stats.percentage, js_div.
      specialize (Htot item Hin).
      destruct (Stats.totalMonthExpenses tza now transactions =? 0)
        eqn:Hz.
      + apply Z.eqb_eq in Hz. lia.
      + simpl. eexists. reflexivity. }
    intros rows Hcard. unfold Stats.topExpensesCard in Hcard.
    destruct (Stats.expensesByCategory tza now transactions categories)
      as [|i0 items]; [discriminate|].
    injection Hcard as <-. exact Hrows.
  - intro Hzero. unfold Stats.topExpensesCard, Stats.divisions.
    destruct (Stats.expensesByCategory tza now transactions categories)
      as [|i0 items] eqn:Htop; [split; reflexivity|].
    specialize (Htot i0 (or_introl eq_refl)). lia.
Qed.
End TopExpenses.

(** Two categories with 50.00 each: both are listed, neither total is
    strictly above the other. *)
Example top_expenses_tied :
  map Stats.total
      (Stats.expensesByCategory Sample.utc Sample.now Sample.tied
                                [Sample.food; Sample.fuel])
  = [5000; 5000].
Proof. vm_compute. reflexivity. Qed.

(** C3, as stated, fails: with two categories of equal total the list
    is not strictly descending. *)
Lemma top_expenses_not_strictly_descending :
  ~ StronglySorted (strictly_above Stats.total)
      (Stats.expensesByCategory Sample.utc Sample.now Sample.tied
                                [Sample.food; Sample.fuel]).
Proof.
  intro H.
  assert (Hl : Stats.expensesByCategory Sample.utc Sample.now Sample.tied
                 [Sample.food; Sample.fuel]
               = [Stats.mkItem Sample.food 5000;
                  Stats.mkItem Sample.fuel 5000])
    by (vm_compute; reflexivity).
  rewrite Hl in H.
  inversion H as [|? ? _ Hall]; subst.
  inversion Hall as [|? ? Hlt _]; subst.
  unfold strictly_above in Hlt. simpl in Hlt. lia.
Qed.

(** The scenario of the specification: January 2024, 80.00 spent on
    food, which is all of the month's expenses. *)
Example top_expenses_scenario :
  Stats.totalMonthExpenses Sample.utc Sample.now Sample.january = 8000
  /\ Stats.topExpensesCard Sample.utc Sample.now Sample.january
       [Sample.food; Sample.salary]
     = Stats.Bars [(Sample.food, 8000,
                    Some (inject_Z 8000 / inject_Z 8000 * 100)%Q)].
Proof. split; vm_compute; reflexivity. Qed.

Lemma percentages_divide_by_positive_total_witness :
  (forall t, In t Sample.january -> 0 < t_amount t)
  /\ Forall (fun dv => 0 < snd dv)
            (Stats.divisions Sample.utc Sample.now Sample.january
                             [Sample.food; Sample.salary]).
Proof.
  assert (Hpos : forall t, In t Sample.january -> 0 < t_amount t).
  { intros t [<- | [<- | [<- | []]]]; simpl; lia. }
  split; [exact Hpos|].
  apply (percentages_divide_by_positive_total
           Sample.utc Sample.now Sample.january
           [Sample.food; Sample.salary] Hpos).
Defined.

(* ----------------------------------------------------------------- *)
(** ** Stats: category totals against the month's expenses *)

Lemma Zsum_cons (x : Z) (l : list Z) : Zsum (x :: l) = x + Zsum l.
Proof. reflexivity. Qed.

(** Two filters that never accept the same transaction add up to the
    filter of their disjunction. *)
Lemma sumAmounts_filter_disjoint (p q : Transaction -> bool)
      (l : list Transaction) :
  (forall t, In t l -> p t = true -> q t = false) ->
  sumAmounts (filter p l) + sumAmounts (filter q l)
  = sumAmounts (filter (fun t => p t || q t) l).
Proof.
  induction l as [|t l IH]; intro Hdis.
  - reflexivity.
  - rewrite !sumAmounts_filter_cons.
    rewrite <- IH by (intros u Hu; apply Hdis; right; exact Hu).
    pose proof (Hdis t (or_introl eq_refl)) as Ht.
    destruct (p t); simpl.
    + rewrite (Ht eq_refl). lia.
    + destruct (q t); lia.
Qed.

(** Keeping some of the categories keeps their identifiers distinct. *)
Lemma distinct_ids_filter (keep : Category -> bool) (cs : list Category) :
  NoDup (map c_id cs) -> NoDup (map c_id (filter keep cs)).
Proof.
  induction cs as [|c cs IH]; intro Hnd; [constructor|].
  cbn [map] in Hnd. apply NoDup_cons_iff in Hnd.
  destruct Hnd as [Hfresh Hnd]. cbn [filter].
  destruct (keep c); [|exact (IH Hnd)].
  cbn [map]. apply NoDup_cons; [|exact (IH Hnd)].
  intro Hin. apply Hfresh.
  apply in_map_iff in Hin. destruct Hin as [c' [Hid Hc']].
  apply filter_In in Hc'. apply in_map_iff.
  exists c'. split; [exact Hid | exact (proj1 Hc')].
Qed.

(** With distinct identifiers, the totals of a list of categories add
    up to the expenses filed under one of them. *)
Lemma category_sums_as_one_filter (cs : list Category)
      (l : list Transaction) :
  NoDup (map c_id cs) ->
  Zsum (map (fun c =>
               sumAmounts
                 (filter (fun t => String.eqb (t_category_id t) (c_id c)
                                   && kind_eqb (t_type t) Expense) l)) cs)
  = sumAmounts
      (filter (fun t =>
                 existsb (fun c => String.eqb (t_category_id t) (c_id c)) cs
                 && kind_eqb (t_type t) Expense) l).
Proof.
  induction cs as [|c cs IH]; intro Hnd.
  - simpl. induction l as [|t l IHl]; [reflexivity | exact IHl].
  - inversion Hnd as [|? ? Hnotin Hnd']; subst.
    simpl map. rewrite Zsum_cons, (IH Hnd').
    rewrite sumAmounts_filter_disjoint.
    + f_equal. apply filter_ext. intro t. simpl.
      destruct (String.eqb (t_category_id t) (c_id c)),
               (existsb (fun c0 => String.eqb (t_category_id t) (c_id c0)) cs),
               (kind_eqb (t_type t) Expense); reflexivity.
    + intros t _ Hp.
      apply andb_true_iff in Hp. destruct Hp as [Hid _].
      apply String.eqb_eq in Hid.
      destruct (existsb (fun c0 => String.eqb (t_category_id t) (c_id c0)) cs)
        eqn:Hex; [|reflexivity].
      exfalso. apply Hnotin.
      apply existsb_exists in Hex. destruct Hex as [c' [Hin Heq]].
      apply String.eqb_eq in Heq.
      apply in_map_iff. exists c'. split; [congruence | exact Hin].
Qed.

(** C5 (amended). With distinct category identifiers and positive
    amounts, the totals of the expense categories add up to no more than
    the month's expenses; they add up to exactly the month's expenses
    when every expense transaction of the month is filed under an
    expense category of the category set. *)
Theorem category_totals_within_month_total
        (tza now : Z) (transactions : list Transaction)
        (categories : list Category) :
  NoDup (map c_id categories) ->
  (forall t, In t transactions -> 0 < t_amount t) ->
  Zsum (map Stats.total
            (Stats.categoryTotals tza now transactions categories))
    <= Stats.totalMonthExpenses tza now transactions
  /\ ((forall t,
         In t (Stats.monthTransactions tza now transactions) ->
         t_type t = Expense ->
         exists c, In c categories /\ c_type c = Expense
                   /\ c_id c = t_category_id t) ->
      Zsum (map Stats.total
                (Stats.categoryTotals tza now transactions categories))
      = Stats.totalMonthExpenses tza now transactions).
Proof.
  intros Hnd Hpos.
  unfold Stats.categoryTotals, Stats.totalMonthExpenses.
  rewrite map_map. simpl. unfold Stats.categoryTotal.
  rewrite category_sums_as_one_filter by (apply distinct_ids_filter, Hnd).
  split.
  - apply sumAmounts_filter_le.
    + intros t Ht. apply filter_In in Ht.
      specialize (Hpos t (proj1 Ht)). lia.
    + intros t _ H. apply andb_true_iff in H. apply H.
  - intro Hfiled. f_equal. apply filter_ext_in. intros t Ht.
    destruct (kind_eqb (t_type t) Expense) eqn:Hk;
      [|apply andb_false_r].
    rewrite andb_true_r.
    destruct (Hfiled t Ht (proj1 (kind_eqb_eq _ _) Hk))
      as [c [Hc [Hkind Hid]]].
    apply existsb_exists. exists c. split.
    + apply filter_In. split; [exact Hc | apply kind_eqb_eq, Hkind].
    + apply String.eqb_eq. symmetry. exact Hid.
Qed.

Lemma category_totals_within_month_total_witness :
  NoDup (map c_id [Sample.food; Sample.salary])
  /\ (forall t, In t Sample.january -> 0 < t_amount t)
  /\ Zsum (map Stats.total
               (Stats.categoryTotals Sample.utc Sample.now Sample.january
                                     [Sample.food; Sample.salary]))
     <= Stats.totalMonthExpenses Sample.utc Sample.now Sample.january.
Proof.
  assert (Hnd : NoDup (map c_id [Sample.food; Sample.salary])).
  { simpl. constructor.
    - intros [H | []]. discriminate H.
    - constructor; [intros [] | constructor]. }
  assert (Hpos : forall t, In t Sample.january -> 0 < t_amount t).
  { intros t [<- | [<- | [<- | []]]]; simpl; lia. }
  split; [exact Hnd|]. split; [exact Hpos|].
  apply (category_totals_within_month_total
           Sample.utc Sample.now Sample.january
           [Sample.food; Sample.salary] Hnd Hpos).
Defined.

(** C5, as stated, fails: an expense filed under an income category
    refers to a category of the set, yet no category total counts it.
    Every expense of the month refers to a category of the set, the
    category totals add up to 0 and the month's expenses are 50.00. *)
Lemma category_totals_miss_misfiled_expense :
  ~ ((forall t,
        In t (Stats.monthTransactions Sample.utc Sample.now
                                      Sample.misfiled) ->
        t_type t = Expense ->
        exists c, In c [Sample.food; Sample.salary]
                  /\ c_id c = t_category_id t) ->
     Zsum (map Stats.total
               (Stats.categoryTotals Sample.utc Sample.now Sample.misfiled
                                     [Sample.food; Sample.salary]))
     = Stats.totalMonthExpenses Sample.utc Sample.now Sample.misfiled).
Proof.
  intro Hclaim.
  assert (Hsum : Zsum (map Stats.total
                   (Stats.categoryTotals Sample.utc Sample.now
                      Sample.misfiled [Sample.food; Sample.salary])) = 0)
    by (vm_compute; reflexivity).
  assert (Htot : Stats.totalMonthExpenses Sample.utc Sample.now
                   Sample.misfiled = 5000)
    by (vm_compute; reflexivity).
  rewrite Hsum, Htot in Hclaim.
  assert (H : 0 = 5000); [|discriminate H].
  apply Hclaim. intros t Ht _.
  assert (Hm : Stats.monthTransactions Sample.utc Sample.now Sample.misfiled
               = Sample.misfiled) by (vm_compute; reflexivity).
  rewrite Hm in Ht. destruct Ht as [<- | []].
  exists Sample.salary. split; [right; left; reflexivity | reflexivity].
Qed.

(* ----------------------------------------------------------------- *)
(** ** The calendar: day numbers and dates *)

Lemma year_of_era_bound (doe : Z) :
  0 <= doe <= 146096 ->
  0 <= (doe - doe / 1460 + doe / 36524 - doe / 146096) / 365 <= 399.
Proof. intro H. Z.div_mod_to_equations. lia. Qed.

Lemma day_of_year_bound (doe : Z) :
  0 <= doe <= 146096 ->
  let yoe := (doe - doe / 1460 + doe / 36524 - doe / 146096) / 365 in
  0 <= doe - (365 * yoe + yoe / 4 - yoe / 100) <= 365.
Proof. intros H yoe. subst yoe. Z.div_mod_to_equations. lia. Qed.

Lemma month_index_bound (doy : Z) :
  0 <= doy <= 365 -> 0 <= (5 * doy + 2) / 153 <= 11.
Proof. intro H. Z.div_mod_to_equations. lia. Qed.

Lemma day_of_month_bound (doy : Z) :
  0 <= doy <= 365 ->
  1 <= doy - (153 * ((5 * doy + 2) / 153) + 2) / 5 + 1 <= 31.
Proof. intro H. Z.div_mod_to_equations. lia. Qed.

Lemma civil_from_days_spec (z y m d : Z) :
  civil_from_days z = (y, m, d) ->
  1 <= m <= 12 /\ 1 <= d <= 31 /\ days_from_civil y m d = z.
Proof.
  unfold civil_from_days.
  remember (z + 719468) as z' eqn:Ez.
  remember (z' / 146097) as era eqn:Eera.
  remember (z' - era * 146097) as doe eqn:Edoe.
  remember ((doe - doe / 1460 + doe / 36524 - doe / 146096) / 365)
    as yoe eqn:Eyoe.
  remember (doe - (365 * yoe + yoe / 4 - yoe / 100)) as doy eqn:Edoy.
  remember ((5 * doy + 2) / 153) as mp eqn:Emp.
  remember ((153 * mp + 2) / 5) as first eqn:Efirst.
  intro H. injection H as Hy Hm Hd.
  assert (Hdoe : 0 <= doe <= 146096).
  { subst doe era. Z.div_mod_to_equations. lia. }
  assert (Hyoe : 0 <= yoe <= 399).
  { subst yoe. apply year_of_era_bound, Hdoe. }
  assert (Hdoy : 0 <= doy <= 365).
  { subst doy yoe. apply day_of_year_bound, Hdoe. }
  assert (Hmp : 0 <= mp <= 11).
  { subst mp. apply month_index_bound, Hdoy. }
  assert (Hd' : 1 <= d <= 31).
  { subst d first mp. apply day_of_month_bound, Hdoy. }
  assert (Hm' : 1 <= m <= 12 /\ (if 2 <? m then m - 3 else m + 9) = mp
                /\ (if m <=? 2 then y - 1 else y) = yoe + era * 400).
  { subst m y. destruct (mp <? 10) eqn:E.
    - apply Z.ltb_lt in E.
      destruct (2 <? mp + 3) eqn:E2; [|apply Z.ltb_ge in E2; lia].
      destruct (mp + 3 <=? 2) eqn:E3; [apply Z.leb_le in E3; lia|]. lia.
    - apply Z.ltb_ge in E.
      destruct (2 <? mp - 9) eqn:E2; [apply Z.ltb_lt in E2; lia|].
      destruct (mp - 9 <=? 2) eqn:E3; [|apply Z.leb_gt in E3; lia]. lia. }
  destruct Hm' as [Hmr [Hmp2 Hy2]].
  split; [exact Hmr|]. split; [exact Hd'|].
  unfold days_from_civil. rewrite Hmp2, Hy2, <- Efirst.
  replace ((yoe + era * 400) / 400) with era
    by (clear - Hyoe; Z.div_mod_to_equations; lia).
  replace (yoe + era * 400 - era * 400) with yoe by lia.
  lia.
Qed.

(** Day 0 is 1970-01-01, a Thursday; 2024-02-29 exists and is followed
    by 2024-03-01. *)
Example calendar_anchors :
  civil_from_days 0 = (1970, 1, 1)
  /\ days_from_civil 2024 2 29 = 19782
  /\ civil_from_days 19783 = (2024, 3, 1)
  /\ parse (mkDate 2024 1 1) = 1704067200000.
Proof.
  split; [vm_compute; reflexivity|].
  split; [vm_compute; reflexivity|].
  split; vm_compute; reflexivity.
Qed.

(** Distinct day numbers are distinct dates. *)
Lemma civil_from_days_inj (z1 z2 : Z) :
  civil_from_days z1 = civil_from_days z2 -> z1 = z2.
Proof.
  intro H.
  destruct (civil_from_days z1) as [[y m] d] eqn:E1.
  symmetry in H.
  destruct (civil_from_days_spec z1 y m d E1) as [_ [_ H1]].
  destruct (civil_from_days_spec z2 y m d H) as [_ [_ H2]].
  congruence.
Qed.

Lemma days_from_civil_day (y m d : Z) :
  days_from_civil y m d = days_from_civil y m 1 + d - 1.
Proof. unfold days_from_civil. lia. Qed.

(** [MakeDay] on the fields of a time value [l]: the day of [l], moved
    from its day of month to the day of month [dt]. *)
Lemma MakeDay_fields (l dt : Z) :
  MakeDay (YearFromTime l) (MonthFromTime l) dt
  = Day l - DateFromTime l + dt.
Proof.
  unfold MakeDay, YearFromTime, MonthFromTime, DateFromTime.
  destruct (civil_from_days (Day l)) as [[y m] d] eqn:E.
  destruct (civil_from_days_spec _ _ _ _ E) as [Hm [_ Hz]].
  replace ((m - 1) / 12) with 0 by (Z.div_mod_to_equations; lia).
  replace ((m - 1) mod 12 + 1) with m by (Z.div_mod_to_equations; lia).
  rewrite Z.add_0_r.
  rewrite (days_from_civil_day y m d) in Hz. lia.
Qed.

(** [d.setDate(d.getDate() - k)] moves the time value [k] days back. *)
Lemma setDate_days_back (tza t k : Z) :
  setDate tza t (getDate tza t - k) = t - k * msPerDay.
Proof.
  unfold setDate, getDate, UTC, MakeDate.
  rewrite MakeDay_fields.
  unfold Day, TimeWithinDay, LocalTime, msPerDay.
  Z.div_mod_to_equations. lia.
Qed.

(** Two time values print the same date exactly when their local days
    are the same. *)
Lemma toDateString_same_day (tza a b : Z) :
  date_eqb (toDateString tza a) (toDateString tza b) = true
  <-> Day (LocalTime tza a) = Day (LocalTime tza b).
Proof.
  unfold toDateString, getFullYear, getMonth, getDate,
         YearFromTime, MonthFromTime, DateFromTime, date_eqb.
  split.
  - intro H.
    apply civil_from_days_inj.
    destruct (civil_from_days (Day (LocalTime tza a))) as [[y1 m1] d1].
    destruct (civil_from_days (Day (LocalTime tza b))) as [[y2 m2] d2].
    apply andb_true_iff in H. destruct H as [H Hd].
    apply andb_true_iff in H. destruct H as [Hy Hm].
    apply Z.eqb_eq in Hy, Hm, Hd.
    f_equal; [f_equal|]; lia.
  - intros ->.
    destruct (civil_from_days (Day (LocalTime tza b))) as [[y m] d].
    rewrite !Z.eqb_refl. reflexivity.
Qed.

(* ----------------------------------------------------------------- *)
(** ** Stats: the seven-day series *)

Section Series.
Variables (tza now : Z).
Variable transactions : list Transaction.

(** Iteration [i] looks at the instant [6 - i] days before now. *)
Lemma dayDate_days_back (i : Z) :
  Stats.dayDate tza now i = now - (6 - i) * msPerDay.
Proof. exact (setDate_days_back tza now (6 - i)). Qed.

Lemma thirtyDaysAgo_days_back :
  Stats.thirtyDaysAgo tza now = now - 30 * msPerDay.
Proof. exact (setDate_days_back tza now 30). Qed.

(** A transaction that falls on the day of an iteration is not older
    than thirty days. *)
Lemma day_match_within_thirty_days (i : Z) (t : Transaction) :
  0 <= i ->
  date_eqb (toDateString tza (parse (t_date t)))
           (toDateString tza (Stats.dayDate tza now i)) = true ->
  (Stats.thirtyDaysAgo tza now <=? parse (t_date t)) = true.
Proof.
  intros Hi H.
  apply toDateString_same_day in H.
  rewrite dayDate_days_back in H.
  rewrite thirtyDaysAgo_days_back.
  apply Z.leb_le.
  unfold Day, LocalTime, msPerDay in *.
  Z.div_mod_to_equations. lia.
Qed.

Lemma dayEntry_prefilter (i : Z) :
  0 <= i ->
  Stats.dayEntry tza now (Stats.last30Days tza now transactions) i
  = Stats.dayEntry tza now transactions i.
Proof.
  intro Hi. unfold Stats.dayEntry, Stats.last30Days.
  rewrite (filter_filter_implied
             (fun t => date_eqb (toDateString tza (parse (t_date t)))
                                (toDateString tza (Stats.dayDate tza now i)))
             (fun t => Stats.thirtyDaysAgo tza now <=? parse (t_date t))
             transactions); [reflexivity|].
  intros t _ H. apply (day_match_within_thirty_days i t Hi H).
Qed.

(** C10. The series computed from the transactions of the last thirty
    days is the series computed from all the transactions: the
    thirty-day filter drops no transaction of the seven days. *)
Theorem dailyData_unaffected_by_prefilter :
  Stats.dailyData tza now transactions
  = Stats.dailyDataFrom tza now transactions.
Proof.
  unfold Stats.dailyData, Stats.dailyDataFrom.
  apply map_ext_in. intros i Hi.
  apply dayEntry_prefilter.
  simpl in Hi. lia.
Qed.

(** X6. The series has seven entries; entry [i] is computed for the
    instant [6 - i] days before now, so the entries run from six days
    ago to today. *)
Lemma dailyData_seven_days :
  List.length (Stats.dailyData tza now transactions) = 7%nat
  /\ map (Stats.dayDate tza now) [0; 1; 2; 3; 4; 5; 6]
     = map (fun i => now - (6 - i) * msPerDay) [0; 1; 2; 3; 4; 5; 6]
  /\ Stats.dayDate tza now 6 = now.
Proof.
  split; [reflexivity|]. split.
  - apply map_ext. intro i. apply dayDate_days_back.
  - rewrite dayDate_days_back. lia.
Qed.
End Series.

Lemma parse_dayNumber (s : ISODate) : parse s = dayNumber s * msPerDay.
Proof. unfold parse, MakeDate, dayNumber. apply Z.add_0_r. Qed.

(** In a zone at or east of UTC (and west of the date line), the date a
    date-only string is read as is the date it names. *)
Lemma localDay_parse (tza : Z) (s : ISODate) :
  0 <= tza < msPerDay -> localDay tza (parse s) = dayNumber s.
Proof.
  intro H. rewrite parse_dayNumber.
  unfold localDay, Day, LocalTime, msPerDay in *.
  Z.div_mod_to_equations. lia.
Qed.

(** West of UTC it is read as the day before. *)
Lemma localDay_parse_west (tza : Z) (s : ISODate) :
  - msPerDay <= tza < 0 -> localDay tza (parse s) = dayNumber s - 1.
Proof.
  intro H. rewrite parse_dayNumber.
  unfold localDay, Day, LocalTime, msPerDay in *.
  Z.div_mod_to_equations. lia.
Qed.

Lemma filter_filter_andb {A : Type} (p q : A -> bool) (l : list A) :
  filter q (filter p l) = filter (fun x => p x && q x) l.
Proof.
  induction l as [|x l IH]; [reflexivity|].
  simpl. destruct (p x); simpl; [destruct (q x)|]; rewrite IH; reflexivity.
Qed.

(** The totals of an entry, by the local day on which each transaction
    date is read. *)
Lemma dayEntry_by_local_day (tza now : Z) (source : list Transaction)
      (i : Z) (k : Kind) :
  sumAmounts
    (filter (fun t => kind_eqb (t_type t) k)
       (filter (fun t => date_eqb (toDateString tza (parse (t_date t)))
                           (toDateString tza (Stats.dayDate tza now i)))
               source))
  = total_of
      (filter (fun t => (localDay tza (parse (t_date t))
                           =? localDay tza (Stats.dayDate tza now i))
                        && kind_eqb (t_type t) k) source).
Proof.
  rewrite sumAmounts_total_of, filter_filter_andb.
  f_equal. apply filter_ext. intro t. f_equal.
  apply eq_true_iff_eq. rewrite toDateString_same_day, Z.eqb_eq.
  unfold localDay. tauto.
Qed.

(** X4. In a zone at or east of UTC, entry [i] of the series stands
    for the local day [6 - i] days before now, and its totals are the
    sums over the transactions dated on that day. *)
Lemma dailyData_east_of_utc (tza now : Z) (transactions : list Transaction)
      (i : Z) :
  0 <= tza < msPerDay ->
  0 <= i ->
  let entry :=
    Stats.dayEntry tza now (Stats.last30Days tza now transactions) i in
  let day := localDay tza (now - (6 - i) * msPerDay) in
  Stats.expenses entry = total_on_day day Expense transactions
  /\ Stats.income entry = total_on_day day Income transactions.
Proof.
  intros Hz Hi entry day. subst entry.
  rewrite dayEntry_prefilter by exact Hi.
  unfold Stats.dayEntry. cbv zeta. cbn [Stats.expenses Stats.income].
  rewrite !dayEntry_by_local_day.
  rewrite dayDate_days_back. fold day.
  unfold total_on_day.
  split; f_equal; apply filter_ext; intro t;
    rewrite (localDay_parse tza (t_date t) Hz); reflexivity.
Qed.

(** X5. West of UTC every entry shows the transactions dated the day
    after the day it stands for. *)
Lemma dailyData_west_of_utc (tza now : Z) (transactions : list Transaction)
      (i : Z) :
  - msPerDay <= tza < 0 ->
  0 <= i ->
  let entry :=
    Stats.dayEntry tza now (Stats.last30Days tza now transactions) i in
  let day := localDay tza (now - (6 - i) * msPerDay) in
  Stats.expenses entry = total_on_day (day + 1) Expense transactions
  /\ Stats.income entry = total_on_day (day + 1) Income transactions.
Proof.
  intros Hz Hi entry day. subst entry.
  rewrite dayEntry_prefilter by exact Hi.
  unfold Stats.dayEntry. cbv zeta. cbn [Stats.expenses Stats.income].
  rewrite !dayEntry_by_local_day.
  rewrite dayDate_days_back. fold day.
  unfold total_on_day.
  split; f_equal; apply filter_ext; intro t;
    rewrite (localDay_parse_west tza (t_date t) Hz); f_equal;
    apply eq_true_iff_eq; rewrite !Z.eqb_eq; lia.
Qed.

(** The scale of the bars is never below 100. *)
Lemma maxAmount_floor (tza now : Z) (transactions : list Transaction) :
  10000 <= Stats.maxAmount tza now transactions.
Proof.
  unfold Stats.maxAmount.
  induction (map (fun d => Z.max (Stats.expenses d) (Stats.income d))
                 (Stats.dailyData tza now transactions)) as [|x l IH].
  - cbn [fold_right]. lia.
  - cbn [fold_right]. lia.
Qed.

(** C6 fails west of UTC. In New York, at 15:00 on Wednesday
    2024-01-10, with 50.00 spent on 2024-01-10: today is day 19732,
    which is the date of the transaction, and the series has seven
    entries ending today; but today's entry shows no expense and
    yesterday's entry shows the 50.00. *)
Theorem dailyData_new_york_shifts_a_day :
  localDay Sample.new_york Sample.now = 19732
  /\ map (fun t => dayNumber (t_date t)) Sample.today = [19732]
  /\ map (localDay Sample.new_york)
         (map (Stats.dayDate Sample.new_york Sample.now)
              [0; 1; 2; 3; 4; 5; 6])
     = [19726; 19727; 19728; 19729; 19730; 19731; 19732]
  /\ map Stats.expenses
         (Stats.dailyData Sample.new_york Sample.now Sample.today)
     = [0; 0; 0; 0; 0; 5000; 0]
  /\ map (fun day => total_on_day day Expense Sample.today)
         [19726; 19727; 19728; 19729; 19730; 19731; 19732]
     = [0; 0; 0; 0; 0; 0; 5000].
Proof.
  split; [vm_compute; reflexivity|].
  split; [vm_compute; reflexivity|].
  split; [vm_compute; reflexivity|].
  split; vm_compute; reflexivity.
Qed.

(* ----------------------------------------------------------------- *)
(** ** The calendar: months *)

Lemma leap_cases (y : Z) :
  (InLeapYear y = true
   /\ ((y mod 4 = 0 /\ y mod 100 <> 0) \/ y mod 400 = 0))
  \/ (InLeapYear y = false
      /\ (y mod 4 <> 0 \/ y mod 100 = 0) /\ y mod 400 <> 0).
Proof.
  unfold InLeapYear.
  destruct (y mod 4 =? 0) eqn:E4; destruct (y mod 100 =? 0) eqn:E100;
    destruct (y mod 400 =? 0) eqn:E400; cbn [andb orb negb];
    rewrite ?Z.eqb_eq, ?Z.eqb_neq in *;
    match goal with
    | |- (true = true /\ _) \/ _ => left
    | _ => right
    end; (split; [reflexivity | lia]).
Qed.

(** The month of a date, counted from March, and the year that month
    belongs to when years start in March. *)
Lemma march_based (m : Z) :
  1 <= m <= 12 ->
  (m <= 2 /\ (m <=? 2) = true /\ (2 <? m) = false)
  \/ (3 <= m /\ (m <=? 2) = false /\ (2 <? m) = true).
Proof.
  intro H. destruct (Z.leb_spec m 2); destruct (Z.ltb_spec 2 m); lia.
Qed.

Lemma days_in_month_cases (y m : Z) :
  1 <= m <= 12 ->
  let mp := if 2 <? m then m - 3 else m + 9 in
  (m = 2 /\ DaysInMonth y m = (if InLeapYear y then 29 else 28))
  \/ (m <> 2
      /\ DaysInMonth y m = (153 * (mp + 1) + 2) / 5 - (153 * mp + 2) / 5).
Proof.
  intros H mp. subst mp.
  assert (Hc : m = 1 \/ m = 2 \/ m = 3 \/ m = 4 \/ m = 5 \/ m = 6 \/ m = 7
               \/ m = 8 \/ m = 9 \/ m = 10 \/ m = 11 \/ m = 12) by lia.
  repeat (destruct Hc as [-> | Hc]); try subst m;
    try (left; split; reflexivity); right; (split; [lia | reflexivity]).
Qed.

Lemma year_of_era_recovered (yoe doy : Z) :
  0 <= yoe <= 399 ->
  0 <= doy <= 365 ->
  (doy = 365 ->
   (yoe + 1) mod 4 = 0 /\ ((yoe + 1) mod 100 <> 0 \/ yoe = 399)) ->
  let doe := yoe * 365 + yoe / 4 - yoe / 100 + doy in
  0 <= doe <= 146096
  /\ (doe - doe / 1460 + doe / 36524 - doe / 146096) / 365 = yoe.
Proof.
  intros H1 H2 H3 doe. subst doe.
  split; Z.div_mod_to_equations; lia.
Qed.

Lemma month_index_recovered (mp d : Z) :
  0 <= mp <= 11 ->
  1 <= d <= (153 * (mp + 1) + 2) / 5 - (153 * mp + 2) / 5 ->
  (5 * ((153 * mp + 2) / 5 + d - 1) + 2) / 153 = mp.
Proof.
  intros H1 H2. Z.div_mod_to_equations. lia.
Qed.

Lemma days_before_march (y : Z) :
  y / 400 * 146097
  + ((y - y / 400 * 400) * 365 + (y - y / 400 * 400) / 4
     - (y - y / 400 * 400) / 100)
  = 365 * y + y / 4 - y / 100 + y / 400.
Proof. Z.div_mod_to_equations. lia. Qed.

(** The day number, with the year and month counted from March. *)
Lemma days_from_civil_form (y m d : Z) :
  let y' := if m <=? 2 then y - 1 else y in
  let mp := if 2 <? m then m - 3 else m + 9 in
  days_from_civil y m d
  = 365 * y' + y' / 4 - y' / 100 + y' / 400
    + (153 * mp + 2) / 5 + d - 1 - 719468.
Proof.
  intros y' mp. unfold days_from_civil. fold y'. fold mp.
  pose proof (days_before_march y') as H. lia.
Qed.

(** The first day of the next month is [DaysInMonth] days after the
    first day of a month. *)
Lemma next_month_first (y m : Z) :
  1 <= m <= 12 ->
  days_from_civil (y + m / 12) (m mod 12 + 1) 1
  = days_from_civil y m 1 + DaysInMonth y m.
Proof.
  intro Hm. rewrite !days_from_civil_form.
  assert (Hc : m = 1 \/ m = 2 \/ (3 <= m <= 11) \/ m = 12) by lia.
  destruct Hc as [-> | [-> | [Hc | ->]]].
  - change (1 / 12) with 0. change (1 mod 12 + 1) with 2.
    change (2 <=? 2) with true. change (1 <=? 2) with true.
    change (2 <? 2) with false. change (2 <? 1) with false.
    change (DaysInMonth y 1) with 31. cbv iota.
    replace (y + 0 - 1) with (y - 1) by lia.
    change ((153 * (2 + 9) + 2) / 5) with 337.
    change ((153 * (1 + 9) + 2) / 5) with 306. lia.
  - change (2 / 12) with 0. change (2 mod 12 + 1) with 3.
    change (3 <=? 2) with false. change (2 <=? 2) with true.
    change (2 <? 3) with true. change (2 <? 2) with false.
    cbv iota. replace (y + 0) with y by lia.
    change ((153 * (3 - 3) + 2) / 5) with 0.
    change ((153 * (2 + 9) + 2) / 5) with 337.
    unfold DaysInMonth. change (2 =? 2) with true. cbv iota.
    destruct (leap_cases y) as [[-> Hl] | [-> Hl]];
      Z.div_mod_to_equations; lia.
  - replace (m / 12) with 0 by (Z.div_mod_to_equations; lia).
    replace (m mod 12 + 1) with (m + 1) by (Z.div_mod_to_equations; lia).
    destruct (march_based m Hm) as [[H _] | [_ [-> ->]]]; [lia|].
    destruct (march_based (m + 1) ltac:(lia)) as [[H _] | [_ [-> ->]]];
      [lia|].
    destruct (days_in_month_cases y m Hm) as [[H _] | [_ ->]]; [lia|].
    destruct (march_based m Hm) as [[H _] | [_ [_ ->]]]; [lia|].
    replace (m + 1 - 3) with (m - 3 + 1) by lia.
    replace (y + 0) with y by lia. lia.
  - change (12 / 12) with 1. change (12 mod 12 + 1) with 1.
    change (1 <=? 2) with true. change (12 <=? 2) with false.
    change (2 <? 1) with false. change (2 <? 12) with true.
    change (DaysInMonth y 12) with 31. cbv iota.
    replace (y + 1 - 1) with y by lia.
    change ((153 * (1 + 9) + 2) / 5) with 306.
    change ((153 * (12 - 3) + 2) / 5) with 275. lia.
Qed.

(** A valid date is the date of its day number. *)
Lemma civil_of_days_from_civil (y m d : Z) :
  1 <= m <= 12 ->
  1 <= d <= DaysInMonth y m ->
  civil_from_days (days_from_civil y m d) = (y, m, d).
Proof.
  intros Hm Hd.
  remember (if m <=? 2 then y - 1 else y) as y' eqn:Ey.
  remember (if 2 <? m then m - 3 else m + 9) as mp eqn:Emp.
  remember (y' / 400) as era eqn:Eera.
  remember (y' - era * 400) as yoe eqn:Eyoe.
  remember ((153 * mp + 2) / 5) as first eqn:Efirst.
  remember (first + d - 1) as doy eqn:Edoy.
  remember (yoe * 365 + yoe / 4 - yoe / 100 + doy) as doe eqn:Edoe.
  assert (Hz : days_from_civil y m d + 719468 = era * 146097 + doe).
  { unfold days_from_civil.
    rewrite <- Ey, <- Emp, <- Eera, <- Eyoe, <- Efirst.
    rewrite Edoe, Edoy. lia. }
  assert (Hyoe : 0 <= yoe <= 399).
  { subst yoe era. Z.div_mod_to_equations. lia. }
  assert (Hlen : 1 <= d <= (153 * (mp + 1) + 2) / 5 - first
                 /\ 0 <= doy <= 365
                 /\ (doy = 365 ->
                     (yoe + 1) mod 4 = 0
                     /\ ((yoe + 1) mod 100 <> 0 \/ yoe = 399))).
  { destruct (days_in_month_cases y m Hm) as [[H2 Hl] | [H2 Hl]].
    - subst m. change (2 <? 2) with false in Emp. cbv iota in Emp.
      change (2 <=? 2) with true in Ey. cbv iota in Ey.
      subst mp. change ((153 * (2 + 9) + 2) / 5) with 337 in Efirst.
      change ((153 * (2 + 9 + 1) + 2) / 5) with 367.
      rewrite Hl in Hd. clear Hl.
      destruct (leap_cases y) as [[HL Hl] | [HL Hl]]; rewrite HL in Hd;
        clear HL; subst first doy; repeat split; try lia;
        intros; subst yoe era y'; Z.div_mod_to_equations; lia.
    - rewrite <- Emp, <- Efirst in Hl. rewrite Hl in Hd.
      split; [exact Hd|].
      assert (mp <= 10).
      { destruct (march_based m Hm) as [[H [E1 E2]] | [H [E1 E2]]];
          rewrite E2 in Emp; lia. }
      assert (0 <= mp) by (destruct (march_based m Hm) as [[H0 [E1 E2]] | [H0 [E1 E2]]];
          rewrite E2 in Emp; lia).
      subst doy first. clear - H H0 Hd.
      split; [|intro]; Z.div_mod_to_equations; lia. }
  assert (Hmp : 0 <= mp <= 11
                /\ m = (if mp <? 10 then mp + 3 else mp - 9)
                /\ y = yoe + era * 400 + (if m <=? 2 then 1 else 0)).
  { destruct (march_based m Hm) as [[H [E1 E2]] | [H [E1 E2]]];
      rewrite E1 in *; rewrite E2 in Emp; subst mp.
    - destruct (Z.ltb_spec (m + 9) 10); lia.
    - destruct (Z.ltb_spec (m - 3) 10); lia. }
  destruct Hmp as [Hmp [Hm' Hy']].
  destruct Hlen as [Hd' [Hdoy Hleap]].
  destruct (year_of_era_recovered yoe doy Hyoe Hdoy Hleap) as [Hdoe Hyoe'].
  rewrite <- Edoe in Hdoe, Hyoe'.
  unfold civil_from_days. rewrite Hz.
  replace ((era * 146097 + doe) / 146097) with era
    by (clear - Hdoe; Z.div_mod_to_equations; lia).
  replace (era * 146097 + doe - era * 146097) with doe by lia.
  rewrite Hyoe'.
  replace (doe - (365 * yoe + yoe / 4 - yoe / 100)) with doy by lia.
  assert (Hmp' : (5 * doy + 2) / 153 = mp).
  { rewrite Edoy, Efirst. apply month_index_recovered; [exact Hmp|].
    rewrite <- Efirst. exact Hd'. }
  rewrite Hmp', <- Efirst, <- Hm'.
  f_equal; [f_equal|]; lia.
Qed.

Lemma dayNumber_civil (s : ISODate) :
  1 <= mo s <= 12 ->
  dayNumber s = days_from_civil (yr s) (mo s) (dy s).
Proof.
  intro H. unfold dayNumber, MakeDay.
  replace ((mo s - 1) / 12) with 0 by (Z.div_mod_to_equations; lia).
  replace ((mo s - 1) mod 12 + 1) with (mo s)
    by (Z.div_mod_to_equations; lia).
  rewrite Z.add_0_r. symmetry. apply days_from_civil_day.
Qed.

(** [new Date(d.getFullYear(), d.getMonth() + 1, 0)] is local midnight
    of the last day of the local month of [d]. *)
Lemma last_day_of_local_month (tza t y m d : Z) :
  civil_from_days (localDay tza t) = (y, m, d) ->
  1 <= m <= 12 ->
  localMidnight tza (getFullYear tza t) (getMonth tza t + 1) 0
  = (days_from_civil y m 1 + DaysInMonth y m - 1) * msPerDay - tza.
Proof.
  intros Hc Hm.
  unfold localMidnight, getFullYear, getMonth, YearFromTime, MonthFromTime,
         UTC, MakeDate, MakeDay.
  unfold localDay in Hc. rewrite Hc.
  replace (m - 1 + 1) with m by lia.
  rewrite (next_month_first y m Hm). lia.
Qed.

(** The window of a month, for a zone at or east of UTC: it starts with
    the first day of the month and ends at local midnight of the last. *)
Lemma month_window_east (tza : Z) (s : ISODate) :
  0 <= tza < msPerDay ->
  1 <= mo s <= 12 -> dy s = 1 ->
  localMidnight tza (getFullYear tza (parse s)) (getMonth tza (parse s) + 1) 0
  = (dayNumber s + DaysInMonth (yr s) (mo s) - 1) * msPerDay - tza.
Proof.
  intros Hz Hm Hd.
  rewrite (dayNumber_civil s Hm), Hd.
  apply (last_day_of_local_month tza (parse s) (yr s) (mo s) 1);
    [|exact Hm].
  rewrite (localDay_parse tza s Hz), (dayNumber_civil s Hm), Hd.
  apply civil_of_days_from_civil; [exact Hm|].
  unfold DaysInMonth.
  destruct (mo s =? 2); [destruct (InLeapYear (yr s)); lia|].
  destruct ((mo s =? 4) || (mo s =? 6) || (mo s =? 9) || (mo s =? 11)); lia.
Qed.

Lemma days_in_month_bounds (y m : Z) : 28 <= DaysInMonth y m <= 31.
Proof.
  unfold DaysInMonth.
  destruct (m =? 2); [destruct (InLeapYear y); lia|].
  destruct ((m =? 4) || (m =? 6) || (m =? 9) || (m =? 11)); lia.
Qed.

(** West of UTC the first day of the month is read as the last day of
    the month before, so the window ends a day before it starts. *)
Lemma month_window_west (tza : Z) (s : ISODate) :
  - msPerDay <= tza < 0 ->
  1 <= mo s <= 12 -> dy s = 1 ->
  localMidnight tza (getFullYear tza (parse s)) (getMonth tza (parse s) + 1) 0
  = (dayNumber s - 1) * msPerDay - tza.
Proof.
  intros Hz Hm Hd.
  pose (yp := if mo s =? 1 then yr s - 1 else yr s).
  pose (mp := if mo s =? 1 then 12 else mo s - 1).
  assert (Hmp : 1 <= mp <= 12).
  { subst mp. destruct (Z.eqb_spec (mo s) 1); lia. }
  assert (Hnext : days_from_civil yp mp 1 + DaysInMonth yp mp
                  = dayNumber s).
  { rewrite <- (next_month_first yp mp Hmp).
    rewrite (dayNumber_civil s Hm), Hd.
    subst yp mp. destruct (Z.eqb_spec (mo s) 1) as [E | E].
    - rewrite E. change (12 / 12) with 1. change (12 mod 12 + 1) with 1.
      f_equal. lia.
    - replace ((mo s - 1) / 12) with 0 by (Z.div_mod_to_equations; lia).
      replace ((mo s - 1) mod 12 + 1) with (mo s)
        by (Z.div_mod_to_equations; lia).
      f_equal. lia. }
  pose proof (days_in_month_bounds yp mp) as Hlen.
  rewrite (last_day_of_local_month tza (parse s) yp mp (DaysInMonth yp mp)).
  - rewrite <- Hnext. reflexivity.
  - rewrite (localDay_parse_west tza s Hz), <- Hnext.
    replace (days_from_civil yp mp 1 + DaysInMonth yp mp - 1)
      with (days_from_civil yp mp (DaysInMonth yp mp))
      by (rewrite (days_from_civil_day yp mp (DaysInMonth yp mp)); lia).
    apply civil_of_days_from_civil; [exact Hmp | lia].
  - exact Hmp.
Qed.

(** The days of a month are the dates of that year and month. *)
Lemma in_month_iff (s t : ISODate) :
  1 <= mo s <= 12 -> dy s = 1 -> valid_date t ->
  (dayNumber s <= dayNumber t
     <= dayNumber s + DaysInMonth (yr s) (mo s) - 1)
  <-> yr t = yr s /\ mo t = mo s.
Proof.
  intros Hm Hd [Htm Htd].
  rewrite (dayNumber_civil s Hm), (dayNumber_civil t Htm), Hd.
  split.
  - intro Hin.
    pose proof (civil_of_days_from_civil (yr t) (mo t) (dy t) Htm Htd) as Ht.
    remember (days_from_civil (yr t) (mo t) (dy t)) as n eqn:En.
    pose proof (civil_of_days_from_civil (yr s) (mo s)
                  (n - days_from_civil (yr s) (mo s) 1 + 1) Hm
                  ltac:(lia)) as Hs.
    rewrite (days_from_civil_day (yr s) (mo s)) in Hs.
    replace (days_from_civil (yr s) (mo s) 1
             + (n - days_from_civil (yr s) (mo s) 1 + 1) - 1)
      with n in Hs by lia.
    rewrite Ht in Hs. injection Hs as Hy Hmo _. split; assumption.
  - intros [Hy Hmo]. rewrite Hy, Hmo in *.
    rewrite (days_from_civil_day (yr s) (mo s) (dy t)). lia.
Qed.

Lemma same_month_iff (a b : ISODate) :
  same_month a b = true <-> yr a = yr b /\ mo a = mo b.
Proof.
  unfold same_month. rewrite andb_true_iff, !Z.eqb_eq. tauto.
Qed.

(** On UTC the window of a month holds exactly the dates of the month. *)
Lemma window_utc (s t : ISODate) :
  1 <= mo s <= 12 -> dy s = 1 -> valid_date t ->
  (parse s <=? parse t)
  && (parse t <=? localMidnight 0 (getFullYear 0 (parse s))
                               (getMonth 0 (parse s) + 1) 0)
  = same_month t s.
Proof.
  intros Hm Hd Ht.
  rewrite (month_window_east 0 s ltac:(unfold msPerDay; lia) Hm Hd).
  rewrite !parse_dayNumber.
  apply eq_true_iff_eq.
  rewrite andb_true_iff, !Z.leb_le, same_month_iff.
  rewrite <- (in_month_iff s t Hm Hd Ht).
  unfold msPerDay. lia.
Qed.

(** East of UTC the window stops short of the last day of the month. *)
Lemma window_east (tza : Z) (s t : ISODate) :
  0 < tza < msPerDay ->
  1 <= mo s <= 12 -> dy s = 1 -> valid_date t ->
  (parse s <=? parse t)
  && (parse t <=? localMidnight tza (getFullYear tza (parse s))
                               (getMonth tza (parse s) + 1) 0)
  = same_month t s && (dy t <? DaysInMonth (yr s) (mo s)).
Proof.
  intros Hz Hm Hd Ht.
  rewrite (month_window_east tza s ltac:(lia) Hm Hd).
  rewrite !parse_dayNumber.
  apply eq_true_iff_eq.
  rewrite !andb_true_iff, !Z.leb_le, Z.ltb_lt, same_month_iff.
  pose proof (in_month_iff s t Hm Hd Ht) as Hin.
  destruct Ht as [Htm Htd].
  split.
  - intros [H1 H2].
    assert (Hsame : yr t = yr s /\ mo t = mo s).
    { apply Hin. unfold msPerDay in *. lia. }
    split; [exact Hsame|].
    destruct Hsame as [Hy Hmo].
    rewrite (dayNumber_civil s Hm), (dayNumber_civil t Htm), Hd in *.
    rewrite Hy, Hmo in *.
    rewrite (days_from_civil_day (yr s) (mo s) (dy t)) in H2.
    unfold msPerDay in *. lia.
  - intros [Hsame Hlt].
    destruct Hsame as [Hy Hmo].
    rewrite (dayNumber_civil s Hm), (dayNumber_civil t Htm), Hd.
    rewrite Hy, Hmo.
    rewrite (days_from_civil_day (yr s) (mo s) (dy t)).
    unfold msPerDay in *. lia.
Qed.

(** West of UTC the window is empty. *)
Lemma window_west (tza : Z) (s t : ISODate) :
  - msPerDay < tza < 0 ->
  1 <= mo s <= 12 -> dy s = 1 ->
  (parse s <=? parse t)
  && (parse t <=? localMidnight tza (getFullYear tza (parse s))
                               (getMonth tza (parse s) + 1) 0)
  = false.
Proof.
  intros Hz Hm Hd.
  rewrite (month_window_west tza s ltac:(lia) Hm Hd).
  rewrite !parse_dayNumber.
  apply andb_false_iff.
  destruct (Z.leb_spec (dayNumber s * msPerDay) (dayNumber t * msPerDay));
    [right | left; reflexivity].
  apply Z.leb_gt. unfold msPerDay in *. lia.
Qed.

(** The local year of the first day of a month: the year of the month
    at or east of UTC; west of UTC January starts in the year before. *)
Lemma first_of_month_year_east (tza : Z) (s : ISODate) :
  0 <= tza < msPerDay ->
  1 <= mo s <= 12 -> dy s = 1 ->
  getFullYear tza (parse s) = yr s.
Proof.
  intros Hz Hm Hd.
  assert (Hc : civil_from_days (localDay tza (parse s))
               = (yr s, mo s, 1)).
  { rewrite (localDay_parse tza s Hz), (dayNumber_civil s Hm), Hd.
    apply civil_of_days_from_civil; [exact Hm|].
    pose proof (days_in_month_bounds (yr s) (mo s)). lia. }
  unfold getFullYear, YearFromTime. unfold localDay in Hc.
  rewrite Hc. reflexivity.
Qed.

Lemma first_of_month_year_west (tza : Z) (s : ISODate) :
  - msPerDay <= tza < 0 ->
  1 <= mo s <= 12 -> dy s = 1 ->
  getFullYear tza (parse s) = if mo s =? 1 then yr s - 1 else yr s.
Proof.
  intros Hz Hm Hd.
  pose (yp := if mo s =? 1 then yr s - 1 else yr s).
  pose (mp := if mo s =? 1 then 12 else mo s - 1).
  assert (Hmp : 1 <= mp <= 12).
  { subst mp. destruct (Z.eqb_spec (mo s) 1); lia. }
  assert (Hnext : days_from_civil yp mp 1 + DaysInMonth yp mp
                  = dayNumber s).
  { rewrite <- (next_month_first yp mp Hmp).
    rewrite (dayNumber_civil s Hm), Hd.
    subst yp mp. destruct (Z.eqb_spec (mo s) 1) as [E | E].
    - rewrite E. change (12 / 12) with 1. change (12 mod 12 + 1) with 1.
      f_equal. lia.
    - replace ((mo s - 1) / 12) with 0 by (Z.div_mod_to_equations; lia).
      replace ((mo s - 1) mod 12 + 1) with (mo s)
        by (Z.div_mod_to_equations; lia).
      f_equal. lia. }
  pose proof (days_in_month_bounds yp mp) as Hlen.
  assert (Hc : civil_from_days (localDay tza (parse s))
               = (yp, mp, DaysInMonth yp mp)).
  { rewrite (localDay_parse_west tza s Hz), <- Hnext.
    replace (days_from_civil yp mp 1 + DaysInMonth yp mp - 1)
      with (days_from_civil yp mp (DaysInMonth yp mp))
      by (rewrite (days_from_civil_day yp mp (DaysInMonth yp mp)); lia).
    apply civil_of_days_from_civil; [exact Hmp | lia]. }
  unfold getFullYear, YearFromTime. unfold localDay in Hc.
  rewrite Hc. reflexivity.
Qed.

Lemma MakeFullYear_other (y : Z) :
  ~ (0 <= y <= 99) -> MakeFullYear y = y.
Proof.
  intro H. unfold MakeFullYear.
  destruct (Z.leb_spec 0 y); [|reflexivity].
  destruct (Z.leb_spec y 99); [lia | reflexivity].
Qed.

(** The end of the window of a budget month whose year is not one of
    0 to 99 (at or east of UTC), nor the year 100 (west of UTC, where
    the local year may be the year before). *)
Lemma budget_monthEnd_east (tza : Z) (s : ISODate) :
  0 <= tza < msPerDay ->
  1 <= mo s <= 12 -> dy s = 1 ->
  ~ (0 <= yr s <= 99) ->
  BudgetCards.monthEnd tza s
  = localMidnight tza (getFullYear tza (parse s))
                      (getMonth tza (parse s) + 1) 0.
Proof.
  intros Hz Hm Hd Hy.
  unfold BudgetCards.monthEnd, BudgetCards.monthStart, fromFields.
  rewrite MakeFullYear_other; [reflexivity|].
  rewrite (first_of_month_year_east tza s Hz Hm Hd). exact Hy.
Qed.

Lemma budget_monthEnd_west (tza : Z) (s : ISODate) :
  - msPerDay <= tza < 0 ->
  1 <= mo s <= 12 -> dy s = 1 ->
  ~ (0 <= yr s <= 100) ->
  BudgetCards.monthEnd tza s
  = localMidnight tza (getFullYear tza (parse s))
                      (getMonth tza (parse s) + 1) 0.
Proof.
  intros Hz Hm Hd Hy.
  unfold BudgetCards.monthEnd, BudgetCards.monthStart, fromFields.
  rewrite MakeFullYear_other; [reflexivity|].
  rewrite (first_of_month_year_west tza s Hz Hm Hd).
  destruct (mo s =? 1); lia.
Qed.

(** The end of the month in Stats: for a clock whose month starts in
    a local year other than 0 to 99 it is what the constructor
    [new Date(year, month, date)] gives. *)
Lemma stats_monthEnd_constructor (tza now : Z) :
  ~ (0 <= getFullYear tza (Stats.monthStart now) <= 99) ->
  Stats.monthEnd tza now
  = fromFields tza (getFullYear tza (Stats.monthStart now))
                   (getMonth tza (Stats.monthStart now) + 1) 0.
Proof.
  intro Hy. unfold Stats.monthEnd, fromFields.
  rewrite (MakeFullYear_other _ Hy). reflexivity.
Qed.

(* ----------------------------------------------------------------- *)
(** ** Stats: the transactions of the month, by time zone *)

Lemma toISOMonth_month (now : Z) : 1 <= snd (toISOMonth now) <= 12.
Proof.
  unfold toISOMonth, MonthFromTime, YearFromTime. cbn [snd].
  destruct (civil_from_days (Day now)) as [[y m] d] eqn:E.
  destruct (civil_from_days_spec _ _ _ _ E) as [Hm _]. lia.
Qed.

(** X7. On UTC, with dates that exist, the month's transactions are
    those dated in the current UTC year and month. *)
Lemma monthTransactions_utc (now : Z) (transactions : list Transaction) :
  (forall t, In t transactions -> valid_date (t_date t)) ->
  Stats.monthTransactions 0 now transactions
  = filter (fun t => same_month (t_date t) (firstOfMonth (toISOMonth now)))
           transactions.
Proof.
  intro Hvalid. unfold Stats.monthTransactions.
  apply filter_ext_in. intros t Ht.
  unfold Stats.monthEnd, Stats.monthStart, Stats.currentMonth.
  apply (window_utc (firstOfMonth (toISOMonth now)) (t_date t)
                    (toISOMonth_month now) eq_refl (Hvalid t Ht)).
Qed.

(** West of UTC no transaction is of the month, and the card of top
    expenses shows its placeholder whatever was spent. *)
Lemma monthTransactions_west_of_utc (tza now : Z)
      (transactions : list Transaction) :
  - msPerDay < tza < 0 ->
  Stats.monthTransactions tza now transactions = [].
Proof.
  intro Hz. unfold Stats.monthTransactions.
  induction transactions as [|t l IH]; [reflexivity|].
  cbn [filter]. rewrite IH.
  unfold Stats.monthEnd, Stats.monthStart, Stats.currentMonth.
  rewrite (window_west tza (firstOfMonth (toISOMonth now)) (t_date t) Hz
                       (toISOMonth_month now) eq_refl).
  reflexivity.
Qed.

(** X8. West of UTC the card of top expenses shows its placeholder
    whatever was spent. *)
Lemma topExpensesCard_west_of_utc (tza now : Z)
      (transactions : list Transaction) (categories : list Category) :
  - msPerDay < tza < 0 ->
  Stats.topExpensesCard tza now transactions categories
  = Stats.NoExpensesThisMonth.
Proof.
  intro Hz.
  unfold Stats.topExpensesCard, Stats.expensesByCategory,
         Stats.categoryTotals, Stats.categoryTotal.
  rewrite (monthTransactions_west_of_utc tza now transactions Hz).
  cbn [filter]. rewrite sumAmounts_nil.
  replace (filter (fun item => 0 <? Stats.total item) _)
    with (@nil Stats.Item); [reflexivity|].
  symmetry.
  induction (filter (fun c => kind_eqb (c_type c) Expense) categories)
    as [|c cs IH]; [reflexivity | exact IH].
Qed.

(** On UTC the total the component computes for a category is its
    month-to-date sum, for the calendar month of the clock. *)
Lemma categoryTotal_utc (now : Z) (transactions : list Transaction)
      (c : Category) :
  (forall t, In t transactions -> valid_date (t_date t)) ->
  Stats.categoryTotal 0 now transactions c
  = month_to_date (toISOMonth now) c transactions.
Proof.
  intro Hvalid.
  unfold Stats.categoryTotal, Stats.monthTransactions, month_to_date.
  rewrite sumAmounts_total_of, filter_filter_andb. f_equal.
  apply filter_ext_in. intros t Ht.
  unfold Stats.monthEnd, Stats.monthStart, Stats.currentMonth.
  rewrite (window_utc (firstOfMonth (toISOMonth now)) (t_date t)
                      (toISOMonth_month now) eq_refl (Hvalid t Ht)).
  apply andb_comm.
Qed.

Lemma StronglySorted_same_keys {A : Type} (f g : A -> Z) (l : list A) :
  (forall x, In x l -> f x = g x) ->
  StronglySorted (not_below f) l -> StronglySorted (not_below g) l.
Proof.
  induction l as [|x l IH]; intros Heq Hs; [constructor|].
  inversion Hs as [|? ? Hs' Hall]; subst.
  constructor.
  - apply IH; [|exact Hs']. intros y Hy. apply Heq. right. exact Hy.
  - apply Forall_forall. intros y Hy.
    rewrite Forall_forall in Hall. specialize (Hall y Hy).
    unfold not_below in *.
    rewrite <- (Heq x (or_introl eq_refl)), <- (Heq y (or_intror Hy)).
    exact Hall.
Qed.

(** C3 (amended).  In a browser on UTC, with dates that exist: the
    list of top expenses holds only expense categories of the category
    set whose month-to-date sum, over the calendar month of the clock,
    is strictly above zero, and shows that sum as their total; the sums
    never increase along the list (equal sums may follow one another);
    and the list has at most five items. *)
Theorem top_expenses_positive_descending_at_most_five
        (now : Z) (transactions : list Transaction)
        (categories : list Category) :
  (forall t, In t transactions -> valid_date (t_date t)) ->
  let top := Stats.expensesByCategory 0 now transactions categories in
  let sum := fun item =>
               month_to_date (toISOMonth now) (Stats.category item)
                             transactions in
  (List.length top <= 5)%nat
  /\ Forall (fun item =>
               In (Stats.category item) categories
               /\ c_type (Stats.category item) = Expense
               /\ Stats.total item = sum item
               /\ 0 < sum item) top
  /\ StronglySorted (not_below sum) top.
Proof.
  intros Hvalid top sum.
  destruct (expensesByCategory_by_computed_totals 0 now transactions
                                                  categories)
    as [Hlen [Hitems Hsorted]].
  fold top in Hlen, Hitems, Hsorted.
  assert (Hsum : forall item, In item top -> Stats.total item = sum item).
  { intros item Hin. rewrite Forall_forall in Hitems.
    destruct (Hitems item Hin) as [_ [_ [Ht _]]].
    rewrite Ht. apply categoryTotal_utc, Hvalid. }
  split; [exact Hlen|]. split.
  - apply Forall_forall. intros item Hin.
    rewrite Forall_forall in Hitems.
    destruct (Hitems item Hin) as [Hc [Hk [_ Hpos]]].
    rewrite <- (Hsum item Hin).
    repeat split; assumption.
  - apply (StronglySorted_same_keys Stats.total sum top Hsum Hsorted).
Qed.

Lemma top_expenses_positive_descending_at_most_five_witness :
  (forall t, In t Sample.tied -> valid_date (t_date t))
  /\ StronglySorted
       (not_below (fun item =>
                     month_to_date (toISOMonth Sample.now)
                                   (Stats.category item) Sample.tied))
       (Stats.expensesByCategory 0 Sample.now Sample.tied
                                 [Sample.food; Sample.fuel]).
Proof.
  assert (Hvalid : forall t, In t Sample.tied -> valid_date (t_date t)).
  { intros t [<- | [<- | []]]; unfold valid_date; cbn; lia. }
  split; [exact Hvalid|].
  apply (top_expenses_positive_descending_at_most_five
           Sample.now Sample.tied [Sample.food; Sample.fuel] Hvalid).
Defined.

(** Away from UTC the totals of the list are not the month-to-date
    sums.  In Kolkata, with 50.00 and 30.00 spent on food on the 5th
    and the 31st of January and 60.00 on fuel on the 6th, fuel is
    listed first with 60.00 and food second with 50.00, although 80.00
    was spent on food in January: the range of the month ends before
    its last day. *)
Example top_expenses_kolkata_out_of_order :
  map (fun item => (c_id (Stats.category item), Stats.total item))
      (Stats.expensesByCategory Sample.kolkata Sample.now
         [Sample.spend "t1" "A" 5000 (mkDate 2024 1 5);
          Sample.spend "t2" "A" 3000 (mkDate 2024 1 31);
          Sample.spend "t3" "B" 6000 (mkDate 2024 1 6)]
         [Sample.food; Sample.fuel])
  = [("B"%string, 6000); ("A"%string, 5000)]
  /\ month_to_date (toISOMonth Sample.now) Sample.food
       [Sample.spend "t1" "A" 5000 (mkDate 2024 1 5);
        Sample.spend "t2" "A" 3000 (mkDate 2024 1 31);
        Sample.spend "t3" "B" 6000 (mkDate 2024 1 6)]
     = 8000.
Proof. split; vm_compute; reflexivity. Qed.

(* ----------------------------------------------------------------- *)
(** ** BudgetManager: the budget cards *)

(** What a card derives from the amount spent: percentage, bar width,
    overage flag and overage. *)
Lemma card_of_spent (tza : Z) (transactions : list Transaction)
      (budget : Budget) :
  0 < b_amount budget ->
  let c := BudgetCards.card tza transactions budget in
  BudgetCards.spent c
  = BudgetCards.getSpentAmount tza transactions
      (b_category_id budget) (b_month budget)
  /\ BudgetCards.percentage c
     = Some (inject_Z (BudgetCards.spent c) / inject_Z (b_amount budget)
             * 100)%Q
  /\ BudgetCards.barWidth c
     = Some (Qmin (inject_Z (BudgetCards.spent c) / inject_Z (b_amount budget)
                   * 100) 100)%Q
  /\ (BudgetCards.isOverBudget c = true
      <-> b_amount budget < BudgetCards.spent c)
  /\ (BudgetCards.spent c <= b_amount budget ->
      BudgetCards.isOverBudget c = false
      /\ BudgetCards.overBudgetBy c = None)
  /\ (BudgetCards.isOverBudget c = true ->
      BudgetCards.overBudgetBy c
      = Some (BudgetCards.spent c - b_amount budget)).
Proof.
  intros Hpos c. subst c. unfold BudgetCards.card.
  cbn [BudgetCards.spent BudgetCards.percentage BudgetCards.barWidth
       BudgetCards.isOverBudget BudgetCards.overBudgetBy].
  set (spent := BudgetCards.getSpentAmount tza transactions
                  (b_category_id budget) (b_month budget)).
  assert (Hdiv : js_div spent (b_amount budget)
                 = Some (inject_Z spent / inject_Z (b_amount budget))%Q).
  { unfold js_div.
    destruct (b_amount budget =? 0) eqn:E; [|reflexivity].
    apply Z.eqb_eq in E. lia. }
  rewrite Hdiv. cbn [times100 option_map].
  split; [reflexivity|]. split; [reflexivity|]. split; [reflexivity|].
  split; [apply Z.ltb_lt|]. split.
  - intro Hle.
    assert (E : (b_amount budget <? spent) = false) by (apply Z.ltb_ge, Hle).
    rewrite E. split; reflexivity.
  - intros ->. reflexivity.
Qed.

(** The amount spent, by time zone. On UTC it is the sum over the
    expenses of the category dated in the month of the budget; east of
    UTC the last day of the month is left out; west of UTC nothing is
    counted. *)
Section SpentByZone.
Variable transactions : list Transaction.
Variable categoryId : string.
Variable budgetMonth : ISODate.
Hypothesis month_ok : 1 <= mo budgetMonth <= 12.
Hypothesis first_day : dy budgetMonth = 1.

Lemma getSpentAmount_utc :
  ~ (0 <= yr budgetMonth <= 99) ->
  (forall t, In t transactions -> valid_date (t_date t)) ->
  BudgetCards.getSpentAmount 0 transactions categoryId budgetMonth
  = total_of
      (filter (fun t => String.eqb (t_category_id t) categoryId
                        && kind_eqb (t_type t) Expense
                        && same_month (t_date t) budgetMonth)
              transactions).
Proof.
  intros Hyear Hvalid. unfold BudgetCards.getSpentAmount.
  rewrite sumAmounts_total_of. f_equal.
  apply filter_ext_in. intros t Ht.
  rewrite <- andb_assoc. f_equal.
  rewrite (budget_monthEnd_east 0 budgetMonth
             ltac:(unfold msPerDay; lia) month_ok first_day Hyear).
  unfold BudgetCards.monthStart.
  apply (window_utc budgetMonth (t_date t) month_ok first_day (Hvalid t Ht)).
Qed.

(** X2. East of UTC, for a budget month of a year other than 0 to 99,
    the amount spent leaves out the expenses dated on the last day of
    the month: it is the sum over the expenses of the category dated in
    the month before its last day. *)
Lemma getSpentAmount_east_of_utc (tza : Z) :
  0 < tza < msPerDay ->
  ~ (0 <= yr budgetMonth <= 99) ->
  (forall t, In t transactions -> valid_date (t_date t)) ->
  BudgetCards.getSpentAmount tza transactions categoryId budgetMonth
  = total_of
      (filter (fun t => String.eqb (t_category_id t) categoryId
                        && kind_eqb (t_type t) Expense
                        && (same_month (t_date t) budgetMonth
                            && (dy (t_date t)
                                <? DaysInMonth (yr budgetMonth)
                                               (mo budgetMonth))))
              transactions).
Proof.
  intros Hz Hyear Hvalid. unfold BudgetCards.getSpentAmount.
  rewrite sumAmounts_total_of. f_equal.
  apply filter_ext_in. intros t Ht.
  rewrite <- andb_assoc. f_equal.
  rewrite (budget_monthEnd_east tza budgetMonth ltac:(lia)
             month_ok first_day Hyear).
  unfold BudgetCards.monthStart.
  apply (window_east tza budgetMonth (t_date t) Hz month_ok first_day
                     (Hvalid t Ht)).
Qed.

(** X3. West of UTC, for a budget month of a year other than 0 to 100,
    the amount spent is 0 whatever the transactions. *)
Lemma getSpentAmount_west_of_utc (tza : Z) :
  - msPerDay < tza < 0 ->
  ~ (0 <= yr budgetMonth <= 100) ->
  BudgetCards.getSpentAmount tza transactions categoryId budgetMonth = 0.
Proof.
  intros Hz Hyear. unfold BudgetCards.getSpentAmount.
  replace (filter _ transactions) with (@nil Transaction);
    [reflexivity|].
  symmetry. induction transactions as [|t l IH]; [reflexivity|].
  cbn [filter]. rewrite <- IH.
  rewrite <- andb_assoc.
  rewrite (budget_monthEnd_west tza budgetMonth ltac:(lia)
             month_ok first_day Hyear).
  unfold BudgetCards.monthStart.
  rewrite (window_west tza budgetMonth (t_date t) Hz month_ok first_day).
  rewrite andb_false_r. reflexivity.
Qed.
End SpentByZone.

(** X1. In a browser on UTC, for a budget of a month of a year other
    than 0 to 99 and transactions with dates that exist, the amount a
    card shows as spent is the sum of the expenses of the budget's
    category dated in that year and month. *)
Lemma card_utc_spent (transactions : list Transaction) (budget : Budget) :
  1 <= mo (b_month budget) <= 12 ->
  dy (b_month budget) = 1 ->
  ~ (0 <= yr (b_month budget) <= 99) ->
  (forall t, In t transactions -> valid_date (t_date t)) ->
  BudgetCards.spent (BudgetCards.card 0 transactions budget)
  = spent_in_month budget transactions.
Proof.
  intros Hm Hd Hyear Hvalid.
  unfold BudgetCards.card. cbn [BudgetCards.spent].
  apply (getSpentAmount_utc transactions (b_category_id budget)
                            (b_month budget) Hm Hd Hyear Hvalid).
Qed.

(** The scenarios of the specification, in a browser on UTC: 80.00
    spent against 100.00 is 80 percent and within budget; against 50.00
    it is over budget by 30.00. *)
Example budget_cards_scenarios :
  BudgetCards.spent
    (BudgetCards.card Sample.utc Sample.january Sample.budget_food_100)
  = 8000
  /\ BudgetCards.isOverBudget
       (BudgetCards.card Sample.utc Sample.january Sample.budget_food_100)
     = false
  /\ BudgetCards.isOverBudget
       (BudgetCards.card Sample.utc Sample.january Sample.budget_food_50)
     = true
  /\ BudgetCards.overBudgetBy
       (BudgetCards.card Sample.utc Sample.january Sample.budget_food_50)
     = Some 3000.
Proof.
  split; [vm_compute; reflexivity|].
  split; [vm_compute; reflexivity|].
  split; vm_compute; reflexivity.
Qed.

(** C2 fails west of UTC. In New York, for the budget of 50.00 on food
    for January 2024 and the 80.00 spent on food on January 5th: the
    month range the card computes starts on 2024-01-01T00:00Z and ends
    before it, on 2023-12-31T05:00Z, so the card counts nothing as
    spent and is not over budget, although the spending of the month
    exceeds the budget by 30.00. *)
Theorem budget_card_new_york_counts_nothing :
  spent_in_month Sample.budget_food_50 Sample.january = 8000
  /\ BudgetCards.monthStart (b_month Sample.budget_food_50)
     = 1704067200000
  /\ BudgetCards.monthEnd Sample.new_york (b_month Sample.budget_food_50)
     = 1703998800000
  /\ BudgetCards.spent
       (BudgetCards.card Sample.new_york Sample.january
                         Sample.budget_food_50) = 0
  /\ BudgetCards.isOverBudget
       (BudgetCards.card Sample.new_york Sample.january
                         Sample.budget_food_50) = false
  /\ BudgetCards.overBudgetBy
       (BudgetCards.card Sample.new_york Sample.january
                         Sample.budget_food_50) = None.
Proof.
  split; [vm_compute; reflexivity|].
  split; [vm_compute; reflexivity|].
  split; [vm_compute; reflexivity|].
  split; [vm_compute; reflexivity|].
  split; vm_compute; reflexivity.
Qed.

(** A budget month written with a year from 0 to 99: the end of the
    range is computed in the year 1900 later.  On UTC a budget for
    January of the year 99 counts every expense up to 31 January 1999;
    in New York a budget for January of the year 100, whose first day is
    read as a day of December 99, counts up to 31 December 1999. *)
Example budget_of_year_99_counts_to_1999 :
  BudgetCards.monthEnd Sample.utc (mkDate 99 1 1)
  = parse (mkDate 1999 1 31)
  /\ BudgetCards.getSpentAmount Sample.utc
       [Sample.spend "t1" "A" 100 (mkDate 99 1 5);
        Sample.spend "t2" "A" 600 (mkDate 1500 6 1)]
       "A" (mkDate 99 1 1) = 700
  /\ BudgetCards.getSpentAmount Sample.new_york
       [Sample.spend "t1" "A" 100 (mkDate 100 1 5);
        Sample.spend "t2" "A" 600 (mkDate 1500 6 1)]
       "A" (mkDate 100 1 1) = 700.
Proof.
  split; [vm_compute; reflexivity|].
  split; vm_compute; reflexivity.
Qed.

(** East of UTC the range ends before the last day of the month: in
    Kolkata an expense of January 31st is not counted. *)
Example budget_card_kolkata_misses_last_day :
  BudgetCards.spent
    (BudgetCards.card Sample.kolkata
       [Sample.spend "t1" "A" 5000 (mkDate 2024 1 30);
        Sample.spend "t2" "A" 3000 (mkDate 2024 1 31)]
       Sample.budget_food_50) = 5000.
Proof. vm_compute. reflexivity. Qed.

(* ----------------------------------------------------------------- *)
(** ** Row-level security *)

Section OwnerPolicies.
Context {Row : Type}.
Variable owner : Row -> string.
Variable P : Store.Policies Row.

(** Each of the five expressions is [auth.uid() = user_id]. *)
Hypothesis select_is_owner :
  forall uid r, Store.select_using P uid r = String.eqb uid (owner r).
Hypothesis insert_is_owner :
  forall uid r, Store.insert_check P uid r = String.eqb uid (owner r).
Hypothesis update_is_owner :
  forall uid r, Store.update_using P uid r = String.eqb uid (owner r).
Hypothesis update_check_is_owner :
  forall uid r, Store.update_check P uid r = String.eqb uid (owner r).
Hypothesis delete_is_owner :
  forall uid r, Store.delete_using P uid r = String.eqb uid (owner r).

Lemma owned_by_iff (caller : Store.Caller) (r : Row) :
  owned_by owner caller r = true <-> caller = Some (owner r).
Proof.
  destruct caller as [uid|]; simpl.
  - rewrite String.eqb_eq. split; congruence.
  - split; discriminate.
Qed.

Lemma allowed_owned (expr : string -> Row -> bool)
      (caller : Store.Caller) (r : Row) :
  (forall uid r, expr uid r = String.eqb uid (owner r)) ->
  Store.allowed expr caller r = owned_by owner caller r.
Proof. intro H. destruct caller; simpl; [apply H | reflexivity]. Qed.

Lemma insert_accepts_only_own (caller : Store.Caller) (r : Row)
      (tbl tbl' : list Row) :
  Store.rls_insert P caller r tbl = Some tbl' ->
  caller = Some (owner r) /\ tbl' = tbl ++ [r].
Proof.
  unfold Store.rls_insert.
  rewrite (allowed_owned _ _ _ insert_is_owner).
  destruct (owned_by owner caller r) eqn:E; [|discriminate].
  intro H. injection H as <-.
  split; [apply owned_by_iff, E | reflexivity].
Qed.

Lemma insert_rejects_foreign (caller : Store.Caller) (r : Row)
      (tbl : list Row) :
  caller <> Some (owner r) -> Store.rls_insert P caller r tbl = None.
Proof.
  intro Hr. unfold Store.rls_insert.
  rewrite (allowed_owned _ _ _ insert_is_owner).
  destruct (owned_by owner caller r) eqn:E; [|reflexivity].
  apply owned_by_iff in E. contradiction.
Qed.

Lemma select_returns_own (caller : Store.Caller) (tbl : list Row)
      (r : Row) :
  In r (Store.rls_select P caller tbl)
  <-> In r tbl /\ caller = Some (owner r).
Proof.
  unfold Store.rls_select.
  rewrite filter_In, (allowed_owned _ _ _ select_is_owner), owned_by_iff.
  tauto.
Qed.

Lemma update_reaches_owned (caller : Store.Caller) (target : Row -> bool)
      (r : Row) :
  Store.update_reaches P caller target r
  = owned_by owner caller r && target r.
Proof.
  unfold Store.update_reaches.
  rewrite (allowed_owned _ _ _ select_is_owner),
          (allowed_owned _ _ _ update_is_owner).
  destruct (owned_by owner caller r); reflexivity.
Qed.

Lemma update_spares_others (caller : Store.Caller)
      (target : Row -> bool) (set : Row -> Row) (tbl tbl' : list Row) :
  Store.rls_update P caller target set tbl = Some tbl' ->
  rows_of_others owner caller tbl' = rows_of_others owner caller tbl
  /\ forall r', In r' tbl' -> In r' tbl \/ caller = Some (owner r').
Proof.
  unfold Store.rls_update.
  destruct (forallb _ tbl) eqn:Hall; [|discriminate].
  intro H. injection H as <-.
  rewrite forallb_forall in Hall.
  assert (Hnew : forall r, In r tbl ->
                           Store.update_reaches P caller target r = true ->
                           owned_by owner caller r = true
                           /\ owned_by owner caller (set r) = true).
  { intros r Hin Hreach. specialize (Hall r Hin).
    rewrite Hreach in Hall. cbn [negb orb] in Hall.
    rewrite (allowed_owned _ _ _ update_check_is_owner) in Hall.
    rewrite update_reaches_owned in Hreach.
    apply andb_true_iff in Hreach. tauto. }
  clear Hall. split.
  - unfold rows_of_others.
    induction tbl as [|r l IH]; [reflexivity|].
    assert (IH' := IH (fun x Hx => Hnew x (or_intror Hx))).
    specialize (Hnew r (or_introl eq_refl)).
    cbn [map filter].
    destruct (Store.update_reaches P caller target r) eqn:Ereach.
    + destruct (Hnew eq_refl) as [H1 H2].
      rewrite H1, H2. cbn [negb]. exact IH'.
    + destruct (owned_by owner caller r); cbn [negb];
        [|f_equal]; exact IH'.
  - intros r' Hr'.
    apply in_map_iff in Hr'. destruct Hr' as [r [Hr Hin]].
    destruct (Store.update_reaches P caller target r) eqn:Ereach.
    + right. subst r'. apply owned_by_iff, (Hnew r Hin Ereach).
    + left. subst r'. exact Hin.
Qed.

Lemma delete_spares_others (caller : Store.Caller)
      (target : Row -> bool) (tbl : list Row) :
  rows_of_others owner caller (Store.rls_delete P caller target tbl)
  = rows_of_others owner caller tbl.
Proof.
  unfold rows_of_others, Store.rls_delete.
  rewrite filter_filter_andb. apply filter_ext. intro r.
  unfold Store.delete_reaches.
  rewrite (allowed_owned _ _ _ select_is_owner),
          (allowed_owned _ _ _ delete_is_owner).
  destruct (owned_by owner caller r), (target r); reflexivity.
Qed.

Lemma owner_policies_isolate : isolated_by_owner owner P.
Proof.
  intros caller tbl.
  split; [intros r tbl'; apply insert_accepts_only_own|].
  split; [intro r; apply insert_rejects_foreign|].
  split; [intro r; apply select_returns_own|].
  split; [intros target set tbl'; apply update_spares_others|].
  intro target. apply delete_spares_others.
Qed.
End OwnerPolicies.

(** X28. By a statement on one table, on each of the three tables: an
    insert is accepted only when the owner of the row is the caller; a
    select returns the rows of the caller and no others; an update or
    delete leaves the rows of other owners as they were, and an update
    writes only rows the caller owns.  (What the delete of a category
    does to the other two tables is not a statement on them.) *)
Theorem tables_isolated_by_owner :
  isolated_by_owner c_user_id Store.categories_policies
  /\ isolated_by_owner t_user_id Store.transactions_policies
  /\ isolated_by_owner b_user_id Store.budgets_policies.
Proof.
  split; [|split]; apply owner_policies_isolate; reflexivity.
Qed.

(** User "v" asks for everything and tries to take over or delete the
    budget of user "u": nothing is returned and nothing changes; an
    insert in the name of "u" is refused. *)
Lemma tables_isolated_by_owner_witness :
  Store.rls_select Store.budgets_policies (Some "v"%string)
                   [Sample.budget_food_100] = []
  /\ Store.rls_insert Store.budgets_policies (Some "v"%string)
                      Sample.budget_food_50 [Sample.budget_food_100] = None
  /\ rows_of_others b_user_id (Some "v"%string)
       (Store.rls_delete Store.budgets_policies (Some "v"%string)
                         (fun _ => true) [Sample.budget_food_100])
     = rows_of_others b_user_id (Some "v"%string) [Sample.budget_food_100].
Proof.
  destruct tables_isolated_by_owner as [_ [_ Hb]].
  destruct (Hb (Some "v"%string) [Sample.budget_food_100])
    as [_ [Hins [_ [_ Hdel]]]].
  split; [reflexivity|]. split.
  - apply Hins. discriminate.
  - apply Hdel.
Defined.

(* ----------------------------------------------------------------- *)
(** ** The uniqueness constraint of budgets *)

Lemma isodate_eqb_sym (a b : ISODate) :
  Store.isodate_eqb a b = Store.isodate_eqb b a.
Proof.
  unfold Store.isodate_eqb.
  rewrite (Z.eqb_sym (yr a)), (Z.eqb_sym (mo a)), (Z.eqb_sym (dy a)).
  reflexivity.
Qed.

Lemma same_budget_key_sym (a b : Budget) :
  Store.same_budget_key a b = Store.same_budget_key b a.
Proof.
  unfold Store.same_budget_key.
  rewrite (String.eqb_sym (b_user_id a)), (String.eqb_sym (b_category_id a)),
          (isodate_eqb_sym (b_month a)).
  reflexivity.
Qed.

Lemma budgets_unique_app (l : list Budget) (row : Budget) :
  Store.budgets_unique l = true ->
  existsb (Store.same_budget_key row) l = false ->
  Store.budgets_unique (l ++ [row]) = true.
Proof.
  induction l as [|b l IH]; intros Hu Hnew; [reflexivity|].
  cbn [Store.budgets_unique existsb app] in *.
  apply andb_true_iff in Hu. destruct Hu as [Hb Hu].
  apply orb_false_iff in Hnew. destruct Hnew as [Hrb Hnew].
  rewrite (IH Hu Hnew), andb_true_r.
  rewrite existsb_app. cbn [existsb].
  apply negb_true_iff in Hb. rewrite Hb.
  rewrite same_budget_key_sym, Hrb. reflexivity.
Qed.


(* ----------------------------------------------------------------- *)
(** ** The submit handlers *)








(** C7, the failing case.  User "u" has a budget on food for January
    2024 and submits the budget form for food and January 2024 again.
    The store holds one budget for the triple and refuses a second row
    of it, for the uniqueness constraint when the row names its owner;
    the request of the form, whose payload names no owner, is refused
    by the row policy, before the constraint is reached.  The handler
    does not read the answer: the form closes, is reset and shows no
    message, neither a specific nor a generic one. *)
Theorem duplicate_budget_rejected_without_message :
  Store.budgets_unique (Store.budgets Sample.db) = true
  /\ Store.insert_budget (Some "u"%string)
        (mkBudget "b9" "u" "A" 20000 (mkDate 2024 1 1)) Sample.db
      = inl Store.UniqueViolation
  /\ fst (Forms.BudgetManager.insert (Forms.ui Sample.budget_again)
                                     Sample.budget_again)
     = Some Store.RowSecurityViolation
  /\ Forms.store (snd (Forms.BudgetManager.handleSubmit Sample.budget_again))
     = Sample.db
  /\ Forms.BudgetManager.shownError
       (snd (Forms.BudgetManager.handleSubmit Sample.budget_again)) = None
  /\ Forms.BudgetManager.formOpen
       (snd (Forms.BudgetManager.handleSubmit Sample.budget_again)) = false
  /\ Forms.ui (snd (Forms.BudgetManager.handleSubmit Sample.budget_again))
     = Forms.BudgetManager.mkState false "" None (2024, 1) false.
Proof.
  split; [vm_compute; reflexivity|].
  split; [vm_compute; reflexivity|].
  split; [vm_compute; reflexivity|].
  split; [vm_compute; reflexivity|].
  split; [vm_compute; reflexivity|].
  split; vm_compute; reflexivity.
Qed.

(** C8, the failing cases.  User "u", signed in, submits the category
    form, and the budget form for a budget that exists: the store
    rejects the insert and is unchanged, one request is sent, and the
    form is closed and reset as after a success, with [onUpdate]
    called.  The transaction form, submitted by the same user and
    rejected in the same way, stays open with its fields, has its
    button enabled again and shows the message of the store. *)
Theorem rejected_category_and_budget_forms_close :
  fst (Forms.CategoryManager.insert (Forms.ui Sample.category_rent)
                                    Sample.category_rent)
    = Some Store.RowSecurityViolation
  /\ snd (Forms.CategoryManager.handleSubmit Sample.category_rent)
     = Forms.mkWorld Sample.db (Some "u"%string) "c9" Sample.now
         (Forms.CategoryManager.mkState false "" Expense "#ef4444"
                                        "DollarSign" false)
         [Forms.OnUpdate] 1%nat
  /\ Forms.CategoryManager.formOpen
       (snd (Forms.CategoryManager.handleSubmit Sample.category_rent))
     = false
  /\ fst (Forms.BudgetManager.insert (Forms.ui Sample.budget_again)
                                     Sample.budget_again)
     = Some Store.RowSecurityViolation
  /\ snd (Forms.BudgetManager.handleSubmit Sample.budget_again)
     = Forms.mkWorld Sample.db (Some "u"%string) "b9" Sample.now
         (Forms.BudgetManager.mkState false "" None (2024, 1) false)
         [Forms.OnUpdate] 1%nat
  /\ fst (Forms.TransactionForm.insert (Forms.ui Sample.transaction_lunch)
                                       Sample.transaction_lunch)
     = Some Store.RowSecurityViolation
  /\ snd (Forms.TransactionForm.handleSubmit Sample.transaction_lunch)
     = Forms.mkWorld Sample.db (Some "u"%string) "t9" Sample.now
         (Forms.TransactionForm.mkState Expense (Some 1250) "lunch" "A"
            (mkDate 2024 1 10) false
            "new row violates row-level security policy")
         [] 1%nat
  /\ Forms.TransactionForm.formOpen
       (snd (Forms.TransactionForm.handleSubmit Sample.transaction_lunch))
     = true
  /\ Forms.TransactionForm.submitEnabled
       (snd (Forms.TransactionForm.handleSubmit Sample.transaction_lunch))
     = true.
Proof.
  split; [vm_compute; reflexivity|].
  split; [vm_compute; reflexivity|].
  split; [vm_compute; reflexivity|].
  split; [vm_compute; reflexivity|].
  split; [vm_compute; reflexivity|].
  split; [vm_compute; reflexivity|].
  split; [vm_compute; reflexivity|].
  split; vm_compute; reflexivity.
Qed.

(* ================================================================= *)
(** * Further properties of the components *)

(** ** Cutting a sorted list *)

Lemma In_skipn {A : Type} (n : nat) (l : list A) (x : A) :
  In x (skipn n l) -> In x l.
Proof.
  revert l. induction n as [|n IH]; intros [|y l]; simpl; try tauto.
  intro H. right. apply IH, H.
Qed.

(** In a list sorted by [R], whatever is kept by [firstn] stands in
    relation [R] to whatever is cut off. *)
Lemma kept_before_cut {A : Type} (R : A -> A -> Prop) (n : nat)
      (l : list A) (a b : A) :
  StronglySorted R l ->
  In a (firstn n l) -> In b (skipn n l) -> R a b.
Proof.
  revert l. induction n as [|n IH]; intros l Hs Ha Hb.
  - destruct Ha.
  - destruct l as [|x l]; [destruct Ha|].
    inversion Hs as [|? ? Hs' Hall]; subst.
    cbn [firstn skipn] in Ha, Hb.
    destruct Ha as [<- | Ha].
    + rewrite Forall_forall in Hall. apply Hall.
      apply (In_skipn n l b Hb).
    + apply (IH l Hs' Ha Hb).
Qed.

(* ----------------------------------------------------------------- *)
(** ** Stats: what the card of top expenses keeps and shows *)

(** X9. The card keeps the largest totals: the categories with a positive
    total are the ones listed together with the ones cut off, no total
    cut off exceeds a listed one, and nothing is cut off when at most
    five categories have a positive total. *)
Theorem top_expenses_are_the_largest
        (tza now : Z) (transactions : list Transaction)
        (categories : list Category) :
  exists rest : list Stats.Item,
    Permutation
      (Stats.expensesByCategory tza now transactions categories ++ rest)
      (filter (fun item => 0 <? Stats.total item)
              (Stats.categoryTotals tza now transactions categories))
    /\ (forall a b,
          In a (Stats.expensesByCategory tza now transactions categories) ->
          In b rest -> Stats.total b <= Stats.total a)
    /\ ((List.length
           (filter (fun item => (0 <? Stats.total item)%Z)
                   (Stats.categoryTotals tza now transactions categories))
         <= 5)%nat -> rest = []).
Proof.
  unfold Stats.expensesByCategory.
  set (positive := filter (fun item => 0 <? Stats.total item)
                          (Stats.categoryTotals tza now transactions
                                                categories)).
  set (sorted := js_sort (fun a b => Stats.total b - Stats.total a) positive).
  exists (skipn 5 sorted). split; [|split].
  - rewrite firstn_skipn. apply Permutation_sym, js_sort_perm.
  - intros a b Ha Hb.
    apply (kept_before_cut (not_below Stats.total) 5 sorted a b);
      [apply (js_sort_descending Stats.total) | exact Ha | exact Hb].
  - intro Hlen. apply skipn_all2.
    unfold sorted.
    rewrite <- (Permutation_length (js_sort_perm _ positive)).
    exact Hlen.
Qed.

Lemma percent_between (a b : Z) :
  0 <= a <= b -> 0 < b ->
  (0 <= inject_Z a / inject_Z b * 100
   /\ inject_Z a / inject_Z b * 100 <= 100)%Q.
Proof.
  intros Ha Hb. destruct b as [|p|p]; try lia.
  unfold Qle, Qdiv, Qmult, Qinv, inject_Z. cbn. split; nia.
Qed.

Lemma percent_positive (a b : Z) :
  0 < a -> 0 < b -> (0 < inject_Z a / inject_Z b * 100)%Q.
Proof.
  intros Ha Hb. destruct b as [|p|p]; try lia.
  unfold Qlt, Qdiv, Qmult, Qinv, inject_Z. cbn. nia.
Qed.

Lemma percent_above_100 (a b : Z) :
  0 < b -> (100 < inject_Z a / inject_Z b * 100)%Q <-> b < a.
Proof.
  intros Hb. destruct b as [|p|p]; try lia.
  unfold Qlt, Qdiv, Qmult, Qinv, inject_Z. cbn. split; nia.
Qed.

(** X10. With positive amounts, every percentage the card shows is a number
    above 0 and at most 100. *)
Theorem top_percentages_within_100
        (tza now : Z) (transactions : list Transaction)
        (categories : list Category) (rows : list (Category * Z * option Q)) :
  (forall t, In t transactions -> 0 < t_amount t) ->
  Stats.topExpensesCard tza now transactions categories = Stats.Bars rows ->
  Forall (fun row => exists q : Q,
                       snd row = Some q /\ (0 < q)%Q /\ (q <= 100)%Q) rows.
Proof.
  intros Hpos Hcard.
  assert (Hrows :
    Forall (fun row : Category * Z * option Q =>
              exists q : Q, snd row = Some q /\ (0 < q)%Q /\ (q <= 100)%Q)
           (map (fun item =>
                   (Stats.category item, Stats.total item,
                    Stats.percentage tza now transactions
                                     (Stats.total item)))
                (Stats.expensesByCategory tza now transactions
                                          categories))).
  { apply Forall_forall. intros row Hrow.
    apply in_map_iff in Hrow. destruct Hrow as [item [<- Hin]].
    cbn [snd].
    destruct (top_item_within_month tza now transactions categories item
                                    Hpos Hin) as [H0 Hle].
    unfold Stats.percentage, js_div.
    destruct (Stats.totalMonthExpenses tza now transactions =? 0) eqn:Hz;
      [apply Z.eqb_eq in Hz; lia|].
    cbn [times100 option_map]. eexists. split; [reflexivity|]. split.
    - apply percent_positive; lia.
    - apply percent_between; lia. }
  unfold Stats.topExpensesCard in Hcard.
  destruct (Stats.expensesByCategory tza now transactions categories)
    as [|i0 items]; [discriminate|].
  injection Hcard as <-. exact Hrows.
Qed.

Lemma top_percentages_within_100_witness :
  (forall t, In t Sample.january -> 0 < t_amount t)
  /\ Forall (fun row : Category * Z * option Q =>
               exists q : Q, snd row = Some q /\ (0 < q)%Q /\ (q <= 100)%Q)
            [(Sample.food, 8000,
              Some (inject_Z 8000 / inject_Z 8000 * 100)%Q)].
Proof.
  assert (Hpos : forall t, In t Sample.january -> 0 < t_amount t).
  { intros t [<- | [<- | [<- | []]]]; simpl; lia. }
  split; [exact Hpos|].
  apply (top_percentages_within_100
           Sample.utc Sample.now Sample.january
           [Sample.food; Sample.salary] _ Hpos).
  vm_compute. reflexivity.
Defined.

(* ----------------------------------------------------------------- *)
(** ** Stats: the bars of the seven days *)

Lemma fold_max_bounds (l : list Z) (floor : Z) :
  floor <= fold_right Z.max floor l
  /\ forall x, In x l -> x <= fold_right Z.max floor l.
Proof.
  induction l as [|y l [IH1 IH2]]; cbn [fold_right].
  - split; [lia | intros x []].
  - split; [lia|]. intros x [<- | Hx]; [lia|].
    specialize (IH2 x Hx). lia.
Qed.

(** X11. With amounts that are not negative, the scale of the bars is at
    least the amount 100 (10000 hundredths) and at least every daily
    total, so every bar width is a number from 0 to 100: no division by
    zero, no bar wider than its track. *)
Theorem day_bars_within_track
        (tza now : Z) (transactions : list Transaction) :
  (forall t, In t transactions -> 0 <= t_amount t) ->
  10000 <= Stats.maxAmount tza now transactions
  /\ Forall (fun day =>
               0 <= Stats.expenses day <= Stats.maxAmount tza now transactions
               /\ 0 <= Stats.income day
                  <= Stats.maxAmount tza now transactions)
            (Stats.dailyData tza now transactions)
  /\ Forall (fun w : option Q * option Q =>
               exists e i : Q,
                 w = (Some e, Some i)
                 /\ (0 <= e)%Q /\ (e <= 100)%Q
                 /\ (0 <= i)%Q /\ (i <= 100)%Q)
            (DayBars.widths tza now transactions).
Proof.
  intro Hnn.
  pose proof (fold_max_bounds
                (map (fun d => Z.max (Stats.expenses d) (Stats.income d))
                     (Stats.dailyData tza now transactions)) 10000)
    as [Hfloor Hmax].
  fold (Stats.maxAmount tza now transactions) in Hfloor, Hmax.
  assert (Hdays :
    Forall (fun day =>
              0 <= Stats.expenses day <= Stats.maxAmount tza now transactions
              /\ 0 <= Stats.income day
                 <= Stats.maxAmount tza now transactions)
           (Stats.dailyData tza now transactions)).
  { apply Forall_forall. intros day Hday.
    assert (Hle : Z.max (Stats.expenses day) (Stats.income day)
                  <= Stats.maxAmount tza now transactions).
    { apply Hmax. apply in_map_iff. exists day. split; [reflexivity|exact Hday]. }
    assert (Hge : 0 <= Stats.expenses day /\ 0 <= Stats.income day).
    { unfold Stats.dailyData, Stats.dailyDataFrom in Hday.
      apply in_map_iff in Hday. destruct Hday as [i [<- _]].
      unfold Stats.dayEntry. cbv zeta. cbn [Stats.expenses Stats.income].
      split; apply sumAmounts_filter_nonneg; intros t Ht;
        apply filter_In in Ht; destruct Ht as [Ht _];
        unfold Stats.last30Days in Ht; apply filter_In in Ht;
        apply Hnn, Ht. }
    lia. }
  split; [exact Hfloor|]. split; [exact Hdays|].
  unfold DayBars.widths. apply Forall_forall. intros w Hw.
  apply in_map_iff in Hw. destruct Hw as [day [<- Hday]].
  rewrite Forall_forall in Hdays. destruct (Hdays day Hday) as [He Hi].
  unfold js_div.
  destruct (Stats.maxAmount tza now transactions =? 0) eqn:Hz;
    [apply Z.eqb_eq in Hz; lia|].
  cbn [times100 option_map].
  eexists. eexists. split; [reflexivity|].
  destruct (percent_between (Stats.expenses day)
              (Stats.maxAmount tza now transactions) He ltac:(lia)).
  destruct (percent_between (Stats.income day)
              (Stats.maxAmount tza now transactions) Hi ltac:(lia)).
  tauto.
Qed.

Lemma day_bars_within_track_witness :
  (forall t, In t Sample.today -> 0 <= t_amount t)
  /\ 10000 <= Stats.maxAmount Sample.utc Sample.now Sample.today.
Proof.
  assert (Hnn : forall t, In t Sample.today -> 0 <= t_amount t).
  { intros t [<- | []]; simpl; lia. }
  split; [exact Hnn|].
  apply (day_bars_within_track Sample.utc Sample.now Sample.today Hnn).
Defined.

(** On a day with 50.00 spent and nothing else in the week the scale is
    the floor, 100.00, and the bar of the day is half of its track. *)
Example day_bar_of_50_is_half :
  Stats.maxAmount Sample.utc Sample.now Sample.today = 10000
  /\ map (fun w : option Q * option Q =>
            match fst w with
            | Some e => Qeq_bool e 50
            | None => false
            end)
         (DayBars.widths Sample.utc Sample.now Sample.today)
     = [false; false; false; false; false; false; true].
Proof. split; vm_compute; reflexivity. Qed.

(* ----------------------------------------------------------------- *)
(** ** BudgetManager: the bar and the flag of a card *)

(** X12. For a budget with a positive amount and transactions with amounts
    that are not negative: the bar is never wider than 100; it shows
    the percentage itself while the budget is not exceeded and is full
    when it is; and the card is flagged over budget exactly when the
    percentage is above 100. *)
Theorem budget_bar_and_flag_agree
        (tza : Z) (transactions : list Transaction) (budget : Budget) :
  0 < b_amount budget ->
  (forall t, In t transactions -> 0 <= t_amount t) ->
  exists p w : Q,
    BudgetCards.percentage (BudgetCards.card tza transactions budget)
      = Some p
    /\ BudgetCards.barWidth (BudgetCards.card tza transactions budget)
       = Some w
    /\ (0 <= w)%Q /\ (w <= 100)%Q
    /\ (BudgetCards.isOverBudget (BudgetCards.card tza transactions budget)
          = true <-> (100 < p)%Q)
    /\ (BudgetCards.isOverBudget (BudgetCards.card tza transactions budget)
          = false -> (w == p)%Q)
    /\ (BudgetCards.isOverBudget (BudgetCards.card tza transactions budget)
          = true -> (w == 100)%Q).
Proof.
  intros Hpos Hnn.
  destruct (card_of_spent tza transactions budget Hpos)
    as [Hs [Hp [Hw [Hover _]]]].
  set (c := BudgetCards.card tza transactions budget) in *.
  assert (H0 : 0 <= BudgetCards.spent c).
  { rewrite Hs. unfold BudgetCards.getSpentAmount.
    apply sumAmounts_filter_nonneg, Hnn. }
  set (p := (inject_Z (BudgetCards.spent c) / inject_Z (b_amount budget)
             * 100)%Q) in *.
  exists p, (Qmin p 100). split; [exact Hp|]. split; [exact Hw|].
  assert (Hflag : BudgetCards.isOverBudget c = true <-> (100 < p)%Q).
  { rewrite Hover. symmetry. apply percent_above_100, Hpos. }
  assert (Hp0 : (0 <= p)%Q).
  { destruct (Z.le_gt_cases (BudgetCards.spent c) (b_amount budget)) as [Hle | Hgt].
    - apply (percent_between _ _ (conj H0 Hle) Hpos).
    - apply Qlt_le_weak, percent_positive; lia. }
  split; [apply Q.min_glb; [exact Hp0 | discriminate]|].
  split; [apply Q.le_min_r|]. split; [exact Hflag|]. split.
  - intro Hf. apply Q.min_l. apply Qnot_lt_le. intro Hlt.
    apply Hflag in Hlt. congruence.
  - intro Ht. apply Q.min_r. apply Qlt_le_weak, Hflag, Ht.
Qed.

Lemma budget_bar_and_flag_agree_witness :
  0 < b_amount Sample.budget_food_50
  /\ (forall t, In t Sample.january -> 0 <= t_amount t)
  /\ exists p w : Q,
       BudgetCards.percentage
         (BudgetCards.card Sample.utc Sample.january Sample.budget_food_50)
       = Some p
       /\ BudgetCards.barWidth
            (BudgetCards.card Sample.utc Sample.january Sample.budget_food_50)
          = Some w
       /\ (0 <= w)%Q /\ (w <= 100)%Q.
Proof.
  assert (Hpos : 0 < b_amount Sample.budget_food_50) by (simpl; lia).
  assert (Hnn : forall t, In t Sample.january -> 0 <= t_amount t).
  { intros t [<- | [<- | [<- | []]]]; simpl; lia. }
  split; [exact Hpos|]. split; [exact Hnn|].
  destruct (budget_bar_and_flag_agree Sample.utc Sample.january
              Sample.budget_food_50 Hpos Hnn)
    as [p [w [H1 [H2 [H3 [H4 _]]]]]].
  exists p, w. tauto.
Defined.

(* ----------------------------------------------------------------- *)
(** ** The time zone cases, on the sample data *)

Lemma sample_dates_exist :
  forall t, In t Sample.january -> valid_date (t_date t).
Proof.
  intros t [<- | [<- | [<- | []]]]; unfold valid_date; cbn; lia.
Qed.

Lemma card_utc_spent_witness :
  1 <= mo (b_month Sample.budget_food_50) <= 12
  /\ dy (b_month Sample.budget_food_50) = 1
  /\ ~ (0 <= yr (b_month Sample.budget_food_50) <= 99)
  /\ (forall t, In t Sample.january -> valid_date (t_date t))
  /\ BudgetCards.spent
       (BudgetCards.card 0 Sample.january Sample.budget_food_50)
     = spent_in_month Sample.budget_food_50 Sample.january.
Proof.
  assert (Hm : 1 <= mo (b_month Sample.budget_food_50) <= 12)
    by (cbn; lia).
  assert (Hd : dy (b_month Sample.budget_food_50) = 1) by reflexivity.
  assert (Hy : ~ (0 <= yr (b_month Sample.budget_food_50) <= 99))
    by (cbn; lia).
  split; [exact Hm|]. split; [exact Hd|]. split; [exact Hy|].
  split; [exact sample_dates_exist|].
  apply (card_utc_spent Sample.january Sample.budget_food_50 Hm Hd Hy
                        sample_dates_exist).
Defined.

Lemma getSpentAmount_east_of_utc_witness :
  1 <= mo (mkDate 2024 1 1) <= 12
  /\ dy (mkDate 2024 1 1) = 1
  /\ 0 < Sample.kolkata < msPerDay
  /\ ~ (0 <= yr (mkDate 2024 1 1) <= 99)
  /\ (forall t, In t Sample.january -> valid_date (t_date t))
  /\ BudgetCards.getSpentAmount Sample.kolkata Sample.january "A"
                                (mkDate 2024 1 1)
     = total_of
         (filter (fun t => String.eqb (t_category_id t) "A"
                           && kind_eqb (t_type t) Expense
                           && (same_month (t_date t) (mkDate 2024 1 1)
                               && (dy (t_date t) <? DaysInMonth 2024 1)))
                 Sample.january).
Proof.
  assert (Hm : 1 <= mo (mkDate 2024 1 1) <= 12) by (cbn; lia).
  assert (Hd : dy (mkDate 2024 1 1) = 1) by reflexivity.
  assert (Hz : 0 < Sample.kolkata < msPerDay)
    by (unfold Sample.kolkata, msPerDay; lia).
  assert (Hy : ~ (0 <= yr (mkDate 2024 1 1) <= 99)) by (cbn; lia).
  split; [exact Hm|]. split; [exact Hd|]. split; [exact Hz|].
  split; [exact Hy|].
  split; [exact sample_dates_exist|].
  apply (getSpentAmount_east_of_utc Sample.january "A" (mkDate 2024 1 1)
                                    Hm Hd Sample.kolkata Hz Hy
                                    sample_dates_exist).
Defined.

Lemma getSpentAmount_west_of_utc_witness :
  1 <= mo (mkDate 2024 1 1) <= 12
  /\ dy (mkDate 2024 1 1) = 1
  /\ - msPerDay < Sample.new_york < 0
  /\ ~ (0 <= yr (mkDate 2024 1 1) <= 100)
  /\ BudgetCards.getSpentAmount Sample.new_york Sample.january "A"
                                (mkDate 2024 1 1) = 0.
Proof.
  assert (Hm : 1 <= mo (mkDate 2024 1 1) <= 12) by (cbn; lia).
  assert (Hd : dy (mkDate 2024 1 1) = 1) by reflexivity.
  assert (Hz : - msPerDay < Sample.new_york < 0)
    by (unfold Sample.new_york, msPerDay; lia).
  assert (Hy : ~ (0 <= yr (mkDate 2024 1 1) <= 100)) by (cbn; lia).
  split; [exact Hm|]. split; [exact Hd|]. split; [exact Hz|].
  split; [exact Hy|].
  apply (getSpentAmount_west_of_utc Sample.january "A" (mkDate 2024 1 1)
                                    Hm Hd Sample.new_york Hz Hy).
Defined.

Lemma dailyData_east_of_utc_witness :
  0 <= Sample.kolkata < msPerDay
  /\ 0 <= 6
  /\ Stats.expenses
       (Stats.dayEntry Sample.kolkata Sample.now
          (Stats.last30Days Sample.kolkata Sample.now Sample.today) 6)
     = total_on_day
         (localDay Sample.kolkata (Sample.now - (6 - 6) * msPerDay))
         Expense Sample.today.
Proof.
  assert (Hz : 0 <= Sample.kolkata < msPerDay)
    by (unfold Sample.kolkata, msPerDay; lia).
  assert (Hi : 0 <= 6) by lia.
  split; [exact Hz|]. split; [exact Hi|].
  apply (dailyData_east_of_utc Sample.kolkata Sample.now Sample.today 6
                               Hz Hi).
Defined.

Lemma dailyData_west_of_utc_witness :
  - msPerDay <= Sample.new_york < 0
  /\ 0 <= 5
  /\ Stats.expenses
       (Stats.dayEntry Sample.new_york Sample.now
          (Stats.last30Days Sample.new_york Sample.now Sample.today) 5)
     = total_on_day
         (localDay Sample.new_york (Sample.now - (6 - 5) * msPerDay) + 1)
         Expense Sample.today.
Proof.
  assert (Hz : - msPerDay <= Sample.new_york < 0)
    by (unfold Sample.new_york, msPerDay; lia).
  assert (Hi : 0 <= 5) by lia.
  split; [exact Hz|]. split; [exact Hi|].
  apply (dailyData_west_of_utc Sample.new_york Sample.now Sample.today 5
                               Hz Hi).
Defined.

Lemma monthTransactions_utc_witness :
  (forall t, In t Sample.january -> valid_date (t_date t))
  /\ Stats.monthTransactions 0 Sample.now Sample.january
     = filter (fun t => same_month (t_date t)
                          (firstOfMonth (toISOMonth Sample.now)))
              Sample.january.
Proof.
  split; [exact sample_dates_exist|].
  apply (monthTransactions_utc Sample.now Sample.january
                               sample_dates_exist).
Defined.

Lemma topExpensesCard_west_of_utc_witness :
  - msPerDay < Sample.new_york < 0
  /\ Stats.topExpensesCard Sample.new_york Sample.now Sample.january
                           [Sample.food; Sample.salary]
     = Stats.NoExpensesThisMonth.
Proof.
  assert (Hz : - msPerDay < Sample.new_york < 0)
    by (unfold Sample.new_york, msPerDay; lia).
  split; [exact Hz|].
  apply (topExpensesCard_west_of_utc Sample.new_york Sample.now
           Sample.january [Sample.food; Sample.salary] Hz).
Defined.

(* ----------------------------------------------------------------- *)
(** ** Row-level security: reading back what was written *)

Section ReadBack.
Context {Row : Type}.
Variable owner : Row -> string.
Variable P : Store.Policies Row.
Hypothesis select_is_owner :
  forall uid r, Store.select_using P uid r = String.eqb uid (owner r).
Hypothesis insert_is_owner :
  forall uid r, Store.insert_check P uid r = String.eqb uid (owner r).

Lemma select_app (caller : Store.Caller) (tbl more : list Row) :
  Store.rls_select P caller (tbl ++ more)
  = Store.rls_select P caller tbl ++ Store.rls_select P caller more.
Proof. unfold Store.rls_select. apply filter_app. Qed.

Lemma select_single (caller : Store.Caller) (r : Row) :
  Store.rls_select P caller [r]
  = if owned_by owner caller r then [r] else [].
Proof.
  unfold Store.rls_select. cbn [filter].
  rewrite (allowed_owned owner _ caller r select_is_owner). reflexivity.
Qed.

Lemma insert_then_select (caller other : Store.Caller) (r : Row)
      (tbl tbl' : list Row) :
  Store.rls_insert P caller r tbl = Some tbl' ->
  Store.rls_select P caller tbl' = Store.rls_select P caller tbl ++ [r]
  /\ (other <> caller ->
      Store.rls_select P other tbl' = Store.rls_select P other tbl).
Proof.
  unfold Store.rls_insert.
  destruct (Store.allowed (Store.insert_check P) caller r) eqn:Hok;
    [|discriminate].
  intro H. injection H as <-.
  rewrite (allowed_owned owner _ caller r insert_is_owner) in Hok.
  rewrite !select_app, !select_single, Hok.
  split; [reflexivity|].
  intro Hother.
  destruct (owned_by owner other r) eqn:Ho; [|apply app_nil_r].
  exfalso. apply Hother.
  apply (owned_by_iff owner) in Ho. apply (owned_by_iff owner) in Hok.
  congruence.
Qed.
End ReadBack.

(** X16. On each of the three tables, a row whose insert is accepted
    is read back by the caller who inserted it, after the rows the
    caller could read before, and what any other caller reads is
    unchanged. *)
Theorem inserted_row_read_back_by_owner_only :
  (forall caller other r tbl tbl',
      Store.rls_insert Store.categories_policies caller r tbl = Some tbl' ->
      Store.rls_select Store.categories_policies caller tbl'
      = Store.rls_select Store.categories_policies caller tbl ++ [r]
      /\ (other <> caller ->
          Store.rls_select Store.categories_policies other tbl'
          = Store.rls_select Store.categories_policies other tbl))
  /\ (forall caller other r tbl tbl',
      Store.rls_insert Store.transactions_policies caller r tbl = Some tbl' ->
      Store.rls_select Store.transactions_policies caller tbl'
      = Store.rls_select Store.transactions_policies caller tbl ++ [r]
      /\ (other <> caller ->
          Store.rls_select Store.transactions_policies other tbl'
          = Store.rls_select Store.transactions_policies other tbl))
  /\ (forall caller other r tbl tbl',
      Store.rls_insert Store.budgets_policies caller r tbl = Some tbl' ->
      Store.rls_select Store.budgets_policies caller tbl'
      = Store.rls_select Store.budgets_policies caller tbl ++ [r]
      /\ (other <> caller ->
          Store.rls_select Store.budgets_policies other tbl'
          = Store.rls_select Store.budgets_policies other tbl)).
Proof.
  split; [|split]; intros caller other r tbl tbl'.
  - apply (insert_then_select c_user_id); reflexivity.
  - apply (insert_then_select t_user_id); reflexivity.
  - apply (insert_then_select b_user_id); reflexivity.
Qed.

(* ----------------------------------------------------------------- *)
(** ** A second budget for the same category and month *)



(* ----------------------------------------------------------------- *)
(** ** Deleting *)

Lemma filter_keeps_all {A : Type} (keep : A -> bool) (l : list A) :
  (forall x, In x l -> keep x = true) -> filter keep l = l.
Proof.
  induction l as [|x l IH]; intro H; [reflexivity|].
  cbn [filter]. rewrite (H x (or_introl eq_refl)).
  f_equal. apply IH. intros y Hy. apply H. right. exact Hy.
Qed.

Lemma category_deleted_iff (caller : Store.Caller) (id : string)
      (c : Category) :
  Deleting.category_deleted caller id c = true
  <-> caller = Some (c_user_id c) /\ c_id c = id.
Proof.
  unfold Deleting.category_deleted, Store.delete_reaches.
  rewrite !(allowed_owned c_user_id _ caller c) by reflexivity.
  rewrite !andb_true_iff, (owned_by_iff c_user_id), String.eqb_eq. tauto.
Qed.

Lemma transaction_deleted_iff (caller : Store.Caller) (id : string)
      (t : Transaction) :
  Store.delete_reaches Store.transactions_policies caller
                       (fun t => String.eqb (t_id t) id) t = true
  <-> caller = Some (t_user_id t) /\ t_id t = id.
Proof.
  unfold Store.delete_reaches.
  rewrite !(allowed_owned t_user_id _ caller t) by reflexivity.
  rewrite !andb_true_iff, (owned_by_iff t_user_id), String.eqb_eq. tauto.
Qed.

Lemma budget_deleted_iff (caller : Store.Caller) (id : string)
      (b : Budget) :
  Store.delete_reaches Store.budgets_policies caller
                       (fun b => String.eqb (b_id b) id) b = true
  <-> caller = Some (b_user_id b) /\ b_id b = id.
Proof.
  unfold Store.delete_reaches.
  rewrite !(allowed_owned b_user_id _ caller b) by reflexivity.
  rewrite !andb_true_iff, (owned_by_iff b_user_id), String.eqb_eq. tauto.
Qed.

(** Which categories a delete removes, and which references then
    dangle. *)
Lemma dangling_iff (caller : Store.Caller) (id cid : string)
      (db : Store.Database) :
  existsb (fun c => String.eqb (c_id c) cid)
          (filter (Deleting.category_deleted caller id)
                  (Store.categories db)) = true
  <-> cid = id
      /\ exists c, In c (Store.categories db)
                   /\ caller = Some (c_user_id c) /\ c_id c = id.
Proof.
  rewrite existsb_exists. split.
  - intros [c [Hc Heq]]. apply filter_In in Hc. destruct Hc as [Hin Hdel].
    apply category_deleted_iff in Hdel. apply String.eqb_eq in Heq.
    destruct Hdel as [Ho Hid].
    split; [congruence|]. exists c. tauto.
  - intros [-> [c [Hin [Ho Hid]]]]. exists c. split.
    + apply filter_In. split; [exact Hin|].
      apply category_deleted_iff. tauto.
    + apply String.eqb_eq, Hid.
Qed.

(** X17. Deleting from the transaction list.  Answering no to the
    confirmation changes nothing and sends nothing.  Answering yes
    sends one delete and calls [onUpdate] once; the store then holds the
    transactions it held except the caller's own with that identifier,
    and its categories and budgets are untouched.  The identifier of
    somebody else's transaction removes nothing. *)
Theorem transaction_delete_asks_first
        (id : string) (w : Forms.World unit) :
  snd (Deleting.transactionHandleDelete false id w) = w
  /\ (forall t,
        In t (Store.transactions
                (Forms.store (snd (Deleting.transactionHandleDelete
                                     true id w))))
        <-> In t (Store.transactions (Forms.store w))
            /\ ~ (Forms.session w = Some (t_user_id t) /\ t_id t = id))
  /\ Store.categories
       (Forms.store (snd (Deleting.transactionHandleDelete true id w)))
     = Store.categories (Forms.store w)
  /\ Store.budgets
       (Forms.store (snd (Deleting.transactionHandleDelete true id w)))
     = Store.budgets (Forms.store w)
  /\ Forms.requests (snd (Deleting.transactionHandleDelete true id w))
     = S (Forms.requests w)
  /\ Forms.called (snd (Deleting.transactionHandleDelete true id w))
     = Forms.called w ++ [Forms.OnUpdate].
Proof.
  unfold Deleting.transactionHandleDelete, Deleting.handleDelete,
         Forms.bind, Forms.request, Forms.call, Forms.ret.
  cbn [fst snd Forms.store Forms.session Forms.fresh_id Forms.clock
       Forms.ui Forms.called Forms.requests].
  split; [reflexivity|].
  split; [|repeat split; reflexivity].
  intro t. unfold Deleting.delete_transaction, Store.rls_delete.
  cbn [Store.transactions].
  rewrite filter_In, negb_true_iff.
  rewrite <- (transaction_deleted_iff (Forms.session w) id t).
  destruct (Store.delete_reaches Store.transactions_policies
              (Forms.session w) (fun t0 => String.eqb (t_id t0) id) t);
    intuition congruence.
Qed.

(** X18. Deleting a category.  When the caller owns a category with the
    identifier, the delete removes it and, with it, every transaction
    and every budget that references the identifier, whoever owns them;
    all other rows stay.  When the caller owns no such category (the
    identifier is unknown or the category is somebody else's), the
    database is left exactly as it was. *)
Theorem category_delete_cascades
        (caller : Store.Caller) (id : string) (db : Store.Database) :
  ((exists c, In c (Store.categories db)
              /\ caller = Some (c_user_id c) /\ c_id c = id) ->
   (forall c, In c (Store.categories
                      (Deleting.delete_category caller id db))
              <-> In c (Store.categories db)
                  /\ ~ (caller = Some (c_user_id c) /\ c_id c = id))
   /\ Store.transactions (Deleting.delete_category caller id db)
      = filter (fun t => negb (String.eqb (t_category_id t) id))
               (Store.transactions db)
   /\ Store.budgets (Deleting.delete_category caller id db)
      = filter (fun b => negb (String.eqb (b_category_id b) id))
               (Store.budgets db))
  /\ ((forall c, In c (Store.categories db) ->
                 ~ (caller = Some (c_user_id c) /\ c_id c = id)) ->
      Deleting.delete_category caller id db = db).
Proof.
  split.
  - intro Hown. unfold Deleting.delete_category.
    cbn [Store.categories Store.transactions Store.budgets].
    split; [|split].
    + intro c. unfold Store.rls_delete.
      rewrite filter_In, negb_true_iff.
      fold (Deleting.category_deleted caller id c).
      rewrite <- (category_deleted_iff caller id c).
      destruct (Deleting.category_deleted caller id c);
        intuition congruence.
    + apply filter_ext. intro t. f_equal.
      apply eq_true_iff_eq.
      rewrite (dangling_iff caller id (t_category_id t) db), String.eqb_eq.
      tauto.
    + apply filter_ext. intro b. f_equal.
      apply eq_true_iff_eq.
      rewrite (dangling_iff caller id (b_category_id b) db), String.eqb_eq.
      tauto.
  - intro Hnone. unfold Deleting.delete_category.
    assert (Hgone : filter (Deleting.category_deleted caller id)
                           (Store.categories db) = []).
    { induction (Store.categories db) as [|c l IH]; [reflexivity|].
      cbn [filter].
      destruct (Deleting.category_deleted caller id c) eqn:E.
      - apply category_deleted_iff in E.
        exfalso. apply (Hnone c (or_introl eq_refl) E).
      - apply IH. intros c' Hc'. apply Hnone. right. exact Hc'. }
    rewrite Hgone. cbn [existsb negb].
    rewrite !filter_keeps_all by reflexivity.
    unfold Store.rls_delete.
    rewrite filter_keeps_all.
    + destruct db; reflexivity.
    + intros c Hc. apply negb_true_iff.
      fold (Deleting.category_deleted caller id c).
      destruct (Deleting.category_deleted caller id c) eqn:E;
        [|reflexivity].
      apply category_deleted_iff in E.
      exfalso. apply (Hnone c Hc E).
Qed.

(* ----------------------------------------------------------------- *)
(** ** What the constraints of the schema keep true *)

Lemma ids_stay_distinct {Row : Type} (id : Row -> string)
      (keep : Row -> bool) (tbl : list Row) :
  NoDup (map id tbl) -> NoDup (map id (filter keep tbl)).
Proof.
  induction tbl as [|r tbl IH]; intro Hnd; [constructor|].
  cbn [map] in Hnd. apply NoDup_cons_iff in Hnd.
  destruct Hnd as [Hfresh Hnd]. cbn [filter].
  destruct (keep r); [|exact (IH Hnd)].
  cbn [map]. apply NoDup_cons; [|exact (IH Hnd)].
  intro Hin. apply Hfresh.
  apply in_map_iff in Hin. destruct Hin as [r' [Hid Hr']].
  apply filter_In in Hr'. apply in_map_iff.
  exists r'. split; [exact Hid | exact (proj1 Hr')].
Qed.

Lemma fresh_id_stays_distinct {Row : Type} (id : Row -> string)
      (row : Row) (tbl : list Row) :
  NoDup (map id tbl) ->
  existsb (fun r => String.eqb (id r) (id row)) tbl = false ->
  NoDup (map id (tbl ++ [row])).
Proof.
  intros Hnd Hfresh. rewrite map_app. cbn [map].
  induction tbl as [|r tbl IH]; cbn [map app].
  - constructor; [intros [] | constructor].
  - cbn [map] in Hnd. apply NoDup_cons_iff in Hnd.
    destruct Hnd as [Hr Hnd].
    cbn [existsb] in Hfresh. apply orb_false_iff in Hfresh.
    destruct Hfresh as [Hne Hfresh].
    apply NoDup_cons; [|exact (IH Hnd Hfresh)].
    intro Hin. apply in_app_or in Hin. destruct Hin as [Hin | [Heq | []]].
    + exact (Hr Hin).
    + apply String.eqb_neq in Hne. congruence.
Qed.

Lemma budgets_unique_filter (keep : Budget -> bool) (l : list Budget) :
  Store.budgets_unique l = true ->
  Store.budgets_unique (filter keep l) = true.
Proof.
  induction l as [|b l IH]; intro Hu; [reflexivity|].
  cbn [Store.budgets_unique] in Hu.
  apply andb_true_iff in Hu. destruct Hu as [Hb Hu].
  cbn [filter]. destruct (keep b); [|exact (IH Hu)].
  cbn [Store.budgets_unique]. rewrite (IH Hu), andb_true_r.
  apply negb_true_iff in Hb. apply negb_true_iff.
  destruct (existsb (Store.same_budget_key b) (filter keep l)) eqn:E;
    [|reflexivity].
  apply existsb_exists in E. destruct E as [b' [Hin Hkey]].
  apply filter_In in Hin.
  assert (existsb (Store.same_budget_key b) l = true).
  { apply existsb_exists. exists b'. tauto. }
  congruence.
Qed.

Lemma category_exists_more (db db' : Store.Database) (cid : string) :
  (forall c, In c (Store.categories db) -> In c (Store.categories db')) ->
  Store.category_exists db cid = true ->
  Store.category_exists db' cid = true.
Proof.
  unfold Store.category_exists. intros Hsub H.
  apply existsb_exists in H. destruct H as [c [Hin Heq]].
  apply existsb_exists. exists c. split; [apply Hsub, Hin | exact Heq].
Qed.

(** An accepted insert adds the row at the end of its table, and the
    row passed the checks of its table. *)
Lemma exec_insert_category (caller : Store.Caller) (row : Category)
      (db db' : Store.Database) :
  Statements.exec caller (Statements.InsertCategory row) db = inr db' ->
  db' = Store.mkDatabase (Store.categories db ++ [row])
                         (Store.transactions db) (Store.budgets db)
  /\ existsb (fun r => String.eqb (c_id r) (c_id row))
             (Store.categories db) = false.
Proof.
  cbn [Statements.exec]. unfold Statements.primary_key,
    Store.insert_category, Store.rls_insert.
  destruct (Store.allowed _ caller row); cbv beta iota; [|discriminate].
  destruct (existsb _ (Store.categories db)) eqn:Hid; [discriminate|].
  intro H. injection H as <-. split; reflexivity.
Qed.

Lemma exec_insert_transaction (caller : Store.Caller) (row : Transaction)
      (db db' : Store.Database) :
  Statements.exec caller (Statements.InsertTransaction row) db = inr db' ->
  db' = Store.mkDatabase (Store.categories db)
                         (Store.transactions db ++ [row]) (Store.budgets db)
  /\ existsb (fun r => String.eqb (t_id r) (t_id row))
             (Store.transactions db) = false
  /\ 0 < t_amount row
  /\ Store.category_exists db (t_category_id row) = true.
Proof.
  cbn [Statements.exec]. unfold Statements.primary_key,
    Store.insert_transaction, Store.rls_insert.
  destruct (Store.allowed _ caller row); cbv beta iota; [|discriminate].
  destruct (0 <? t_amount row) eqn:Ha; cbn [negb]; cbv beta iota;
    [|discriminate].
  destruct (Store.category_exists db (t_category_id row)) eqn:Hc;
    cbn [negb]; cbv beta iota; [|discriminate].
  destruct (existsb _ (Store.transactions db)) eqn:Hid; [discriminate|].
  intro H. injection H as <-.
  apply Z.ltb_lt in Ha. repeat split; assumption.
Qed.

Lemma exec_insert_budget (caller : Store.Caller) (row : Budget)
      (db db' : Store.Database) :
  Statements.exec caller (Statements.InsertBudget row) db = inr db' ->
  db' = Store.mkDatabase (Store.categories db) (Store.transactions db)
                         (Store.budgets db ++ [row])
  /\ existsb (fun r => String.eqb (b_id r) (b_id row))
             (Store.budgets db) = false
  /\ 0 < b_amount row
  /\ Store.category_exists db (b_category_id row) = true
  /\ existsb (Store.same_budget_key row) (Store.budgets db) = false.
Proof.
  cbn [Statements.exec]. unfold Statements.primary_key,
    Store.insert_budget, Store.rls_insert.
  destruct (Store.allowed _ caller row); cbv beta iota; [|discriminate].
  destruct (0 <? b_amount row) eqn:Ha; cbn [negb]; cbv beta iota;
    [|discriminate].
  destruct (existsb (Store.same_budget_key row) (Store.budgets db))
    eqn:Hk; cbv beta iota; [discriminate|].
  destruct (Store.category_exists db (b_category_id row)) eqn:Hc;
    cbn [negb]; cbv beta iota; [|discriminate].
  destruct (existsb (fun r => String.eqb (b_id r) (b_id row))
                    (Store.budgets db)) eqn:Hid; [discriminate|].
  intro H. injection H as <-.
  apply Z.ltb_lt in Ha. repeat split; assumption.
Qed.

(** Every accepted statement leaves a consistent database consistent. *)
Lemma exec_keeps_consistent (caller : Store.Caller)
      (st : Statements.Statement) (db db' : Store.Database) :
  Statements.consistent db ->
  Statements.exec caller st db = inr db' ->
  Statements.consistent db'.
Proof.
  intros [Hc [Ht [Hb [Htx [Hbu Hu]]]]] Hexec.
  destruct st as [row | row | row | id | id | id].
  - destruct (exec_insert_category caller row db db' Hexec) as [-> Hid].
    unfold Statements.consistent.
    cbn [Store.categories Store.transactions Store.budgets].
    repeat split; try assumption.
    + apply fresh_id_stays_distinct; assumption.
    + eapply Forall_impl; [|exact Htx]. intros t [Ha He].
      split; [exact Ha|].
      eapply category_exists_more; [|exact He].
      intros c Hin. cbn [Store.categories]. apply in_or_app. left. exact Hin.
    + eapply Forall_impl; [|exact Hbu]. intros b [Ha He].
      split; [exact Ha|].
      eapply category_exists_more; [|exact He].
      intros c Hin. cbn [Store.categories]. apply in_or_app. left. exact Hin.
  - destruct (exec_insert_transaction caller row db db' Hexec)
      as [-> [Hid [Ha He]]].
    unfold Statements.consistent.
    cbn [Store.categories Store.transactions Store.budgets].
    repeat split; try assumption.
    + apply fresh_id_stays_distinct; assumption.
    + apply Forall_app. split.
      * eapply Forall_impl; [|exact Htx]. intros t [Ha' He'].
        split; [exact Ha' | exact He'].
      * constructor; [split; [exact Ha | exact He] | constructor].
  - destruct (exec_insert_budget caller row db db' Hexec)
      as [-> [Hid [Ha [He Hk]]]].
    unfold Statements.consistent.
    cbn [Store.categories Store.transactions Store.budgets].
    repeat split; try assumption.
    + apply fresh_id_stays_distinct; assumption.
    + apply Forall_app. split.
      * eapply Forall_impl; [|exact Hbu]. intros b [Ha' He'].
        split; [exact Ha' | exact He'].
      * constructor; [split; [exact Ha | exact He] | constructor].
    + apply budgets_unique_app; assumption.
  - cbn [Statements.exec] in Hexec. injection Hexec as <-.
    assert (Hstay : forall cid,
               Store.category_exists db cid = true ->
               existsb (fun c => String.eqb (c_id c) cid)
                       (filter (Deleting.category_deleted caller id)
                               (Store.categories db)) = false ->
               Store.category_exists
                 (Deleting.delete_category caller id db) cid = true).
    { intros cid He Hkeep.
      unfold Store.category_exists in *.
      apply existsb_exists in He. destruct He as [c [Hin Heq]].
      apply existsb_exists. exists c. split; [|exact Heq].
      unfold Deleting.delete_category. cbn [Store.categories].
      unfold Store.rls_delete. apply filter_In. split; [exact Hin|].
      apply negb_true_iff.
      fold (Deleting.category_deleted caller id c).
      destruct (Deleting.category_deleted caller id c) eqn:E;
        [|reflexivity].
      assert (existsb (fun c0 => String.eqb (c_id c0) cid)
                      (filter (Deleting.category_deleted caller id)
                              (Store.categories db)) = true).
      { apply existsb_exists. exists c. split; [|exact Heq].
        apply filter_In. tauto. }
      congruence. }
    unfold Statements.consistent.
    split; [apply ids_stay_distinct, Hc|].
    split; [apply ids_stay_distinct, Ht|].
    split; [apply ids_stay_distinct, Hb|].
    split; [|split].
    + apply Forall_forall. intros t Hin.
      unfold Deleting.delete_category in Hin. cbn [Store.transactions] in Hin.
      apply filter_In in Hin. destruct Hin as [Hin Hkeep].
      apply negb_true_iff in Hkeep.
      rewrite Forall_forall in Htx. destruct (Htx t Hin) as [Ha He].
      split; [exact Ha | apply Hstay; assumption].
    + apply Forall_forall. intros b Hin.
      unfold Deleting.delete_category in Hin. cbn [Store.budgets] in Hin.
      apply filter_In in Hin. destruct Hin as [Hin Hkeep].
      apply negb_true_iff in Hkeep.
      rewrite Forall_forall in Hbu. destruct (Hbu b Hin) as [Ha He].
      split; [exact Ha | apply Hstay; assumption].
    + apply budgets_unique_filter, Hu.
  - cbn [Statements.exec] in Hexec. injection Hexec as <-.
    unfold Statements.consistent, Deleting.delete_transaction.
    cbn [Store.categories Store.transactions Store.budgets].
    repeat split; try assumption.
    + apply ids_stay_distinct, Ht.
    + apply Forall_forall. intros t Hin.
      apply filter_In in Hin.
      rewrite Forall_forall in Htx. apply (Htx t (proj1 Hin)).
  - cbn [Statements.exec] in Hexec. injection Hexec as <-.
    unfold Statements.consistent, Deleting.delete_budget.
    cbn [Store.categories Store.transactions Store.budgets].
    repeat split; try assumption.
    + apply ids_stay_distinct, Hb.
    + apply Forall_forall. intros b Hin.
      apply filter_In in Hin.
      rewrite Forall_forall in Hbu. apply (Hbu b (proj1 Hin)).
    + apply budgets_unique_filter, Hu.
Qed.

Lemma reachable_consistent (db : Store.Database) :
  Statements.reachable db -> Statements.consistent db.
Proof.
  induction 1 as [|db db' caller st _ IH Hexec].
  - unfold Statements.consistent.
    cbn [Store.categories Store.transactions Store.budgets map].
    repeat split; constructor.
  - exact (exec_keeps_consistent caller st db db' IH Hexec).
Qed.

(** X19. Whatever sequence of accepted inserts and deletes leads to a
    database from the empty one, in it: identifiers are distinct within
    each table, every amount is positive, every transaction and budget
    references a category that exists, and no two budgets share owner,
    category and month. *)
Theorem reachable_databases_are_consistent (db : Store.Database) :
  Statements.reachable db ->
  NoDup (map c_id (Store.categories db))
  /\ NoDup (map t_id (Store.transactions db))
  /\ NoDup (map b_id (Store.budgets db))
  /\ (forall t, In t (Store.transactions db) ->
                0 < t_amount t
                /\ exists c, In c (Store.categories db)
                             /\ c_id c = t_category_id t)
  /\ (forall b, In b (Store.budgets db) ->
                0 < b_amount b
                /\ exists c, In c (Store.categories db)
                             /\ c_id c = b_category_id b)
  /\ Store.budgets_unique (Store.budgets db) = true.
Proof.
  intro Hr.
  destruct (reachable_consistent db Hr) as [Hc [Ht [Hb [Htx [Hbu Hu]]]]].
  rewrite Forall_forall in Htx, Hbu.
  assert (Hex : forall cid,
             Store.category_exists db cid = true ->
             exists c, In c (Store.categories db) /\ c_id c = cid).
  { intros cid He. unfold Store.category_exists in He.
    apply existsb_exists in He. destruct He as [c [Hin Heq]].
    exists c. split; [exact Hin | apply String.eqb_eq, Heq]. }
  split; [exact Hc|]. split; [exact Ht|]. split; [exact Hb|].
  split; [|split; [|exact Hu]].
  - intros t Hin. destruct (Htx t Hin) as [Ha He].
    split; [exact Ha | apply Hex, He].
  - intros b Hin. destruct (Hbu b Hin) as [Ha He].
    split; [exact Ha | apply Hex, He].
Qed.

Lemma reachable_databases_are_consistent_witness :
  Statements.reachable Sample.db
  /\ NoDup (map c_id (Store.categories Sample.db)).
Proof.
  assert (Hr : Statements.reachable Sample.db).
  { apply (Statements.reach_step
             (Store.mkDatabase [Sample.food] [] []) Sample.db
             (Some "u"%string)
             (Statements.InsertBudget Sample.budget_food_100)).
    - apply (Statements.reach_step
               (Store.mkDatabase [] [] [])
               (Store.mkDatabase [Sample.food] [] [])
               (Some "u"%string)
               (Statements.InsertCategory Sample.food)).
      + apply Statements.reach_empty.
      + vm_compute. reflexivity.
    - vm_compute. reflexivity. }
  split; [exact Hr|].
  apply (reachable_databases_are_consistent Sample.db Hr).
Defined.

(** The store of the sample in which user "v" has a transaction under
    the category of user "u" is one that accepted statements lead to. *)
Lemma db_shared_reachable : Statements.reachable Sample.db_shared.
Proof.
  apply (Statements.reach_step Sample.db Sample.db_shared
           (Some "v"%string)
           (Statements.InsertTransaction Sample.dinner));
    [|vm_compute; reflexivity].
  apply (Statements.reach_step
           (Store.mkDatabase [Sample.food] [] []) Sample.db
           (Some "u"%string)
           (Statements.InsertBudget Sample.budget_food_100));
    [|vm_compute; reflexivity].
  apply (Statements.reach_step
           (Store.mkDatabase [] [] [])
           (Store.mkDatabase [Sample.food] [] [])
           (Some "u"%string)
           (Statements.InsertCategory Sample.food));
    [|vm_compute; reflexivity].
  apply Statements.reach_empty.
Qed.

(** C9, the failing case.  User "u" creates the food category and a
    budget on it; user "v" inserts a transaction of their own that
    names that category, which the store accepts: the insert policy
    looks at [user_id] only and the foreign key asks only that the
    category exists.  User "u" cannot read that transaction.  When "u"
    deletes the food category, the cascade removes the transaction of
    "v" with it: afterwards "v" reads nothing.  The same delete sent by
    "v" reaches no category and changes nothing. *)
Theorem category_delete_removes_row_of_other_owner :
  Statements.exec (Some "u"%string)
      (Statements.InsertCategory Sample.food) (Store.mkDatabase [] [] [])
    = inr (Store.mkDatabase [Sample.food] [] [])
  /\ Statements.exec (Some "u"%string)
        (Statements.InsertBudget Sample.budget_food_100)
        (Store.mkDatabase [Sample.food] [] [])
      = inr Sample.db
  /\ Statements.exec (Some "v"%string)
        (Statements.InsertTransaction Sample.dinner) Sample.db
      = inr Sample.db_shared
  /\ t_user_id Sample.dinner = "v"%string
  /\ Store.rls_select Store.transactions_policies (Some "v"%string)
        (Store.transactions Sample.db_shared) = [Sample.dinner]
  /\ Store.rls_select Store.transactions_policies (Some "u"%string)
        (Store.transactions Sample.db_shared) = []
  /\ Statements.exec (Some "u"%string) (Statements.DeleteCategory "A")
        Sample.db_shared
      = inr (Store.mkDatabase [] [] [])
  /\ Store.rls_select Store.transactions_policies (Some "v"%string)
        (Store.transactions (Store.mkDatabase [] [] [])) = []
  /\ Statements.exec (Some "v"%string) (Statements.DeleteCategory "A")
        Sample.db_shared
      = inr Sample.db_shared.
Proof.
  split; [vm_compute; reflexivity|].
  split; [vm_compute; reflexivity|].
  split; [vm_compute; reflexivity|].
  split; [vm_compute; reflexivity|].
  split; [vm_compute; reflexivity|].
  split; [vm_compute; reflexivity|].
  split; [vm_compute; reflexivity|].
  split; vm_compute; reflexivity.
Qed.

(* ----------------------------------------------------------------- *)
(** ** Dashboard: what is loaded and the balance over it *)

Lemma sumAmounts_app (l1 l2 : list Transaction) :
  sumAmounts (l1 ++ l2) = sumAmounts l1 + sumAmounts l2.
Proof.
  induction l1 as [|t l1 IH]; [rewrite sumAmounts_nil; reflexivity|].
  cbn [app]. rewrite !sumAmounts_cons, IH. lia.
Qed.

Lemma sumAmounts_filter_perm (keep : Transaction -> bool)
      (l1 l2 : list Transaction) :
  Permutation l1 l2 ->
  sumAmounts (filter keep l1) = sumAmounts (filter keep l2).
Proof.
  induction 1 as [|t l1 l2 _ IH | t u l | l1 l2 l3 _ IH1 _ IH2].
  - reflexivity.
  - rewrite !sumAmounts_filter_cons, IH. reflexivity.
  - rewrite !sumAmounts_filter_cons. lia.
  - congruence.
Qed.

Lemma balance_perm (l1 l2 : list Transaction) :
  Permutation l1 l2 -> Dashboard.balance l1 = Dashboard.balance l2.
Proof.
  intro H. unfold Dashboard.balance, Dashboard.totalIncome,
             Dashboard.totalExpenses.
  rewrite (sumAmounts_filter_perm _ l1 l2 H).
  rewrite (sumAmounts_filter_perm
             (fun t => kind_eqb (t_type t) Expense) l1 l2 H).
  reflexivity.
Qed.

Lemma balance_app (l1 l2 : list Transaction) :
  Dashboard.balance (l1 ++ l2) = Dashboard.balance l1 + Dashboard.balance l2.
Proof.
  unfold Dashboard.balance, Dashboard.totalIncome, Dashboard.totalExpenses.
  rewrite !filter_app, !sumAmounts_app. lia.
Qed.

Lemma loaded_rows_are_own (caller : Store.Caller) (db : Store.Database)
      (t : Transaction) :
  In t (Loading.loadTransactions caller db) ->
  In t (Store.transactions db) /\ caller = Some (t_user_id t).
Proof.
  unfold Loading.loadTransactions. intro Hin. apply In_firstn in Hin.
  apply (Permutation_in _ (Permutation_sym (js_sort_perm _ _))) in Hin.
  apply (select_returns_own t_user_id Store.transactions_policies
           (fun _ _ => eq_refl) caller (Store.transactions db) t).
  exact Hin.
Qed.

(** X20. What the dashboard loads: at most 100 transactions, all of
    them rows of the table owned by the caller, latest date first; the
    caller's rows that are not loaded are dated no later than any loaded
    one; and every row of the caller is loaded when there are at most
    100. *)
Theorem loaded_transactions_are_the_latest_hundred
        (caller : Store.Caller) (db : Store.Database) :
  (List.length (Loading.loadTransactions caller db) <= 100)%nat
  /\ (forall t, In t (Loading.loadTransactions caller db) ->
                In t (Store.transactions db)
                /\ caller = Some (t_user_id t))
  /\ StronglySorted (not_below (fun t => dayNumber (t_date t)))
                    (Loading.loadTransactions caller db)
  /\ exists rest : list Transaction,
       Permutation
         (Loading.loadTransactions caller db ++ rest)
         (Store.rls_select Store.transactions_policies caller
                           (Store.transactions db))
       /\ (forall a b,
             In a (Loading.loadTransactions caller db) -> In b rest ->
             dayNumber (t_date b) <= dayNumber (t_date a))
       /\ ((List.length
              (Store.rls_select Store.transactions_policies caller
                                (Store.transactions db)) <= 100)%nat ->
           rest = []).
Proof.
  unfold Loading.loadTransactions.
  set (own := Store.rls_select Store.transactions_policies caller
                               (Store.transactions db)).
  set (sorted := js_sort (descending (fun t => dayNumber (t_date t))) own).
  assert (Hsorted : StronglySorted
                      (not_below (fun t => dayNumber (t_date t))) sorted).
  { apply (js_sort_descending (fun t => dayNumber (t_date t))). }
  split; [apply firstn_le_length|]. split; [|split].
  - intros t Hin. apply (loaded_rows_are_own caller db t Hin).
  - apply StronglySorted_firstn, Hsorted.
  - exists (skipn 100 sorted). split; [|split].
    + rewrite firstn_skipn. apply Permutation_sym, js_sort_perm.
    + intros a b Ha Hb.
      apply (kept_before_cut _ 100 sorted a b Hsorted Ha Hb).
    + intro Hlen. apply skipn_all2. unfold sorted.
      rewrite <- (Permutation_length (js_sort_perm _ own)). exact Hlen.
Qed.

(** X21. The balance the dashboard shows is the balance over the loaded
    transactions: it is the balance over all the caller's transactions
    when there are at most 100 of them; beyond 100, it is that balance
    less the balance of the transactions that were not loaded. *)
Theorem balance_covers_the_loaded_hundred
        (caller : Store.Caller) (db : Store.Database) :
  exists rest : list Transaction,
    Permutation
      (Loading.loadTransactions caller db ++ rest)
      (Store.rls_select Store.transactions_policies caller
                        (Store.transactions db))
    /\ Dashboard.balance (Loading.loadTransactions caller db)
       = Dashboard.balance
           (Store.rls_select Store.transactions_policies caller
                             (Store.transactions db))
         - Dashboard.balance rest
    /\ ((List.length
           (Store.rls_select Store.transactions_policies caller
                             (Store.transactions db)) <= 100)%nat ->
        Dashboard.balance (Loading.loadTransactions caller db)
        = Dashboard.balance
            (Store.rls_select Store.transactions_policies caller
                              (Store.transactions db))).
Proof.
  unfold Loading.loadTransactions.
  set (own := Store.rls_select Store.transactions_policies caller
                               (Store.transactions db)).
  set (sorted := js_sort (descending (fun t => dayNumber (t_date t))) own).
  assert (Hperm : Permutation (firstn 100 sorted ++ skipn 100 sorted) own).
  { rewrite firstn_skipn. apply Permutation_sym, js_sort_perm. }
  exists (skipn 100 sorted). split; [exact Hperm|]. split.
  - rewrite <- (balance_perm _ _ Hperm), balance_app. lia.
  - intro Hlen.
    assert (Hall : skipn 100 sorted = []).
    { apply skipn_all2. unfold sorted.
      rewrite <- (Permutation_length (js_sort_perm _ own)). exact Hlen. }
    rewrite <- (balance_perm _ _ Hperm), balance_app, Hall.
    change (Dashboard.balance []) with 0. lia.
Qed.

(** X23. In a database that accepted statements lead to, what a caller
    loads meets what the aggregation relies on: every loaded
    transaction has a positive amount, so the totals of the dashboard
    are not negative, and the categories the caller reads have distinct
    identifiers. *)
Theorem reachable_store_feeds_positive_amounts
        (caller : Store.Caller) (db : Store.Database) :
  Statements.reachable db ->
  (forall t, In t (Loading.loadTransactions caller db) -> 0 < t_amount t)
  /\ 0 <= Dashboard.totalIncome (Loading.loadTransactions caller db)
  /\ 0 <= Dashboard.totalExpenses (Loading.loadTransactions caller db)
  /\ NoDup (map c_id (Store.rls_select Store.categories_policies caller
                                       (Store.categories db))).
Proof.
  intro Hr.
  destruct (reachable_consistent db Hr) as [Hc [_ [_ [Htx _]]]].
  assert (Hpos : forall t, In t (Loading.loadTransactions caller db) ->
                           0 < t_amount t).
  { intros t Hin.
    destruct (loaded_rows_are_own caller db t Hin) as [Hin' _].
    rewrite Forall_forall in Htx. apply (Htx t Hin'). }
  split; [exact Hpos|].
  split; [|split].
  - unfold Dashboard.totalIncome. apply sumAmounts_filter_nonneg.
    intros t Ht. specialize (Hpos t Ht). lia.
  - unfold Dashboard.totalExpenses. apply sumAmounts_filter_nonneg.
    intros t Ht. specialize (Hpos t Ht). lia.
  - unfold Store.rls_select. apply ids_stay_distinct, Hc.
Qed.

(** In the store of the sample user "v" loads the one transaction they
    own, and user "u" reads the one category. *)
Lemma reachable_store_feeds_positive_amounts_witness :
  Statements.reachable Sample.db_shared
  /\ Loading.loadTransactions (Some "v"%string) Sample.db_shared
     = [Sample.dinner]
  /\ Store.rls_select Store.categories_policies (Some "u"%string)
                      (Store.categories Sample.db_shared)
     = [Sample.food]
  /\ (forall t,
        In t (Loading.loadTransactions (Some "v"%string) Sample.db_shared) ->
        0 < t_amount t)
  /\ 0 <= Dashboard.totalExpenses
            (Loading.loadTransactions (Some "v"%string) Sample.db_shared)
  /\ NoDup (map c_id
              (Store.rls_select Store.categories_policies (Some "u"%string)
                                (Store.categories Sample.db_shared))).
Proof.
  destruct (reachable_store_feeds_positive_amounts
              (Some "v"%string) Sample.db_shared db_shared_reachable)
    as [Hpos [_ [Hexp _]]].
  destruct (reachable_store_feeds_positive_amounts
              (Some "u"%string) Sample.db_shared db_shared_reachable)
    as [_ [_ [_ Hids]]].
  split; [exact db_shared_reachable|].
  split; [vm_compute; reflexivity|].
  split; [vm_compute; reflexivity|].
  split; [exact Hpos|]. split; [exact Hexp | exact Hids].
Defined.

(* ----------------------------------------------------------------- *)
(** ** The forms: no submit stores a row *)



(** With its owner named, the same row is accepted: the refusal is the
    payload's, not the store's.  User "u" proposes the lunch of the
    sample with and without [user_id]. *)
Example owner_named_is_accepted :
  Store.propose_transaction (Some "u"%string) "t9"
    (Store.mkNewTransaction None "A" (Some 1250) "lunch"
                            (mkDate 2024 1 10) Expense) Sample.db
  = inl Store.RowSecurityViolation
  /\ Store.propose_transaction (Some "u"%string) "t9"
       (Store.mkNewTransaction (Some "u"%string) "A" (Some 1250) "lunch"
                               (mkDate 2024 1 10) Expense) Sample.db
     = inr (Store.mkDatabase
              (Store.categories Sample.db)
              [mkTransaction "t9" "u" "A" 1250 "lunch" (mkDate 2024 1 10)
                             Expense]
              (Store.budgets Sample.db)).
Proof. split; vm_compute; reflexivity. Qed.

(* ----------------------------------------------------------------- *)
(** ** TransactionForm: the type buttons and the category select *)

Lemma choice_step (categories : list Category)
      (e : TransactionFields.Event) (s : Forms.TransactionForm.State) :
  TransactionFields.consistent_choice categories s ->
  TransactionFields.offered categories s e = true ->
  TransactionFields.consistent_choice categories (TransactionFields.on e s).
Proof.
  intros Hs Hoff.
  destruct e as [| | v | v | v | v]; cbn [TransactionFields.on];
    try (left; reflexivity); try exact Hs.
  cbn [TransactionFields.offered] in Hoff.
  apply existsb_exists in Hoff. destruct Hoff as [o [Hin Heq]].
  apply String.eqb_eq in Heq. subst o.
  unfold TransactionFields.options in Hin. destruct Hin as [<- | Hin].
  - left. reflexivity.
  - right. apply in_map_iff in Hin. destruct Hin as [c [Hid Hc]].
    unfold TransactionFields.filteredCategories in Hc.
    apply filter_In in Hc. destruct Hc as [Hc Hk].
    apply kind_eqb_eq in Hk.
    exists c. split; [exact Hc|]. split; [exact Hid | exact Hk].
Qed.

Lemma choice_kept (categories : list Category)
      (es : list TransactionFields.Event)
      (s : Forms.TransactionForm.State) :
  TransactionFields.consistent_choice categories s ->
  TransactionFields.possible categories es s = true ->
  TransactionFields.consistent_choice categories
                                      (TransactionFields.play es s).
Proof.
  revert s. induction es as [|e es IH]; intros s Hs Hp; [exact Hs|].
  cbn [TransactionFields.possible] in Hp.
  apply andb_true_iff in Hp. destruct Hp as [Hoff Hp].
  unfold TransactionFields.play. cbn [fold_left].
  apply (IH (TransactionFields.on e s)); [|exact Hp].
  apply choice_step; assumption.
Qed.

Lemma same_id_same_row {Row : Type} (id : Row -> string) (tbl : list Row)
      (r1 r2 : Row) :
  NoDup (map id tbl) -> In r1 tbl -> In r2 tbl -> id r1 = id r2 -> r1 = r2.
Proof.
  induction tbl as [|r tbl IH]; intros Hnd H1 H2 Heq; [destruct H1|].
  cbn [map] in Hnd. apply NoDup_cons_iff in Hnd.
  destruct Hnd as [Hfresh Hnd].
  destruct H1 as [-> | H1], H2 as [-> | H2].
  - reflexivity.
  - exfalso. apply Hfresh. rewrite Heq. apply in_map, H2.
  - exfalso. apply Hfresh. rewrite <- Heq. apply in_map, H1.
  - apply IH; assumption.
Qed.

(** X22. However the user presses the type buttons and changes the
    fields of a freshly opened transaction form, the category field is
    empty or names a category of the type then selected; so, with
    distinct category identifiers, a category named by the field has the
    type the form will send. *)
Theorem chosen_category_has_chosen_type
        (categories : list Category) (now : Z)
        (es : list TransactionFields.Event) :
  TransactionFields.possible categories es (TransactionFields.initial now)
    = true ->
  TransactionFields.consistent_choice categories
    (TransactionFields.play es (TransactionFields.initial now))
  /\ (NoDup (map c_id categories) ->
      forall c,
        In c categories ->
        c_id c = Forms.TransactionForm.categoryId
                   (TransactionFields.play es
                                           (TransactionFields.initial now)) ->
        Forms.TransactionForm.categoryId
          (TransactionFields.play es (TransactionFields.initial now))
          <> EmptyString ->
        c_type c = Forms.TransactionForm.type
                     (TransactionFields.play es
                        (TransactionFields.initial now))).
Proof.
  intro Hp.
  assert (Hinit : TransactionFields.consistent_choice
                    categories (TransactionFields.initial now)).
  { left. unfold TransactionFields.initial.
    destruct (civil_from_days (Day now)) as [[y m] d]. reflexivity. }
  pose proof (choice_kept categories es _ Hinit Hp) as Hc.
  split; [exact Hc|].
  intros Hnd c Hin Hid Hne.
  destruct Hc as [Hempty | [c0 [Hin0 [Hid0 Hty0]]]]; [contradiction|].
  rewrite <- Hty0. f_equal.
  apply (same_id_same_row c_id categories c c0 Hnd Hin Hin0).
  congruence.
Qed.

Lemma chosen_category_has_chosen_type_witness :
  TransactionFields.possible
    [Sample.food; Sample.salary]
    [TransactionFields.ClickIncome;
     TransactionFields.ChangeCategory "S";
     TransactionFields.ChangeAmount (Some 200000)]
    (TransactionFields.initial Sample.now) = true
  /\ TransactionFields.consistent_choice
       [Sample.food; Sample.salary]
       (TransactionFields.play
          [TransactionFields.ClickIncome;
           TransactionFields.ChangeCategory "S";
           TransactionFields.ChangeAmount (Some 200000)]
          (TransactionFields.initial Sample.now)).
Proof.
  assert (H : TransactionFields.possible
                [Sample.food; Sample.salary]
                [TransactionFields.ClickIncome;
                 TransactionFields.ChangeCategory "S";
                 TransactionFields.ChangeAmount (Some 200000)]
                (TransactionFields.initial Sample.now) = true)
    by (vm_compute; reflexivity).
  split; [exact H|].
  apply (chosen_category_has_chosen_type
           [Sample.food; Sample.salary] Sample.now _ H).
Defined.

(** A category of the other type is not among the options: with the
    form on expense, choosing the salary category is not possible. *)
Example other_type_not_offered :
  TransactionFields.possible
    [Sample.food; Sample.salary]
    [TransactionFields.ChangeCategory "S"]
    (TransactionFields.initial Sample.now) = false.
Proof. vm_compute. reflexivity. Qed.

(** X24. The date field of a freshly opened transaction form holds the
    UTC date of now.  That is the local date while the local time of
    day is at least the offset of the zone (east of UTC) and less than
    a day plus the offset (west of UTC); east of UTC before that time of
    the morning it is the day before the local date, and west of UTC
    from that time of the evening on it is the day after. *)
Theorem default_date_is_the_utc_date (tza now : Z) :
  dayNumber (Forms.TransactionForm.date (TransactionFields.initial now))
    = Day now
  /\ (tza <= TimeWithinDay (LocalTime tza now) < msPerDay + tza ->
      Day now = localDay tza now)
  /\ (0 < tza < msPerDay ->
      TimeWithinDay (LocalTime tza now) < tza ->
      Day now = localDay tza now - 1)
  /\ (- msPerDay < tza < 0 ->
      msPerDay + tza <= TimeWithinDay (LocalTime tza now) ->
      Day now = localDay tza now + 1).
Proof.
  split.
  - unfold TransactionFields.initial.
    destruct (civil_from_days (Day now)) as [[y m] d] eqn:E.
    cbn [Forms.TransactionForm.date].
    destruct (civil_from_days_spec _ _ _ _ E) as [Hm [_ Hz]].
    rewrite (dayNumber_civil (mkDate y m d) Hm). exact Hz.
  - unfold localDay, Day, TimeWithinDay, LocalTime, msPerDay.
    repeat split; intros; Z.div_mod_to_equations; lia.
Qed.

(** In New York at 20:00 on 10 January the form opens with 11 January. *)
Example default_date_new_york_evening :
  localDay Sample.new_york (Sample.now + 5 * 3600000) = 19732
  /\ Forms.TransactionForm.date
       (TransactionFields.initial (Sample.now + 5 * 3600000))
     = mkDate 2024 1 11.
Proof. split; vm_compute; reflexivity. Qed.

(* ----------------------------------------------------------------- *)
(** ** Sorting keeps equal keys in their order *)

Lemma js_insert_same_key {A : Type} (key : A -> Z) (k : Z) (x : A)
      (l : list A) :
  filter (fun y => key y =? k) (js_insert (descending key) x l)
  = filter (fun y => key y =? k) (x :: l).
Proof.
  induction l as [|y l IH]; [reflexivity|].
  cbn [js_insert]. unfold descending at 1.
  destruct (key y - key x <=? 0) eqn:Hc; [reflexivity|].
  apply Z.leb_gt in Hc.
  cbn [filter] in *. rewrite IH.
  destruct (key x =? k) eqn:Hx; [|reflexivity].
  apply Z.eqb_eq in Hx.
  destruct (key y =? k) eqn:Hy; [|reflexivity].
  apply Z.eqb_eq in Hy. lia.
Qed.

Lemma js_sort_same_key {A : Type} (key : A -> Z) (k : Z) (l : list A) :
  filter (fun y => key y =? k) (js_sort (descending key) l)
  = filter (fun y => key y =? k) l.
Proof.
  induction l as [|x l IH]; [reflexivity|].
  cbn [js_sort fold_right].
  fold (js_sort (descending key) l).
  rewrite js_insert_same_key. cbn [filter]. rewrite IH. reflexivity.
Qed.

(** X27. Categories with the same total appear in the card of top
    expenses in the order they have in the category list: for every
    amount, the listed items with that total are the first of the
    categories with that total, in the same order. *)
Theorem top_expenses_ties_keep_category_order
        (tza now : Z) (transactions : list Transaction)
        (categories : list Category) (amount : Z) :
  exists rest : list Stats.Item,
    filter (fun item => Stats.total item =? amount)
           (Stats.expensesByCategory tza now transactions categories)
    ++ rest
    = filter (fun item => Stats.total item =? amount)
             (filter (fun item => 0 <? Stats.total item)
                     (Stats.categoryTotals tza now transactions categories)).
Proof.
  unfold Stats.expensesByCategory.
  set (positive := filter (fun item => 0 <? Stats.total item)
                          (Stats.categoryTotals tza now transactions
                                                categories)).
  set (sorted := js_sort (fun a b => Stats.total b - Stats.total a) positive).
  exists (filter (fun item => Stats.total item =? amount)
                 (skipn 5 sorted)).
  rewrite <- filter_app, firstn_skipn.
  apply (js_sort_same_key Stats.total amount positive).
Qed.

(* ----------------------------------------------------------------- *)
(** ** Outside a session *)

Lemma signed_out_reaches_nothing {Row : Type} (P : Store.Policies Row)
      (target : Row -> bool) (tbl : list Row) :
  Store.rls_select P None tbl = []
  /\ Store.rls_delete P None target tbl = tbl.
Proof.
  unfold Store.rls_select, Store.rls_delete, Store.delete_reaches.
  cbn [Store.allowed andb negb].
  split.
  - induction tbl as [|r tbl IH]; [reflexivity | exact IH].
  - apply filter_keeps_all. reflexivity.
Qed.

(** X26. A request outside a session reads no row of any table, has
    every insert refused by the row-security policy, and deletes
    nothing: whatever it sends, the database stays as it is. *)
Theorem signed_out_reads_and_changes_nothing
        (db : Store.Database) (st : Statements.Statement) :
  Store.rls_select Store.categories_policies None (Store.categories db) = []
  /\ Store.rls_select Store.transactions_policies None
                      (Store.transactions db) = []
  /\ Store.rls_select Store.budgets_policies None (Store.budgets db) = []
  /\ Loading.loadTransactions None db = []
  /\ (Statements.exec None st db = inl Store.RowSecurityViolation
      \/ Statements.exec None st db = inr db).
Proof.
  split; [apply (signed_out_reaches_nothing _ (fun _ => true))|].
  split; [apply (signed_out_reaches_nothing _ (fun _ => true))|].
  split; [apply (signed_out_reaches_nothing _ (fun _ => true))|].
  split.
  - unfold Loading.loadTransactions.
    rewrite (proj1 (signed_out_reaches_nothing
                      Store.transactions_policies (fun _ => true)
                      (Store.transactions db))).
    reflexivity.
  - destruct st as [row | row | row | id | id | id];
      try (left; reflexivity); right; cbn [Statements.exec]; f_equal.
    + unfold Deleting.delete_category.
      assert (Hgone : filter (Deleting.category_deleted None id)
                             (Store.categories db) = []).
      { induction (Store.categories db) as [|c l IH];
          [reflexivity | exact IH]. }
      rewrite Hgone. cbn [existsb negb].
      rewrite !filter_keeps_all by reflexivity.
      rewrite (proj2 (signed_out_reaches_nothing _ _ _)).
      destruct db; reflexivity.
    + unfold Deleting.delete_transaction.
      rewrite (proj2 (signed_out_reaches_nothing _ _ _)).
      destruct db; reflexivity.
    + unfold Deleting.delete_budget.
      rewrite (proj2 (signed_out_reaches_nothing _ _ _)).
      destruct db; reflexivity.
Qed.
